(** * Health and Fitness Club Management System: business rules

    A shallow embedding of the three role modules of the repository
    ([app/member_functions.py], [app/trainer_functions.py],
    [app/admin_functions.py]) over a model of the SQLAlchemy session they
    share, followed by the properties of the booking, registration,
    maintenance and billing rules.

    Modelling conventions.
    - Text is [string]; [strip], [lower] and [upper] act on 7-bit ASCII.
    - A [date] is its proleptic ordinal ([date.toordinal()]), so that
      [(a - b).days] is [a - b]; [date.today()] is the parameter [today]
      of every operation.
    - A [time] carries the four fields of [datetime.time].
    - Measurements and amounts are Python floats: finite, infinite or NaN.
      A finite float is the decimal number it prints as, which is the text
      the driver sends to the database; a [Numeric] column rounds it and
      refuses what does not fit, an [Integer] column refuses what is not a
      32-bit integer.
    - A table is the list of its rows in the order an unordered query
      scans them.  The database does not promise that order and an UPDATE
      may move the row it writes; the model updates a row in place, so
      what is proved of a whole table is meant of its rows, not of their
      order.
    - An operation is a function from the session state to a result and
      the session state it leaves behind: a raised exception does not undo
      attribute assignments already made on a loaded object. *)

From Stdlib Require Import ZArith QArith Qabs String Ascii List Bool Lia
  Sorted Permutation.
Import ListNotations.
Local Open Scope string_scope.
Local Open Scope Z_scope.

(** ** Python text helpers *)
Module Text.

(** [str.isspace] on the ASCII range. *)
Definition is_space (c : ascii) : bool :=
  let n := nat_of_ascii c in
  ((9 <=? n) && (n <=? 13) || (28 <=? n) && (n <=? 32))%nat.

Fixpoint lstrip (s : string) : string :=
  match s with
  | EmptyString => EmptyString
  | String c r => if is_space c then lstrip r else s
  end.

Fixpoint rstrip (s : string) : string :=
  match s with
  | EmptyString => EmptyString
  | String c r =>
      match rstrip r with
      | EmptyString => if is_space c then EmptyString else String c EmptyString
      | r' => String c r'
      end
  end.

(** [s.strip()] *)
Definition strip (s : string) : string := rstrip (lstrip s).

Definition lower_char (c : ascii) : ascii :=
  let n := nat_of_ascii c in
  if ((65 <=? n) && (n <=? 90))%nat then ascii_of_nat (n + 32) else c.

Definition upper_char (c : ascii) : ascii :=
  let n := nat_of_ascii c in
  if ((97 <=? n) && (n <=? 122))%nat then ascii_of_nat (n - 32) else c.

Fixpoint map_chars (f : ascii -> ascii) (s : string) : string :=
  match s with
  | EmptyString => EmptyString
  | String c r => String (f c) (map_chars f r)
  end.

(** [s.lower()] and [s.upper()] *)
Definition lower : string -> string := map_chars lower_char.
Definition upper : string -> string := map_chars upper_char.

(** [c in s] for a one-character needle. *)
Fixpoint has_char (c : ascii) (s : string) : bool :=
  match s with
  | EmptyString => false
  | String a r => Ascii.eqb a c || has_char c r
  end.

(** [s.split(c)[-1]]: what follows the last [c], or all of [s]. *)
Fixpoint after_last (c : ascii) (s : string) : string :=
  match s with
  | EmptyString => EmptyString
  | String a r =>
      if has_char c r then after_last c r
      else if Ascii.eqb a c then r else s
  end.

(** [len(s) > n] *)
Definition longer_than (s : string) (n : nat) : bool :=
  (n <? String.length s)%nat.

(** [not s or not s.strip()] *)
Definition blank (s : string) : bool :=
  String.eqb s "" || String.eqb (strip s) "".

(** Truthiness of an [Optional[str]]. *)
Definition truthy (o : option string) : bool :=
  match o with
  | Some s => negb (String.eqb s "")
  | None => false
  end.

(** [s.strip() if s else None] *)
Definition strip_or_none (o : option string) : option string :=
  match o with
  | Some s => if String.eqb s "" then None else Some (strip s)
  | None => None
  end.

(** [x in xs] for a list of string literals. *)
Definition one_of (x : string) (xs : list string) : bool :=
  existsb (String.eqb x) xs.

End Text.

(** ** Dates and times *)

Definition date := Z.

Record time := mk_time
  { hour : Z; minute : Z; second : Z; microsecond : Z }.

(** The range every [datetime.time] value satisfies. *)
Definition valid_time (t : time) : Prop :=
  0 <= hour t < 24 /\ 0 <= minute t < 60 /\
  0 <= second t < 60 /\ 0 <= microsecond t < 1000000.

(** Microseconds since midnight. *)
Definition to_us (t : time) : Z :=
  ((hour t * 60 + minute t) * 60 + second t) * 1000000 + microsecond t.

(** Python and SQL order times by their fields, hour first; on valid
    times that is the order of [to_us] (lemma [time_ltb_fields]). *)
Definition time_ltb (a b : time) : bool := to_us a <? to_us b.
Definition time_leb (a b : time) : bool := to_us a <=? to_us b.

(** [datetime.combine(d, b) - datetime.combine(d, a)], in microseconds. *)
Definition time_diff (a b : time) : Z := to_us b - to_us a.

(** [int(time_diff.total_seconds() / 60)] for [a < b]: the quotient is
    far from the precision limit of a double, so truncation of the float
    is truncation of the exact quotient. *)
Definition whole_minutes (a b : time) : Z := time_diff a b / 60000000.

(** The strict overlap test of the booking queries:
    [StartTime < end_time AND EndTime > start_time]. *)
Definition overlaps (ex_start ex_end new_start new_end : time) : bool :=
  time_ltb ex_start new_end && time_ltb new_start ex_end.

(** ** Numbers *)

(** A Python [float]: [cli.py] reads measurements and amounts with
    [float(...)], which also accepts "nan" and "inf".  A finite float is
    modelled by the decimal number it prints as ([repr]), the text the
    database driver sends; the order of these decimals is the order of the
    floats. *)
Inductive float :=
| Finite (q : Q)
| Infinity (negative : bool)
| NaN.

(** [a <= b], [a < b] and [a > b]: false as soon as one side is NaN. *)
Definition float_leb (a b : float) : bool :=
  match a, b with
  | NaN, _ | _, NaN => false
  | Finite x, Finite y => Qle_bool x y
  | Infinity true, _ | _, Infinity false => true
  | Finite _, Infinity true | Infinity false, _ => false
  end.

Definition float_ltb (a b : float) : bool :=
  match a, b with
  | NaN, _ | _, NaN => false
  | _, _ => negb (float_leb b a)
  end.

Definition float_gtb (a b : float) : bool := float_ltb b a.

(** [n / d] for [0 <= n] and [0 < d], to the nearest integer; a tie goes
    to the even neighbour or away from zero. *)
Definition nearest (to_even : bool) (n d : Z) : Z :=
  let lo := n / d in
  let twice := 2 * (n mod d) in
  if twice <? d then lo
  else if d <? twice then lo + 1
  else if to_even && Z.even lo then lo else lo + 1.

Definition rounded (to_even : bool) (q : Q) : Z :=
  Z.sgn (Qnum q) * nearest to_even (Z.abs (Qnum q)) (Z.pos (Qden q)).

Definition pow2 (e : Z) : Q :=
  if 0 <=? e then inject_Z (2 ^ e) else 1 # Z.to_pos (2 ^ (- e)).

(** The [e] with [2 ^ e <= n / d < 2 ^ (e + 1)], for [0 < n] and [0 < d]. *)
Definition floor_log2 (n d : Z) : Z :=
  let e := Z.log2 n - Z.log2 d in
  if Qle_bool (pow2 e) (n # Z.to_pos d) then e else e - 1.

(** The binary value of the float that prints as [q]: the nearest number
    with a 53-bit significand and a last place of at least [2 ^ -1074],
    ties to even (sizes beyond the range of a double do not occur). *)
Definition binary64 (q : Q) : Q :=
  let n := Z.abs (Qnum q) in
  if n =? 0 then 0%Q
  else
    let ulp := pow2 (Z.max (floor_log2 n (Z.pos (Qden q)) - 52) (-1074)) in
    Qred (inject_Z (rounded true (q / ulp)) * ulp).

(** [round(x, 2)]: Python rounds the binary value to the nearest
    hundredth, ties to even, and the result prints with two decimals (for
    the sizes below [10 ^ 15] that reach it here); NaN and the infinities
    come back as they are. *)
Definition round2 (x : float) : float :=
  match x with
  | Finite q => Finite (Qred (rounded true (binary64 q * inject_Z 100) # 100))
  | _ => x
  end.

(** What a [Numeric(p, 2)] column holds once [x] is stored: PostgreSQL
    rounds the decimal it is sent to two places, ties away from zero, and
    keeps NaN. *)
Definition numeric2 (x : float) : float :=
  match x with
  | Finite q => Finite (Qred (rounded false (q * inject_Z 100) # 100))
  | _ => x
  end.

(** [x] is NaN, or finite and in the range [P]. *)
Definition nan_or (P : Q -> Prop) (x : float) : Prop :=
  match x with
  | Finite q => P q
  | Infinity _ => False
  | NaN => True
  end.

(** ** Entities ([models/]) *)

Module Member.
Record t := mk
  { MemberID : Z;
    FirstName : string;
    LastName : string;
    DateOfBirth : option date;
    Gender : option string;
    Email : string;
    Phone : option string;
    Address : option string;
    JoinDate : option date;
    MembershipStatus : option string }.

Definition set_FirstName (v : string) (m : t) : t :=
  mk (MemberID m) v (LastName m) (DateOfBirth m) (Gender m) (Email m)
    (Phone m) (Address m) (JoinDate m) (MembershipStatus m).
Definition set_LastName (v : string) (m : t) : t :=
  mk (MemberID m) (FirstName m) v (DateOfBirth m) (Gender m) (Email m)
    (Phone m) (Address m) (JoinDate m) (MembershipStatus m).
Definition set_Phone (v : option string) (m : t) : t :=
  mk (MemberID m) (FirstName m) (LastName m) (DateOfBirth m) (Gender m)
    (Email m) v (Address m) (JoinDate m) (MembershipStatus m).
Definition set_Address (v : option string) (m : t) : t :=
  mk (MemberID m) (FirstName m) (LastName m) (DateOfBirth m) (Gender m)
    (Email m) (Phone m) v (JoinDate m) (MembershipStatus m).
Definition set_DateOfBirth (v : option date) (m : t) : t :=
  mk (MemberID m) (FirstName m) (LastName m) v (Gender m) (Email m)
    (Phone m) (Address m) (JoinDate m) (MembershipStatus m).
Definition set_Gender (v : option string) (m : t) : t :=
  mk (MemberID m) (FirstName m) (LastName m) (DateOfBirth m) v (Email m)
    (Phone m) (Address m) (JoinDate m) (MembershipStatus m).
End Member.

Module Trainer.
Record t := mk
  { TrainerID : Z;
    FirstName : string;
    LastName : string;
    Email : string;
    Specialty : option string }.
End Trainer.

Module AdminStaff.
Record t := mk
  { AdminID : Z;
    FirstName : string;
    LastName : string;
    Email : string;
    Role : option string }.
End AdminStaff.

Module Room.
Record t := mk
  { RoomID : Z;
    RoomNumber : string;
    RoomCapacity : option Z;
    RoomType : option string }.
End Room.

Module PersonalTrainingSession.
Record t := mk
  { SessionID : Z;
    TrainerID : Z;
    MemberID : Z;
    RoomID : option Z;
    SessionDate : date;
    StartTime : time;
    EndTime : time;
    DurationMinutes : option Z;
    SessionType : option string;
    MaxCapacity : option Z;
    CurrentEnrollment : option Z;
    Notes : option string }.

Definition set_RoomID (v : option Z) (p : t) : t :=
  mk (SessionID p) (TrainerID p) (MemberID p) v (SessionDate p) (StartTime p)
    (EndTime p) (DurationMinutes p) (SessionType p) (MaxCapacity p)
    (CurrentEnrollment p) (Notes p).
End PersonalTrainingSession.

Module HealthMetric.
Record t := mk
  { HealthMetricID : Z;
    MemberID : Z;
    RecordedDate : date;
    Height : option float;
    Weight : option float;
    BodyFatPercentage : option float;
    RestingHeartRate : option Z;
    Notes : option string }.
End HealthMetric.

Module FitnessGoal.
Record t := mk
  { GoalID : Z;
    MemberID : Z;
    GoalType : string;
    TargetBodyWeight : option float;
    TargetBodyFatPercentage : option float;
    SetDate : option date;
    TargetDate : option date;
    GoalStatus : option string;
    Notes : option string }.
End FitnessGoal.

Module Invoice.
Record t := mk
  { InvoiceID : Z;
    InvoiceNumber : string;
    PayerID : Z;
    SessionID : option Z;
    InvoiceDate : date;
    DueDate : date;
    Amount : float;
    PaymentMethod : option string;
    PaymentStatus : option string;
    ServiceDescription : option string;
    PaidDate : option date }.

Definition set_payment (status method : option string) (paid : option date)
    (i : t) : t :=
  mk (InvoiceID i) (InvoiceNumber i) (PayerID i) (SessionID i) (InvoiceDate i)
    (DueDate i) (Amount i) method status (ServiceDescription i) paid.
End Invoice.

Module MaintenanceIssue.
Record t := mk
  { IssueID : Z;
    RoomID : Z;
    AdminID : Z;
    IssueDescription : string;
    EquipmentName : option string;
    ReportedDate : date;
    Priority : option string;
    Status : option string;
    AssignedRepairDate : option date;
    ResolutionDate : option date;
    ResolutionNotes : option string }.

Definition set_Status (v : option string) (i : t) : t :=
  mk (IssueID i) (RoomID i) (AdminID i) (IssueDescription i) (EquipmentName i)
    (ReportedDate i) (Priority i) v (AssignedRepairDate i) (ResolutionDate i)
    (ResolutionNotes i).
Definition set_AssignedRepairDate (v : option date) (i : t) : t :=
  mk (IssueID i) (RoomID i) (AdminID i) (IssueDescription i) (EquipmentName i)
    (ReportedDate i) (Priority i) (Status i) v (ResolutionDate i)
    (ResolutionNotes i).
Definition set_ResolutionDate (v : option date) (i : t) : t :=
  mk (IssueID i) (RoomID i) (AdminID i) (IssueDescription i) (EquipmentName i)
    (ReportedDate i) (Priority i) (Status i) (AssignedRepairDate i) v
    (ResolutionNotes i).
Definition set_ResolutionNotes (v : option string) (i : t) : t :=
  mk (IssueID i) (RoomID i) (AdminID i) (IssueDescription i) (EquipmentName i)
    (ReportedDate i) (Priority i) (Status i) (AssignedRepairDate i)
    (ResolutionDate i) v.
End MaintenanceIssue.

(** ** The store *)

Record Tables := mk_tables
  { Members : list Member.t;
    Trainers : list Trainer.t;
    Admins : list AdminStaff.t;
    Rooms : list Room.t;
    Sessions : list PersonalTrainingSession.t;
    HealthMetrics : list HealthMetric.t;
    FitnessGoals : list FitnessGoal.t;
    Invoices : list Invoice.t;
    MaintenanceIssues : list MaintenanceIssue.t }.

Definition empty_tables : Tables := mk_tables [] [] [] [] [] [] [] [] [].

Definition with_Members (f : list Member.t -> list Member.t) (t : Tables) :=
  mk_tables (f (Members t)) (Trainers t) (Admins t) (Rooms t) (Sessions t)
    (HealthMetrics t) (FitnessGoals t) (Invoices t) (MaintenanceIssues t).

Definition with_Sessions
    (f : list PersonalTrainingSession.t -> list PersonalTrainingSession.t)
    (t : Tables) :=
  mk_tables (Members t) (Trainers t) (Admins t) (Rooms t) (f (Sessions t))
    (HealthMetrics t) (FitnessGoals t) (Invoices t) (MaintenanceIssues t).

Definition with_HealthMetrics
    (f : list HealthMetric.t -> list HealthMetric.t) (t : Tables) :=
  mk_tables (Members t) (Trainers t) (Admins t) (Rooms t) (Sessions t)
    (f (HealthMetrics t)) (FitnessGoals t) (Invoices t) (MaintenanceIssues t).

Definition with_FitnessGoals
    (f : list FitnessGoal.t -> list FitnessGoal.t) (t : Tables) :=
  mk_tables (Members t) (Trainers t) (Admins t) (Rooms t) (Sessions t)
    (HealthMetrics t) (f (FitnessGoals t)) (Invoices t) (MaintenanceIssues t).

Definition with_Invoices (f : list Invoice.t -> list Invoice.t) (t : Tables) :=
  mk_tables (Members t) (Trainers t) (Admins t) (Rooms t) (Sessions t)
    (HealthMetrics t) (FitnessGoals t) (f (Invoices t)) (MaintenanceIssues t).

Definition with_MaintenanceIssues
    (f : list MaintenanceIssue.t -> list MaintenanceIssue.t) (t : Tables) :=
  mk_tables (Members t) (Trainers t) (Admins t) (Rooms t) (Sessions t)
    (HealthMetrics t) (FitnessGoals t) (Invoices t) (f (MaintenanceIssues t)).

(** The state of the one [Session] object that [cli.py] opens and hands to
    every operation ([SessionLocal], [autoflush=False]): the rows the
    database has committed, and the rows as the session's loaded objects
    currently show them.  Queries filter on the committed rows and hand
    back the loaded objects; [commit] writes the objects out; [rollback]
    discards what they hold. *)
Record OrmSession := mk_session
  { committed : Tables;
    working : Tables }.

Definition clean (t : Tables) : OrmSession := mk_session t t.

(** ** Column constraints the database enforces at flush

    [String(n)] columns reject longer text, [Numeric(p, 2)] columns a
    number of [10 ^ (p - 2)] or more in size, [Integer] columns a number
    that is not a 32-bit integer (data errors); [unique=True] columns
    reject a second equal value (an integrity error).  Only the tables
    the operations write are checked. *)

Definition fits (n : nat) (s : string) : bool := (String.length s <=? n)%nat.

Definition fits_opt (n : nat) (o : option string) : bool :=
  match o with
  | Some s => fits n s
  | None => true
  end.

(** A [Numeric] column with [digits] digits before the point: NaN fits,
    an infinity does not. *)
Definition numeric_fits (digits : Z) (o : option float) : bool :=
  match o with
  | Some (Finite q) => negb (Qle_bool (inject_Z (10 ^ digits)) (Qabs q))
  | Some (Infinity _) => false
  | Some NaN | None => true
  end.

Definition integer_fits (o : option Z) : bool :=
  match o with
  | Some z => (- 2 ^ 31 <=? z) && (z <? 2 ^ 31)
  | None => true
  end.

Definition member_fits (m : Member.t) : bool :=
  fits 50 (Member.FirstName m) && fits 50 (Member.LastName m) &&
  fits_opt 1 (Member.Gender m) && fits 100 (Member.Email m) &&
  fits_opt 20 (Member.Phone m) && fits_opt 200 (Member.Address m) &&
  fits_opt 20 (Member.MembershipStatus m).

Definition session_fits (p : PersonalTrainingSession.t) : bool :=
  fits_opt 50 (PersonalTrainingSession.SessionType p) &&
  integer_fits (PersonalTrainingSession.DurationMinutes p) &&
  integer_fits (PersonalTrainingSession.MaxCapacity p) &&
  integer_fits (PersonalTrainingSession.CurrentEnrollment p).

Definition metric_fits (h : HealthMetric.t) : bool :=
  numeric_fits 3 (HealthMetric.Height h) &&
  numeric_fits 3 (HealthMetric.Weight h) &&
  numeric_fits 3 (HealthMetric.BodyFatPercentage h) &&
  integer_fits (HealthMetric.RestingHeartRate h).

Definition goal_fits (g : FitnessGoal.t) : bool :=
  fits 50 (FitnessGoal.GoalType g) && fits_opt 20 (FitnessGoal.GoalStatus g) &&
  numeric_fits 3 (FitnessGoal.TargetBodyWeight g) &&
  numeric_fits 3 (FitnessGoal.TargetBodyFatPercentage g).

Definition invoice_fits (i : Invoice.t) : bool :=
  fits 20 (Invoice.InvoiceNumber i) && fits_opt 30 (Invoice.PaymentMethod i) &&
  fits_opt 20 (Invoice.PaymentStatus i) &&
  fits_opt 200 (Invoice.ServiceDescription i) &&
  numeric_fits 8 (Some (Invoice.Amount i)).

Definition issue_fits (i : MaintenanceIssue.t) : bool :=
  fits_opt 100 (MaintenanceIssue.EquipmentName i) &&
  fits_opt 20 (MaintenanceIssue.Priority i) &&
  fits_opt 20 (MaintenanceIssue.Status i).

Definition widths_ok (t : Tables) : bool :=
  forallb member_fits (Members t) && forallb session_fits (Sessions t) &&
  forallb goal_fits (FitnessGoals t) && forallb invoice_fits (Invoices t) &&
  forallb issue_fits (MaintenanceIssues t) &&
  forallb metric_fits (HealthMetrics t).

(** No two elements of [l] are equal. *)
Fixpoint distinct (l : list string) : bool :=
  match l with
  | [] => true
  | x :: r => negb (existsb (String.eqb x) r) && distinct r
  end.

Definition unique_ok (t : Tables) : bool :=
  distinct (map Member.Email (Members t)) &&
  distinct (map Invoice.InvoiceNumber (Invoices t)).

(** ** Exceptions and the operation monad *)

(** The reason a [ValueError] carries; each constructor stands for one
    message of the source, with the values the message interpolates. *)
Inductive reason :=
| IdNotPositive (what : string)
| NotFound (what : string) (id : Z)
| Required (field : string)
| CannotBeEmpty (field : string)
| TooLong (field : string) (limit : nat)
| InvalidEmailFormat
| InFuture (field : string)
| TooFarInPast (field : string)
| TooFarInFuture (field : string)
| InPast (field : string)
| AgeExceedsLimit
| TooYoung
| InvalidDateOfBirth
| NotOneOf (field : string) (allowed : list string)
| EmailExists (email : string)
| InvoiceNumberExists (number : string)
| NothingToUpdate
| NoTarget
| NoMetric
| MustBePositive (field : string)
| ExceedsLimit (field : string)
| OutOfRange (field : string)
| StartNotBeforeEnd
| TooShort
| TooLongDuration
| GroupNeedsCapacity
| CapacityOver100
| ExceedsRoomCapacity (wanted have : Z)
| TrainerConflict (session : Z) (from to : time)
| RoomConflict (session : Z) (from to : time)
| MemberConflict (session : Z)
| SlotConflict (session : Z) (from to : time)
| PastSession
| RoomAlreadyAssigned (room : Z)
| RoomBooked (session : Z) (at_ : time) (on : date)
| ClosedIssue
| ResolvedOnlyClosed
| RepairBeforeReported
| RepairTooFar
| ResolutionNeedsResolved
| ResolutionBeforeReported
| ResolutionInFuture
| ResolutionBeforeRepair
| DueBeforeInvoice
| DueTooFar
| SessionNotOfPayer (session payer : Z)
| AlreadyPaid (invoice : Z)
| PaidBeforeInvoice
| Failed (operation : string).

Inductive exn :=
| ValueError (r : reason)
| IntegrityError
| DataError.

Inductive Result (A : Type) :=
| Ok (a : A)
| Raise (e : exn).
Arguments Ok {A} a.
Arguments Raise {A} e.

Definition is_ok {A} (r : Result A) : bool :=
  match r with Ok _ => true | Raise _ => false end.

Definition M (A : Type) : Type := OrmSession -> Result A * OrmSession.

Definition ret {A} (a : A) : M A := fun s => (Ok a, s).

Definition bind {A B} (m : M A) (k : A -> M B) : M B :=
  fun s =>
    match m s with
    | (Ok a, s') => k a s'
    | (Raise e, s') => (Raise e, s')
    end.

Definition raise {A} (r : reason) : M A := fun s => (Raise (ValueError r), s).

(** [if b: raise ValueError(r)] *)
Definition raise_if (b : bool) (r : reason) : M unit :=
  if b then raise r else ret tt.

(** [try: body except IntegrityError: h1 except Exception: h2] *)
Definition try_except {A} (body : M A) (handler : exn -> M A) : M A :=
  fun s =>
    match body s with
    | (Ok a, s') => (Ok a, s')
    | (Raise e, s') => handler e s'
    end.

Declare Scope orm_scope.
Delimit Scope orm_scope with orm.
Notation "x <- c ;; k" := (bind c (fun x => k))
  (at level 61, c at next level, right associativity) : orm_scope.
Notation "c ;; k" := (bind c (fun _ => k))
  (at level 61, right associativity) : orm_scope.
Local Open Scope orm_scope.

(** ** Session primitives *)

(** The table after a row is added. *)
Definition insert {R} (row : R) (rows : list R) : list R :=
  (rows ++ [row])%list.

Section Query.
Context {R : Type} (tbl : Tables -> list R) (key : R -> Z).

(** The loaded object for a row the database returned: the session keeps
    one object per primary key and does not overwrite what it holds. *)
Definition loaded (s : OrmSession) (row : R) : R :=
  match find (fun o => key o =? key row) (tbl (working s)) with
  | Some o => o
  | None => row
  end.

(** [db.query(T).filter(p).first()] *)
Definition query_first (p : R -> bool) : M (option R) :=
  fun s => (Ok (option_map (loaded s) (find p (tbl (committed s)))), s).

(** [db.query(T).filter(p).order_by(...).all()] *)
Definition query_ordered (p : R -> bool) (order : list R -> list R)
    : M (list R) :=
  fun s => (Ok (map (loaded s) (order (filter p (tbl (committed s))))), s).

(** The primary key the database gives the next inserted row: a key no
    row of the table has.  (The sequence of a real table may skip values,
    after a failed insert; only the freshness of the key is used.) *)
Definition next_id (rows : list R) : Z :=
  1 + fold_right (fun r acc => Z.max (key r) acc) 0 rows.

(** Replace the object with key [k], where it stands. *)
Definition assign (k : Z) (f : R -> R) (rows : list R) : list R :=
  map (fun o => if key o =? k then f o else o) rows.

End Query.

(** [db.commit()]: flush the session's objects; the database refuses a
    row that overflows a column or repeats a unique value. *)
Definition db_commit : M unit :=
  fun s =>
    if negb (widths_ok (working s)) then (Raise DataError, s)
    else if negb (unique_ok (working s)) then (Raise IntegrityError, s)
    else (Ok tt, mk_session (working s) (working s)).

(** [db.rollback()] *)
Definition db_rollback : M unit :=
  fun s => (Ok tt, mk_session (committed s) (committed s)).

(** An attribute assignment on one of the session's objects. *)
Definition modify (f : Tables -> Tables) : M unit :=
  fun s => (Ok tt, mk_session (committed s) (f (working s))).

(** [db.add(row)]: a new object, with the primary key the database will
    give it at flush.  The operations build the row as the database will
    hold it, a [Numeric] value rounded as its column rounds it: nothing reads
    the object before [refresh] loads it again. *)
Definition db_add {R} (tbl : Tables -> list R)
    (with_tbl : (list R -> list R) -> Tables -> Tables) (key : R -> Z)
    (new : Z -> R) : M R :=
  fun s =>
    let row := new (next_id key (tbl (working s))) in
    (Ok row, mk_session (committed s) (with_tbl (insert row) (working s))).

(** [db.refresh(obj)] followed by [return obj]. *)
Definition refreshed {R} (tbl : Tables -> list R) (key : R -> Z) (k : Z)
    (fallback : R) : M R :=
  fun s =>
    match find (fun o => key o =? k) (tbl (committed s)) with
    | Some o => (Ok o, s)
    | None => (Ok fallback, s)
    end.

(** ** Shared pieces of the validators *)

Definition is_some {A} (o : option A) : bool :=
  match o with Some _ => true | None => false end.

(** Truthiness of an [Optional[int]]. *)
Definition nonzero (o : option Z) : bool :=
  match o with Some z => negb (z =? 0) | None => false end.

(** [gender and gender.upper() not in ['M', 'F', 'O', '']] *)
Definition bad_gender (gender : option string) : bool :=
  match gender with
  | Some g =>
      negb (String.eqb g "") &&
      negb (Text.one_of (Text.upper g) ["M"; "F"; "O"; ""])
  | None => false
  end.

(** [gender.upper() if gender else None] *)
Definition upper_or_none (gender : option string) : option string :=
  match gender with
  | Some g => if String.eqb g "" then None else Some (Text.upper g)
  | None => None
  end.

(** Run [k] on the value of an optional argument that is not [None]. *)
Definition when_given {A} (o : option A) (k : A -> M unit) : M unit :=
  match o with
  | Some a => k a
  | None => ret tt
  end.

Definition member_by_id (member_id : Z) (m : Member.t) : bool :=
  Member.MemberID m =? member_id.

(** ** Member operations ([app/member_functions.py]) *)

Definition membership_statuses : list string :=
  ["Active"; "Inactive"; "Suspended"; "Cancelled"].

Definition register_member (today : date)
    (first_name last_name email : string) (date_of_birth : option date)
    (gender phone address : option string) (membership_status : string)
    : M Member.t :=
  raise_if (Text.blank first_name) (Required "First name") ;;
  raise_if (Text.blank last_name) (Required "Last name") ;;
  raise_if (Text.blank email) (Required "Email") ;;
  raise_if (negb (Text.has_char "@" email) ||
            negb (Text.has_char "." (Text.after_last "@" email)))
    InvalidEmailFormat ;;
  raise_if (Text.longer_than first_name 50) (TooLong "First name" 50) ;;
  raise_if (Text.longer_than last_name 50) (TooLong "Last name" 50) ;;
  raise_if (Text.longer_than email 100) (TooLong "Email" 100) ;;
  when_given date_of_birth (fun dob =>
    raise_if (today <? dob) (InFuture "Date of birth") ;;
    let age := (today - dob) / 365 in
    raise_if (120 <? age) AgeExceedsLimit ;;
    raise_if (age <? 13) TooYoung) ;;
  raise_if (bad_gender gender) (NotOneOf "Gender" ["M"; "F"; "O"; ""]) ;;
  raise_if (negb (Text.one_of membership_status membership_statuses))
    (NotOneOf "Membership status" membership_statuses) ;;
  existing <- query_first Members Member.MemberID
                (fun m => String.eqb (Member.Email m) email) ;;
  raise_if (is_some existing) (EmailExists email) ;;
  try_except
    (new_member <-
       db_add Members with_Members Member.MemberID (fun id =>
         Member.mk id (Text.strip first_name) (Text.strip last_name)
           date_of_birth (upper_or_none gender) (Text.lower (Text.strip email))
           (Text.strip_or_none phone) (Text.strip_or_none address)
           (Some today) (Some membership_status)) ;;
     db_commit ;;
     refreshed Members Member.MemberID (Member.MemberID new_member) new_member)
    (fun e =>
       match e with
       | IntegrityError => db_rollback ;; raise (EmailExists email)
       | _ => db_rollback ;; raise (Failed "Registration")
       end).

Definition update_profile (today : date) (member_id : Z)
    (first_name last_name phone address : option string)
    (date_of_birth : option date) (gender : option string) : M Member.t :=
  raise_if (member_id <=? 0) (IdNotPositive "Member") ;;
  raise_if (negb (is_some first_name) && negb (is_some last_name) &&
            negb (is_some phone) && negb (is_some address) &&
            negb (is_some date_of_birth) && negb (is_some gender))
    NothingToUpdate ;;
  found <- query_first Members Member.MemberID (member_by_id member_id) ;;
  match found with
  | None => raise (NotFound "Member" member_id)
  | Some member =>
      let set f := modify (with_Members
                     (assign Member.MemberID (Member.MemberID member) f)) in
      when_given first_name (fun v =>
        raise_if (String.eqb (Text.strip v) "") (CannotBeEmpty "First name") ;;
        raise_if (Text.longer_than v 50) (TooLong "First name" 50) ;;
        set (Member.set_FirstName (Text.strip v))) ;;
      when_given last_name (fun v =>
        raise_if (String.eqb (Text.strip v) "") (CannotBeEmpty "Last name") ;;
        raise_if (Text.longer_than v 50) (TooLong "Last name" 50) ;;
        set (Member.set_LastName (Text.strip v))) ;;
      when_given phone (fun v =>
        raise_if (negb (String.eqb v "") && Text.longer_than v 20)
          (TooLong "Phone number" 20) ;;
        set (Member.set_Phone (Text.strip_or_none (Some v)))) ;;
      when_given address (fun v =>
        raise_if (negb (String.eqb v "") && Text.longer_than v 200)
          (TooLong "Address" 200) ;;
        set (Member.set_Address (Text.strip_or_none (Some v)))) ;;
      when_given date_of_birth (fun dob =>
        raise_if (today <? dob) (InFuture "Date of birth") ;;
        let age := (today - dob) / 365 in
        raise_if ((120 <? age) || (age <? 13)) InvalidDateOfBirth ;;
        set (Member.set_DateOfBirth (Some dob))) ;;
      when_given gender (fun g =>
        raise_if (bad_gender (Some g)) (NotOneOf "Gender" ["M"; "F"; "O"; ""]) ;;
        set (Member.set_Gender (upper_or_none (Some g)))) ;;
      try_except
        (db_commit ;;
         refreshed Members Member.MemberID (Member.MemberID member) member)
        (fun _ => db_rollback ;; raise (Failed "Profile update"))
  end.

Definition goal_statuses : list string :=
  ["Active"; "Completed"; "Cancelled"; "On Hold"].

Definition add_fitness_goal (today : date) (member_id : Z) (goal_type : string)
    (target_body_weight target_body_fat : option float)
    (target_date : option date) (goal_status : string) (notes : option string)
    : M FitnessGoal.t :=
  raise_if (member_id <=? 0) (IdNotPositive "Member") ;;
  raise_if (Text.blank goal_type) (Required "Goal type") ;;
  raise_if (Text.longer_than goal_type 50) (TooLong "Goal type" 50) ;;
  when_given target_body_weight (fun w =>
    raise_if (float_leb w (Finite 0)) (MustBePositive "Target body weight") ;;
    raise_if (float_gtb w (Finite 1000)) (ExceedsLimit "Target body weight")) ;;
  when_given target_body_fat (fun f =>
    raise_if (float_ltb f (Finite 0) || float_gtb f (Finite 100))
      (OutOfRange "Target body fat")) ;;
  when_given target_date (fun d =>
    raise_if (d <? today) (InPast "Target date") ;;
    raise_if (3650 <? d - today) (TooFarInFuture "Target date")) ;;
  raise_if (negb (Text.one_of goal_status goal_statuses))
    (NotOneOf "Goal status" goal_statuses) ;;
  found <- query_first Members Member.MemberID (member_by_id member_id) ;;
  raise_if (negb (is_some found)) (NotFound "Member" member_id) ;;
  raise_if (negb (is_some target_body_weight) &&
            negb (is_some target_body_fat)) NoTarget ;;
  try_except
    (new_goal <-
       db_add FitnessGoals with_FitnessGoals FitnessGoal.GoalID (fun id =>
         FitnessGoal.mk id member_id (Text.strip goal_type)
           (option_map numeric2 target_body_weight)
           (option_map numeric2 target_body_fat) (Some today) target_date
           (Some goal_status) (Text.strip_or_none notes)) ;;
     db_commit ;;
     refreshed FitnessGoals FitnessGoal.GoalID (FitnessGoal.GoalID new_goal)
       new_goal)
    (fun _ => db_rollback ;; raise (Failed "add fitness goal")).

Definition log_health_metric (today : date) (member_id : Z)
    (recorded_date : date) (height weight body_fat_percentage : option float)
    (resting_heart_rate : option Z) (notes : option string)
    : M HealthMetric.t :=
  raise_if (member_id <=? 0) (IdNotPositive "Member") ;;
  raise_if (today <? recorded_date) (InFuture "Recorded date") ;;
  raise_if (36500 <? today - recorded_date) (TooFarInPast "Recorded date") ;;
  raise_if (negb (is_some height) && negb (is_some weight) &&
            negb (is_some body_fat_percentage) &&
            negb (is_some resting_heart_rate)) NoMetric ;;
  when_given height (fun h =>
    raise_if (float_leb h (Finite 0)) (MustBePositive "Height") ;;
    raise_if (float_gtb h (Finite 300)) (ExceedsLimit "Height")) ;;
  when_given weight (fun w =>
    raise_if (float_leb w (Finite 0)) (MustBePositive "Weight") ;;
    raise_if (float_gtb w (Finite 1000)) (ExceedsLimit "Weight")) ;;
  when_given body_fat_percentage (fun f =>
    raise_if (float_ltb f (Finite 0) || float_gtb f (Finite 100))
      (OutOfRange "Body fat percentage")) ;;
  when_given resting_heart_rate (fun r =>
    raise_if (r <=? 0) (MustBePositive "Resting heart rate") ;;
    raise_if ((r <? 30) || (200 <? r)) (OutOfRange "Resting heart rate")) ;;
  found <- query_first Members Member.MemberID (member_by_id member_id) ;;
  raise_if (negb (is_some found)) (NotFound "Member" member_id) ;;
  try_except
    (new_metric <-
       db_add HealthMetrics with_HealthMetrics HealthMetric.HealthMetricID
         (fun id =>
            HealthMetric.mk id member_id recorded_date
              (option_map numeric2 height) (option_map numeric2 weight)
              (option_map numeric2 body_fat_percentage) resting_heart_rate
              (Text.strip_or_none notes)) ;;
     db_commit ;;
     refreshed HealthMetrics HealthMetric.HealthMetricID
       (HealthMetric.HealthMetricID new_metric) new_metric)
    (fun _ => db_rollback ;; raise (Failed "log health metric")).

Definition session_types : list string := ["Personal Training"; "Group Class"].

(** The filter shared by the booking queries: same date, strict overlap
    with [start_time, end_time). *)
Definition clashes (session_date : date) (start_time end_time : time)
    (p : PersonalTrainingSession.t) : bool :=
  (PersonalTrainingSession.SessionDate p =? session_date) &&
  time_ltb (PersonalTrainingSession.StartTime p) end_time &&
  time_ltb start_time (PersonalTrainingSession.EndTime p).

Definition trainer_clash (trainer_id : Z) (session_date : date)
    (start_time end_time : time) (p : PersonalTrainingSession.t) : bool :=
  (PersonalTrainingSession.TrainerID p =? trainer_id) &&
  clashes session_date start_time end_time p.

Definition room_is (room_id : Z) (p : PersonalTrainingSession.t) : bool :=
  match PersonalTrainingSession.RoomID p with
  | Some r => r =? room_id
  | None => false
  end.

Definition room_clash (room_id : Z) (session_date : date)
    (start_time end_time : time) (p : PersonalTrainingSession.t) : bool :=
  room_is room_id p && clashes session_date start_time end_time p.

Definition member_clash (member_id : Z) (session_date : date)
    (start_time end_time : time) (p : PersonalTrainingSession.t) : bool :=
  (PersonalTrainingSession.MemberID p =? member_id) &&
  clashes session_date start_time end_time p.

(** [max_capacity and room.RoomCapacity and max_capacity > room.RoomCapacity] *)
Definition over_capacity (max_capacity room_capacity : option Z)
    : option (Z * Z) :=
  match max_capacity, room_capacity with
  | Some want, Some have =>
      if negb (want =? 0) && negb (have =? 0) && (have <? want)
      then Some (want, have) else None
  | _, _ => None
  end.

(** The checks of [schedule_pt_session] that come before its booking
    queries: arguments, then the records they name. *)
Definition schedule_checks (today : date) (member_id trainer_id : Z)
    (session_date : date) (start_time end_time : time) (room_id : option Z)
    (session_type : string) (max_capacity : option Z) : M unit :=
  raise_if (member_id <=? 0) (IdNotPositive "Member") ;;
  raise_if (trainer_id <=? 0) (IdNotPositive "Trainer") ;;
  when_given room_id (fun r => raise_if (r <=? 0) (IdNotPositive "Room")) ;;
  raise_if (session_date <? today) (InPast "Session date") ;;
  raise_if (365 <? session_date - today) (TooFarInFuture "Session date") ;;
  raise_if (negb (time_ltb start_time end_time)) StartNotBeforeEnd ;;
  raise_if (time_diff start_time end_time <? 15 * 60000000) TooShort ;;
  raise_if (480 * 60000000 <? time_diff start_time end_time) TooLongDuration ;;
  raise_if (negb (Text.one_of session_type session_types))
    (NotOneOf "Session type" session_types) ;;
  (if String.eqb session_type "Group Class" then
     raise_if (match max_capacity with
               | Some c => c <=? 0
               | None => true
               end) GroupNeedsCapacity ;;
     raise_if (match max_capacity with
               | Some c => 100 <? c
               | None => false
               end) CapacityOver100
   else ret tt) ;;
  member <- query_first Members Member.MemberID (member_by_id member_id) ;;
  raise_if (negb (is_some member)) (NotFound "Member" member_id) ;;
  trainer <- query_first Trainers Trainer.TrainerID
               (fun t => Trainer.TrainerID t =? trainer_id) ;;
  raise_if (negb (is_some trainer)) (NotFound "Trainer" trainer_id) ;;
  (if nonzero room_id then
     when_given room_id (fun rid =>
       room <- query_first Rooms Room.RoomID (fun r => Room.RoomID r =? rid) ;;
       match room with
       | None => raise (NotFound "Room" rid)
       | Some room =>
           if String.eqb session_type "Group Class" then
             match over_capacity max_capacity (Room.RoomCapacity room) with
             | Some (want, have) => raise (ExceedsRoomCapacity want have)
             | None => ret tt
             end
           else ret tt
       end)
   else ret tt).

Definition schedule_pt_session (today : date) (member_id trainer_id : Z)
    (session_date : date) (start_time end_time : time) (room_id : option Z)
    (session_type : string) (duration_minutes max_capacity : option Z)
    (notes : option string) : M PersonalTrainingSession.t :=
  schedule_checks today member_id trainer_id session_date start_time end_time
    room_id session_type max_capacity ;;
  conflicting_sessions <-
    query_first Sessions PersonalTrainingSession.SessionID
      (trainer_clash trainer_id session_date start_time end_time) ;;
  when_given conflicting_sessions (fun c =>
    raise (TrainerConflict (PersonalTrainingSession.SessionID c)
             (PersonalTrainingSession.StartTime c)
             (PersonalTrainingSession.EndTime c))) ;;
  (if nonzero room_id then
     when_given room_id (fun rid =>
       conflicting_room <-
         query_first Sessions PersonalTrainingSession.SessionID
           (room_clash rid session_date start_time end_time) ;;
       when_given conflicting_room (fun c =>
         raise (RoomConflict (PersonalTrainingSession.SessionID c)
                  (PersonalTrainingSession.StartTime c)
                  (PersonalTrainingSession.EndTime c))))
   else ret tt) ;;
  member_conflict <-
    query_first Sessions PersonalTrainingSession.SessionID
      (member_clash member_id session_date start_time end_time) ;;
  when_given member_conflict (fun c =>
    raise (MemberConflict (PersonalTrainingSession.SessionID c))) ;;
  try_except
    (let duration_minutes :=
       match duration_minutes with
       | Some d => d
       | None => whole_minutes start_time end_time
       end in
     new_session <-
       db_add Sessions with_Sessions PersonalTrainingSession.SessionID
         (fun id =>
            PersonalTrainingSession.mk id trainer_id member_id room_id
              session_date start_time end_time (Some duration_minutes)
              (Some session_type) max_capacity (Some 0)
              (Text.strip_or_none notes)) ;;
     db_commit ;;
     refreshed Sessions PersonalTrainingSession.SessionID
       (PersonalTrainingSession.SessionID new_session) new_session)
    (fun _ => db_rollback ;; raise (Failed "schedule session")).

(** ** Trainer operations ([app/trainer_functions.py]) *)

Record Availability := mk_availability
  { av_trainer_id : Z;
    av_date : date;
    av_start : time;
    av_end : time;
    av_available : bool }.

Definition set_availability (today : date) (trainer_id : Z)
    (session_date : date) (start_time end_time : time) : M Availability :=
  raise_if (trainer_id <=? 0) (IdNotPositive "Trainer") ;;
  raise_if (session_date <? today) (InPast "Availability date") ;;
  raise_if (365 <? session_date - today) (TooFarInFuture "Availability date") ;;
  raise_if (negb (time_ltb start_time end_time)) StartNotBeforeEnd ;;
  raise_if (time_diff start_time end_time <? 15 * 60000000) TooShort ;;
  raise_if (1440 * 60000000 <? time_diff start_time end_time) TooLongDuration ;;
  trainer <- query_first Trainers Trainer.TrainerID
               (fun t => Trainer.TrainerID t =? trainer_id) ;;
  raise_if (negb (is_some trainer)) (NotFound "Trainer" trainer_id) ;;
  overlapping <-
    query_first Sessions PersonalTrainingSession.SessionID
      (trainer_clash trainer_id session_date start_time end_time) ;;
  when_given overlapping (fun c =>
    raise (SlotConflict (PersonalTrainingSession.SessionID c)
             (PersonalTrainingSession.StartTime c)
             (PersonalTrainingSession.EndTime c))) ;;
  ret (mk_availability trainer_id session_date start_time end_time true).

(** [ORDER BY SessionDate, StartTime] *)
Definition schedule_leb (a b : PersonalTrainingSession.t) : bool :=
  (PersonalTrainingSession.SessionDate a <? PersonalTrainingSession.SessionDate b)
  || ((PersonalTrainingSession.SessionDate a =? PersonalTrainingSession.SessionDate b)
      && time_leb (PersonalTrainingSession.StartTime a)
           (PersonalTrainingSession.StartTime b)).

Fixpoint place (x : PersonalTrainingSession.t)
    (l : list PersonalTrainingSession.t) : list PersonalTrainingSession.t :=
  match l with
  | [] => [x]
  | y :: r => if schedule_leb x y then x :: l else y :: place x r
  end.

Definition ordered (l : list PersonalTrainingSession.t)
    : list PersonalTrainingSession.t :=
  fold_right place [] l.

(** [date(1900, 1, 1).toordinal()] *)
Definition date_1900 : date := 693596.

Definition view_schedule (today : date) (trainer_id : Z)
    (from_date : option date) : M (list PersonalTrainingSession.t) :=
  raise_if (trainer_id <=? 0) (IdNotPositive "Trainer") ;;
  when_given from_date (fun d =>
    raise_if (d <? date_1900) (TooFarInPast "Date") ;;
    raise_if (3650 <? d - today) (TooFarInFuture "Date")) ;;
  trainer <- query_first Trainers Trainer.TrainerID
               (fun t => Trainer.TrainerID t =? trainer_id) ;;
  raise_if (negb (is_some trainer)) (NotFound "Trainer" trainer_id) ;;
  let since := match from_date with Some d => d | None => today end in
  query_ordered Sessions PersonalTrainingSession.SessionID
    (fun p => (PersonalTrainingSession.TrainerID p =? trainer_id) &&
              (since <=? PersonalTrainingSession.SessionDate p))
    ordered.

(** ** Admin operations ([app/admin_functions.py]) *)

Definition session_by_id (session_id : Z) (p : PersonalTrainingSession.t)
    : bool :=
  PersonalTrainingSession.SessionID p =? session_id.

(** The filter of the room scan in [assign_room_booking]: bookings of
    [room_id] that overlap [session], other than the row with the
    session's own id. *)
Definition other_booking (session_id room_id : Z)
    (session : PersonalTrainingSession.t) (p : PersonalTrainingSession.t)
    : bool :=
  room_clash room_id (PersonalTrainingSession.SessionDate session)
    (PersonalTrainingSession.StartTime session)
    (PersonalTrainingSession.EndTime session) p &&
  negb (PersonalTrainingSession.SessionID p =? session_id).

Definition assign_room_booking (today : date) (session_id room_id : Z)
    : M PersonalTrainingSession.t :=
  raise_if (session_id <=? 0) (IdNotPositive "Session") ;;
  raise_if (room_id <=? 0) (IdNotPositive "Room") ;;
  found <- query_first Sessions PersonalTrainingSession.SessionID
             (session_by_id session_id) ;;
  match found with
  | None => raise (NotFound "Session" session_id)
  | Some session =>
      raise_if (PersonalTrainingSession.SessionDate session <? today)
        PastSession ;;
      room <- query_first Rooms Room.RoomID
                (fun r => Room.RoomID r =? room_id) ;;
      match room with
      | None => raise (NotFound "Room" room_id)
      | Some room =>
          raise_if (room_is room_id session) (RoomAlreadyAssigned room_id) ;;
          (if match PersonalTrainingSession.SessionType session with
              | Some ty => String.eqb ty "Group Class"
              | None => false
              end
           then
             match over_capacity (PersonalTrainingSession.MaxCapacity session)
                     (Room.RoomCapacity room) with
             | Some (want, have) => raise (ExceedsRoomCapacity want have)
             | None => ret tt
             end
           else ret tt) ;;
          conflicting_booking <-
            query_first Sessions PersonalTrainingSession.SessionID
              (other_booking session_id room_id session) ;;
          when_given conflicting_booking (fun c =>
            raise (RoomBooked (PersonalTrainingSession.SessionID c)
                     (PersonalTrainingSession.StartTime c)
                     (PersonalTrainingSession.SessionDate c))) ;;
          try_except
            (modify (with_Sessions
               (assign PersonalTrainingSession.SessionID
                  (PersonalTrainingSession.SessionID session)
                  (PersonalTrainingSession.set_RoomID (Some room_id)))) ;;
             db_commit ;;
             refreshed Sessions PersonalTrainingSession.SessionID
               (PersonalTrainingSession.SessionID session) session)
            (fun _ => db_rollback ;; raise (Failed "assign room"))
      end
  end.

Definition priorities : list string := ["Low"; "Medium"; "High"; "Critical"].

Definition log_maintenance_issue (today : date) (room_id admin_id : Z)
    (issue_description : string) (equipment_name : option string)
    (priority : string) (reported_date : option date)
    : M MaintenanceIssue.t :=
  raise_if (room_id <=? 0) (IdNotPositive "Room") ;;
  raise_if (admin_id <=? 0) (IdNotPositive "Admin") ;;
  raise_if (Text.blank issue_description) (Required "Issue description") ;;
  raise_if (Text.longer_than issue_description 1000)
    (TooLong "Issue description" 1000) ;;
  raise_if (match equipment_name with
            | Some e => negb (String.eqb e "") && Text.longer_than e 100
            | None => false
            end) (TooLong "Equipment name" 100) ;;
  raise_if (negb (Text.one_of priority priorities))
    (NotOneOf "Priority" priorities) ;;
  when_given reported_date (fun d =>
    raise_if (today <? d) (InFuture "Reported date") ;;
    raise_if (3650 <? today - d) (TooFarInPast "Reported date")) ;;
  room <- query_first Rooms Room.RoomID (fun r => Room.RoomID r =? room_id) ;;
  raise_if (negb (is_some room)) (NotFound "Room" room_id) ;;
  admin <- query_first Admins AdminStaff.AdminID
             (fun a => AdminStaff.AdminID a =? admin_id) ;;
  raise_if (negb (is_some admin)) (NotFound "Admin staff" admin_id) ;;
  try_except
    (new_issue <-
       db_add MaintenanceIssues with_MaintenanceIssues MaintenanceIssue.IssueID
         (fun id =>
            MaintenanceIssue.mk id room_id admin_id
              (Text.strip issue_description) (Text.strip_or_none equipment_name)
              (match reported_date with Some d => d | None => today end)
              (Some priority) (Some "Open") None None None) ;;
     db_commit ;;
     refreshed MaintenanceIssues MaintenanceIssue.IssueID
       (MaintenanceIssue.IssueID new_issue) new_issue)
    (fun _ => db_rollback ;; raise (Failed "log maintenance issue")).

Definition issue_statuses : list string :=
  ["Open"; "In Progress"; "Resolved"; "Closed"].

(** [issue.Status == name] *)
Definition status_is (status : option string) (name : string) : bool :=
  match status with
  | Some s => String.eqb s name
  | None => false
  end.

(** [issue.Status in names] *)
Definition status_in (status : option string) (names : list string) : bool :=
  match status with
  | Some s => Text.one_of s names
  | None => false
  end.

Definition update_maintenance_status (today : date) (issue_id : Z)
    (status : option string) (assigned_repair_date resolution_date : option date)
    (resolution_notes : option string) : M MaintenanceIssue.t :=
  raise_if (issue_id <=? 0) (IdNotPositive "Issue") ;;
  raise_if (negb (is_some status) && negb (is_some assigned_repair_date) &&
            negb (is_some resolution_date) && negb (is_some resolution_notes))
    NothingToUpdate ;;
  found <- query_first MaintenanceIssues MaintenanceIssue.IssueID
             (fun i => MaintenanceIssue.IssueID i =? issue_id) ;;
  match found with
  | None => raise (NotFound "Maintenance issue" issue_id)
  | Some issue =>
      let set f := modify (with_MaintenanceIssues
                     (assign MaintenanceIssue.IssueID
                        (MaintenanceIssue.IssueID issue) f)) in
      raise_if (Text.truthy status && negb (status_in status issue_statuses))
        (NotOneOf "Status" issue_statuses) ;;
      (if Text.truthy status then
         raise_if (status_is (MaintenanceIssue.Status issue) "Closed" &&
                   negb (status_is status "Closed")) ClosedIssue ;;
         raise_if (status_is (MaintenanceIssue.Status issue) "Resolved" &&
                   negb (status_in status ["Resolved"; "Closed"]))
           ResolvedOnlyClosed
       else ret tt) ;;
      when_given assigned_repair_date (fun d =>
        raise_if (d <? MaintenanceIssue.ReportedDate issue)
          RepairBeforeReported ;;
        raise_if (today + 364 <? d) RepairTooFar) ;;
      when_given resolution_date (fun d =>
        raise_if (negb (status_in (MaintenanceIssue.Status issue)
                          ["Resolved"; "Closed"])) ResolutionNeedsResolved ;;
        raise_if (d <? MaintenanceIssue.ReportedDate issue)
          ResolutionBeforeReported ;;
        raise_if (today <? d) ResolutionInFuture ;;
        raise_if (match assigned_repair_date with
                  | Some a => d <? a
                  | None => false
                  end) ResolutionBeforeRepair) ;;
      raise_if (match resolution_notes with
                | Some n => negb (String.eqb n "") && Text.longer_than n 1000
                | None => false
                end) (TooLong "Resolution notes" 1000) ;;
      try_except
        ((if Text.truthy status
          then set (MaintenanceIssue.set_Status status) else ret tt) ;;
         when_given assigned_repair_date (fun d =>
           set (MaintenanceIssue.set_AssignedRepairDate (Some d))) ;;
         when_given resolution_date (fun d =>
           set (MaintenanceIssue.set_ResolutionDate (Some d))) ;;
         (if Text.truthy resolution_notes
          then set (MaintenanceIssue.set_ResolutionNotes
                      (Text.strip_or_none resolution_notes))
          else ret tt) ;;
         db_commit ;;
         refreshed MaintenanceIssues MaintenanceIssue.IssueID
           (MaintenanceIssue.IssueID issue) issue)
        (fun _ => db_rollback ;; raise (Failed "update maintenance status"))
  end.

Definition invoice_by_id (invoice_id : Z) (i : Invoice.t) : bool :=
  Invoice.InvoiceID i =? invoice_id.

Definition create_invoice (today : date) (payer_id : Z)
    (invoice_number : string) (invoice_date due_date : date) (amount : float)
    (service_description : string) (session_id : option Z)
    (payment_method : option string) : M Invoice.t :=
  raise_if (payer_id <=? 0) (IdNotPositive "Payer") ;;
  raise_if (Text.blank invoice_number) (Required "Invoice number") ;;
  raise_if (Text.longer_than invoice_number 50) (TooLong "Invoice number" 50) ;;
  raise_if (Text.blank service_description) (Required "Service description") ;;
  raise_if (Text.longer_than service_description 500)
    (TooLong "Service description" 500) ;;
  when_given session_id (fun sid =>
    raise_if (sid <=? 0) (IdNotPositive "Session")) ;;
  raise_if (today <? invoice_date) (InFuture "Invoice date") ;;
  raise_if (3650 <? today - invoice_date) (TooFarInPast "Invoice date") ;;
  raise_if (due_date <? invoice_date) DueBeforeInvoice ;;
  raise_if (365 <? due_date - invoice_date) DueTooFar ;;
  raise_if (float_leb amount (Finite 0)) (MustBePositive "Invoice amount") ;;
  raise_if (float_gtb amount (Finite 1000000))
    (ExceedsLimit "Invoice amount") ;;
  raise_if (match payment_method with
            | Some m => negb (String.eqb m "") && Text.longer_than m 50
            | None => false
            end) (TooLong "Payment method" 50) ;;
  payer <- query_first Members Member.MemberID (member_by_id payer_id) ;;
  raise_if (negb (is_some payer)) (NotFound "Member" payer_id) ;;
  (if nonzero session_id then
     when_given session_id (fun sid =>
       session <- query_first Sessions PersonalTrainingSession.SessionID
                    (session_by_id sid) ;;
       match session with
       | None => raise (NotFound "Session" sid)
       | Some session =>
           raise_if (negb (PersonalTrainingSession.MemberID session =? payer_id))
             (SessionNotOfPayer sid payer_id)
       end)
   else ret tt) ;;
  existing <- query_first Invoices Invoice.InvoiceID
                (fun i => String.eqb (Invoice.InvoiceNumber i) invoice_number) ;;
  raise_if (is_some existing) (InvoiceNumberExists invoice_number) ;;
  try_except
    (new_invoice <-
       db_add Invoices with_Invoices Invoice.InvoiceID (fun id =>
         Invoice.mk id (Text.strip invoice_number) payer_id session_id
           invoice_date due_date (numeric2 (round2 amount))
           (Text.strip_or_none payment_method) (Some "Pending")
           (Some (Text.strip service_description)) None) ;;
     db_commit ;;
     refreshed Invoices Invoice.InvoiceID (Invoice.InvoiceID new_invoice)
       new_invoice)
    (fun e =>
       match e with
       | IntegrityError =>
           db_rollback ;; raise (InvoiceNumberExists invoice_number)
       | _ => db_rollback ;; raise (Failed "create invoice")
       end).

Definition record_payment (today : date) (invoice_id : Z)
    (payment_method : string) (paid_date : option date) : M Invoice.t :=
  raise_if (invoice_id <=? 0) (IdNotPositive "Invoice") ;;
  raise_if (Text.blank payment_method) (Required "Payment method") ;;
  raise_if (Text.longer_than payment_method 50) (TooLong "Payment method" 50) ;;
  raise_if (match paid_date with
            | Some d => today <? d
            | None => false
            end) (InFuture "Paid date") ;;
  found <- query_first Invoices Invoice.InvoiceID (invoice_by_id invoice_id) ;;
  match found with
  | None => raise (NotFound "Invoice" invoice_id)
  | Some invoice =>
      raise_if (status_is (Invoice.PaymentStatus invoice) "Paid")
        (AlreadyPaid invoice_id) ;;
      raise_if (match paid_date with
                | Some d => d <? Invoice.InvoiceDate invoice
                | None => false
                end) PaidBeforeInvoice ;;
      try_except
        (modify (with_Invoices
           (assign Invoice.InvoiceID (Invoice.InvoiceID invoice)
              (Invoice.set_payment (Some "Paid")
                 (Some (Text.strip payment_method))
                 (Some (match paid_date with
                        | Some d => d
                        | None => today
                        end))))) ;;
         db_commit ;;
         refreshed Invoices Invoice.InvoiceID (Invoice.InvoiceID invoice)
           invoice)
        (fun _ => db_rollback ;; raise (Failed "record payment"))
  end.

(** ** Member lookup ([app/trainer_functions.py]) *)

Module Search.

(** [s.replace(c, '')] for a one-character [c]. *)
Fixpoint drop_char (c : ascii) (s : string) : string :=
  match s with
  | EmptyString => EmptyString
  | String a r => if Ascii.eqb a c then drop_char c r else String a (drop_char c r)
  end.

(** [s.replace(ab, '')] for a two-character [ab]. *)
Fixpoint drop_pair (a b : ascii) (s : string) : string :=
  match s with
  | EmptyString => EmptyString
  | String x r =>
      match r with
      | String y r' =>
          if Ascii.eqb x a && Ascii.eqb y b then drop_pair a b r'
          else String x (drop_pair a b r)
      | EmptyString => s
      end
  end.

(** [s.split()] with the word being read in [cur]. *)
Fixpoint words (s cur : string) : list string :=
  match s with
  | EmptyString => if String.eqb cur "" then [] else [cur]
  | String c r =>
      if Text.is_space c
      then if String.eqb cur "" then words r "" else cur :: words r ""
      else words r (cur ++ String c "")%string
  end.

(** SQL [LIKE]: [%] any run, [_] any character, backslash quotes the
    next character. *)
Fixpoint like (pat : string) : string -> bool :=
  match pat with
  | EmptyString => fun s => String.eqb s ""
  | String c p =>
      if Ascii.eqb c "%" then
        fix any (s : string) : bool :=
          like p s ||
          match s with
          | EmptyString => false
          | String _ r => any r
          end
      else if Ascii.eqb c "_" then
        fun s => match s with
                 | EmptyString => false
                 | String _ r => like p r
                 end
      else if Ascii.eqb c "\" then
        match p with
        | EmptyString => fun _ => false
        | String q p' =>
            fun s => match s with
                     | EmptyString => false
                     | String a r => Ascii.eqb a q && like p' r
                     end
        end
      else
        fun s => match s with
                 | EmptyString => false
                 | String a r => Ascii.eqb a c && like p r
                 end
  end.

(** [column.ilike(pattern)] *)
Definition ilike (text pattern : string) : bool :=
  like (Text.lower pattern) (Text.lower text).

Definition wrap (s : string) : string := ("%" ++ s ++ "%")%string.

(** The row that [ORDER BY key DESC] puts first. *)
Fixpoint latest {R} (key : R -> option date) (rows : list R) : option R :=
  match rows with
  | [] => None
  | r :: rest =>
      match latest key rest with
      | None => Some r
      | Some best =>
          match key r, key best with
          | None, _ => Some r
          | Some _, None => Some best
          | Some a, Some b => if b <=? a then Some r else Some best
          end
      end
  end.

Record hit := mk_hit
  { member : Member.t;
    latest_goal : option FitnessGoal.t;
    latest_metric : option HealthMetric.t }.

Definition name_filter (search_term_clean : string) (m : Member.t) : bool :=
  let search_pattern := wrap search_term_clean in
  let search_parts := words search_term_clean "" in
  if (2 <=? List.length search_parts)%nat then
    let first_part := wrap (hd "" search_parts) in
    let last_part := wrap (last search_parts "") in
    (ilike (Member.FirstName m) first_part &&
     ilike (Member.LastName m) last_part) ||
    (ilike (Member.LastName m) first_part &&
     ilike (Member.FirstName m) last_part) ||
    ilike (Member.FirstName m) search_pattern ||
    ilike (Member.LastName m) search_pattern ||
    ilike (Member.FirstName m ++ " " ++ Member.LastName m)%string search_pattern
  else
    ilike (Member.FirstName m) search_pattern ||
    ilike (Member.LastName m) search_pattern.

Definition lookup_member (search_term : string) : M (list hit) :=
  raise_if (Text.blank search_term) (CannotBeEmpty "Search term") ;;
  raise_if (Text.longer_than search_term 100) (TooLong "Search term" 100) ;;
  let search_term_clean :=
    drop_pair "*" "/" (drop_pair "/" "*" (drop_pair "-" "-"
      (drop_char ";" (Text.strip search_term)))) in
  members <- query_ordered Members Member.MemberID
               (name_filter search_term_clean) (firstn 100) ;;
  fun s =>
    (Ok (map (fun m =>
                mk_hit m
                  (option_map (loaded FitnessGoals FitnessGoal.GoalID s)
                     (latest FitnessGoal.SetDate
                        (filter (fun g => FitnessGoal.MemberID g
                                          =? Member.MemberID m)
                           (FitnessGoals (committed s)))))
                  (option_map
                     (loaded HealthMetrics HealthMetric.HealthMetricID s)
                     (latest (fun h => Some (HealthMetric.RecordedDate h))
                        (filter (fun h => HealthMetric.MemberID h
                                          =? Member.MemberID m)
                           (HealthMetrics (committed s)))))) members), s).

End Search.

(** ** The front end's loop

    [cli.py] opens one session, calls one operation per menu choice on it,
    prints the [ValueError] of a failed call and goes on. *)

Inductive Op :=
| RegisterMember (first_name last_name email : string)
    (date_of_birth : option date) (gender phone address : option string)
    (membership_status : string)
| UpdateProfile (member_id : Z)
    (first_name last_name phone address : option string)
    (date_of_birth : option date) (gender : option string)
| AddFitnessGoal (member_id : Z) (goal_type : string)
    (target_body_weight target_body_fat : option float)
    (target_date : option date) (goal_status : string) (notes : option string)
| LogHealthMetric (member_id : Z) (recorded_date : date)
    (height weight body_fat_percentage : option float)
    (resting_heart_rate : option Z) (notes : option string)
| SchedulePtSession (member_id trainer_id : Z) (session_date : date)
    (start_time end_time : time) (room_id : option Z) (session_type : string)
    (duration_minutes max_capacity : option Z) (notes : option string)
| SetAvailability (trainer_id : Z) (session_date : date)
    (start_time end_time : time)
| ViewSchedule (trainer_id : Z) (from_date : option date)
| LookupMember (search_term : string)
| AssignRoomBooking (session_id room_id : Z)
| LogMaintenanceIssue (room_id admin_id : Z) (issue_description : string)
    (equipment_name : option string) (priority : string)
    (reported_date : option date)
| UpdateMaintenanceStatus (issue_id : Z) (status : option string)
    (assigned_repair_date resolution_date : option date)
    (resolution_notes : option string)
| CreateInvoice (payer_id : Z) (invoice_number : string)
    (invoice_date due_date : date) (amount : float)
    (service_description : string) (session_id : option Z)
    (payment_method : option string)
| RecordPayment (invoice_id : Z) (payment_method : string)
    (paid_date : option date).

(** Keep the outcome of a call, drop the value it returns. *)
Definition outcome {A} (m : M A) : M unit :=
  fun s =>
    match m s with
    | (Ok _, s') => (Ok tt, s')
    | (Raise e, s') => (Raise e, s')
    end.

Definition perform (today : date) (op : Op) : M unit :=
  match op with
  | RegisterMember f l e d g p a st =>
      outcome (register_member today f l e d g p a st)
  | UpdateProfile id f l p a d g =>
      outcome (update_profile today id f l p a d g)
  | AddFitnessGoal id ty w bf d st n =>
      outcome (add_fitness_goal today id ty w bf d st n)
  | LogHealthMetric id d h w bf hr n =>
      outcome (log_health_metric today id d h w bf hr n)
  | SchedulePtSession m t d st en r ty dur cap n =>
      outcome (schedule_pt_session today m t d st en r ty dur cap n)
  | SetAvailability t d st en => outcome (set_availability today t d st en)
  | ViewSchedule t d => outcome (view_schedule today t d)
  | LookupMember q => outcome (Search.lookup_member q)
  | AssignRoomBooking sid rid => outcome (assign_room_booking today sid rid)
  | LogMaintenanceIssue r a desc eq pr d =>
      outcome (log_maintenance_issue today r a desc eq pr d)
  | UpdateMaintenanceStatus id st a r n =>
      outcome (update_maintenance_status today id st a r n)
  | CreateInvoice p num d due amt desc sid pm =>
      outcome (create_invoice today p num d due amt desc sid pm)
  | RecordPayment id pm d => outcome (record_payment today id pm d)
  end.

(** A run of the loop: each call with the date it is made on. *)
Fixpoint run (calls : list (date * Op)) (s : OrmSession) : OrmSession :=
  match calls with
  | [] => s
  | (today, op) :: rest => run rest (snd (perform today op s))
  end.

(** The calls of a run that log a health metric for [member_id] and
    succeed. *)
Fixpoint logged (member_id : Z) (calls : list (date * Op)) (s : OrmSession)
    : nat :=
  match calls with
  | [] => 0%nat
  | (today, op) :: rest =>
      let (r, s') := perform today op s in
      let here :=
        match op with
        | LogHealthMetric id _ _ _ _ _ _ => (id =? member_id) && is_ok r
        | _ => false
        end in
      ((if here then 1 else 0) + logged member_id rest s')%nat
  end.

(** ** Properties of computations used in the proofs *)

(** [m] never changes the session. *)
Definition preserves {A} (m : M A) : Prop := forall s, snd (m s) = s.

(** Every session reached by running [m] is related to the start by [P]. *)
Definition keeps {A} (P : OrmSession -> OrmSession -> Prop) (m : M A) : Prop :=
  forall s, P s (snd (m s)).

(** A failed call of [m] leaves the session as it was, or as the rollback
    of its handler left it. *)
Definition atomic {A} (m : M A) : Prop :=
  forall s, is_ok (fst (m s)) = false ->
            snd (m s) = s \/ snd (m s) = clean (committed s).

(** [m] only raises [ValueError]. *)
Definition value_errors {A} (m : M A) : Prop :=
  forall s e, fst (m s) = Raise e -> exists r, e = ValueError r.

(** The session holds no uncommitted change. *)
Definition synced (s : OrmSession) : Prop := working s = committed s.

(** The committed rows satisfy the constraints the database enforces. *)
Definition store_ok (t : Tables) : bool := widths_ok t && unique_ok t.

Definition is_update_profile (op : Op) : bool :=
  match op with
  | UpdateProfile _ _ _ _ _ _ _ => true
  | _ => false
  end.

(** [m] never raises a [ValueError] whose reason is in [bad]. *)
Definition never {A} (bad : reason -> bool) (m : M A) : Prop :=
  forall s r, fst (m s) = Raise (ValueError r) -> bad r = false.

Definition is_trainer_conflict (r : reason) : bool :=
  match r with
  | TrainerConflict _ _ _ => true
  | _ => false
  end.

(** ** A small club, for concrete runs *)
Module Sample.

Definition day : date := 739000.

Definition at_ (h m : Z) : time := mk_time h m 0 0.

Definition alice : Member.t :=
  Member.mk 1 "Alice" "Johnson" None (Some "F") "alice.johnson@example.com"
    (Some "555-1234") None (Some (day - 30)) (Some "Active").

Definition bob : Member.t :=
  Member.mk 2 "Bob" "Smith" None None "bob.smith@example.com" None None
    (Some (day - 20)) (Some "Active").

Definition trainers : list Trainer.t :=
  [ Trainer.mk 1 "Tara" "Lee" "tara@example.com" (Some "Strength");
    Trainer.mk 2 "Sam" "Cole" "sam@example.com" (Some "Yoga") ].

Definition rooms : list Room.t :=
  [ Room.mk 1 "R101" (Some 10) (Some "Studio");
    Room.mk 2 "R102" (Some 20) (Some "Gym") ].

(** Trainer 1 with Alice in room 1, tomorrow from 10:00 to 11:00. *)
Definition morning : PersonalTrainingSession.t :=
  PersonalTrainingSession.mk 1 1 1 (Some 1) (day + 1) (at_ 10 0) (at_ 11 0)
    (Some 60) (Some "Personal Training") None (Some 0) None.

(** Reported five days ago, repair assigned for two days ago, being worked
    on. *)
Definition treadmill : MaintenanceIssue.t :=
  MaintenanceIssue.mk 1 1 1 "Treadmill not working properly"
    (Some "Treadmill #3") (day - 5) (Some "High") (Some "In Progress")
    (Some (day - 2)) None None.

(** The same history, already resolved. *)
Definition bulb : MaintenanceIssue.t :=
  MaintenanceIssue.mk 2 2 1 "Light bulb needs replacement" None (day - 5)
    (Some "Low") (Some "Resolved") (Some (day - 2)) None None.

Definition bill : Invoice.t :=
  Invoice.mk 1 "INV-001" 1 None (day - 3) (day + 27) (Finite 75) None
    (Some "Pending")
    (Some "Personal Training Session") None.

Definition club : Tables :=
  mk_tables [alice; bob] trainers
    [AdminStaff.mk 1 "Ada" "Ng" "ada@example.com" (Some "Manager")] rooms
    [morning] [] [] [bill] [treadmill; bulb].

Definition start : OrmSession := clean club.

(** The session after the demonstration of [example_presentation.py]: an
    issue is logged, put in progress with a repair assigned for three days
    ahead, and resolved. *)
Definition demo_resolved : OrmSession :=
  run [ (day,
         LogMaintenanceIssue 1 1 "Treadmill not working properly"
           (Some "Treadmill #3") "High" None);
        (day,
         UpdateMaintenanceStatus 3 (Some "In Progress") (Some (day + 3))
           None None);
        (day, UpdateMaintenanceStatus 3 (Some "Resolved") None None None) ]
    start.

End Sample.

Definition is_transition_error (r : reason) : bool :=
  match r with
  | ClosedIssue | ResolvedOnlyClosed => true
  | _ => false
  end.

(** A room conflict that names the session being assigned. *)
Definition is_self_booking (session_id : Z) (r : reason) : bool :=
  match r with
  | RoomBooked id _ _ => id =? session_id
  | _ => false
  end.

(** ** Health metrics along a run *)

(** Related sessions hold the same rows of the table [tbl], when the first
    had no uncommitted change to it. *)
Definition table_kept {R} (tbl : Tables -> list R) (s s' : OrmSession)
    : Prop :=
  tbl (working s) = tbl (committed s) ->
  tbl (committed s') = tbl (committed s) /\ tbl (working s') = tbl (working s).

(** The rows returned by the successful [log_health_metric] calls of a
    run, in order. *)
Fixpoint logged_rows (calls : list (date * Op)) (s : OrmSession)
    : list HealthMetric.t :=
  match calls with
  | [] => []
  | (today, op) :: rest =>
      let here :=
        match op with
        | LogHealthMetric id d h w bf hr n =>
            match fst (log_health_metric today id d h w bf hr n s) with
            | Ok v => [v]
            | Raise _ => []
            end
        | _ => []
        end in
      (here ++ logged_rows rest (snd (perform today op s)))%list
  end.

(** The rows of [member_id] among [rows]. *)
Definition metrics_of (member_id : Z) (rows : list HealthMetric.t)
    : list HealthMetric.t :=
  filter (fun h => HealthMetric.MemberID h =? member_id) rows.

Definition is_log_health_metric (op : Op) : bool :=
  match op with
  | LogHealthMetric _ _ _ _ _ _ _ => true
  | _ => false
  end.

(** ** Invoices along a run *)

(** The invoice [id] is in the table and Paid. *)
Definition paid_in (id : Z) (t : Tables) : Prop :=
  (exists i, In i (Invoices t) /\ Invoice.InvoiceID i = id) /\
  forall i, In i (Invoices t) -> Invoice.InvoiceID i = id ->
            Invoice.PaymentStatus i = Some "Paid".

Definition writes_invoices (op : Op) : bool :=
  match op with
  | CreateInvoice _ _ _ _ _ _ _ _ | RecordPayment _ _ _ => true
  | _ => false
  end.


(** ** What a call may write *)

(** A failed call of [m] leaves the committed rows as they were. *)
Definition fails_clean {A} (m : M A) : Prop :=
  forall s, is_ok (fst (m s)) = false -> committed (snd (m s)) = committed s.

(** The committed rows of both sessions are the same. *)
Definition same_committed (s s' : OrmSession) : Prop :=
  committed s' = committed s.

Definition writes_members (op : Op) : bool :=
  match op with
  | RegisterMember _ _ _ _ _ _ _ _ | UpdateProfile _ _ _ _ _ _ _ => true
  | _ => false
  end.

Definition writes_sessions (op : Op) : bool :=
  match op with
  | SchedulePtSession _ _ _ _ _ _ _ _ _ _ | AssignRoomBooking _ _ => true
  | _ => false
  end.

Definition writes_goals (op : Op) : bool :=
  match op with
  | AddFitnessGoal _ _ _ _ _ _ _ => true
  | _ => false
  end.

Definition writes_issues (op : Op) : bool :=
  match op with
  | LogMaintenanceIssue _ _ _ _ _ _ | UpdateMaintenanceStatus _ _ _ _ _ => true
  | _ => false
  end.

(** ** Bookings *)

(** Two sessions on the same date whose intervals overlap under the
    strict test of the booking queries. *)
Definition overlapping (a b : PersonalTrainingSession.t) : Prop :=
  PersonalTrainingSession.SessionDate a = PersonalTrainingSession.SessionDate b /\
  time_ltb (PersonalTrainingSession.StartTime a)
    (PersonalTrainingSession.EndTime b) = true /\
  time_ltb (PersonalTrainingSession.StartTime b)
    (PersonalTrainingSession.EndTime a) = true.

Definition same_trainer (a b : PersonalTrainingSession.t) : Prop :=
  PersonalTrainingSession.TrainerID a = PersonalTrainingSession.TrainerID b.

Definition same_member (a b : PersonalTrainingSession.t) : Prop :=
  PersonalTrainingSession.MemberID a = PersonalTrainingSession.MemberID b.

Definition same_room (a b : PersonalTrainingSession.t) : Prop :=
  exists r, PersonalTrainingSession.RoomID a = Some r /\
            PersonalTrainingSession.RoomID b = Some r.

(** No two different sessions that share a resource overlap. *)
Definition no_double_booking
    (same : PersonalTrainingSession.t -> PersonalTrainingSession.t -> Prop)
    (rows : list PersonalTrainingSession.t) : Prop :=
  forall a b, In a rows -> In b rows ->
    PersonalTrainingSession.SessionID a <> PersonalTrainingSession.SessionID b ->
    same a b -> ~ overlapping a b.

(** The session table holds no pending change and no id twice. *)
Definition sessions_wf (s : OrmSession) : Prop :=
  Sessions (working s) = Sessions (committed s) /\
  NoDup (map PersonalTrainingSession.SessionID (Sessions (committed s))).

(** How one call changes the session table. *)
Inductive sessions_step (old new : list PersonalTrainingSession.t) : Prop :=
| step_same : new = old -> sessions_step old new
| step_booked (v : PersonalTrainingSession.t) :
    new = insert v old ->
    (forall p, In p old ->
       PersonalTrainingSession.SessionID p < PersonalTrainingSession.SessionID v) ->
    (forall p, In p old ->
       trainer_clash (PersonalTrainingSession.TrainerID v)
         (PersonalTrainingSession.SessionDate v)
         (PersonalTrainingSession.StartTime v)
         (PersonalTrainingSession.EndTime v) p = false) ->
    (forall p, In p old ->
       member_clash (PersonalTrainingSession.MemberID v)
         (PersonalTrainingSession.SessionDate v)
         (PersonalTrainingSession.StartTime v)
         (PersonalTrainingSession.EndTime v) p = false) ->
    (forall r p, PersonalTrainingSession.RoomID v = Some r -> In p old ->
       room_clash r (PersonalTrainingSession.SessionDate v)
         (PersonalTrainingSession.StartTime v)
         (PersonalTrainingSession.EndTime v) p = false) ->
    sessions_step old new
| step_room (session_id room_id : Z) (session : PersonalTrainingSession.t) :
    find (session_by_id session_id) old = Some session ->
    new = assign PersonalTrainingSession.SessionID session_id
            (PersonalTrainingSession.set_RoomID (Some room_id)) old ->
    (forall p, In p old -> other_booking session_id room_id session p = false) ->
    sessions_step old new.

(** Calls of the front end on the sample club: a booking in room 1, a
    second one for the same trainer that overlaps it, a group class of 12
    without a room at the same hour, and two attempts to give the class a
    room. *)
Module Scenario.

Definition bookings : list (date * Op) :=
  [ (Sample.day,
     SchedulePtSession 1 1 (Sample.day + 2) (Sample.at_ 10 0) (Sample.at_ 11 0)
       (Some 1) "Personal Training" None None None);
    (Sample.day,
     SchedulePtSession 2 1 (Sample.day + 2) (Sample.at_ 10 30)
       (Sample.at_ 11 30) (Some 2) "Personal Training" None None None);
    (Sample.day,
     SchedulePtSession 2 2 (Sample.day + 2) (Sample.at_ 10 30)
       (Sample.at_ 11 30) None "Group Class" None (Some 12) None);
    (Sample.day + 1, AssignRoomBooking 3 1);
    (Sample.day + 1, AssignRoomBooking 3 2) ].

(** The sample club after a booking in room 1 and an overlapping one, of
    another trainer and member, without a room. *)
Definition two_booked : OrmSession :=
  run [ (Sample.day,
         SchedulePtSession 1 1 (Sample.day + 2) (Sample.at_ 10 0)
           (Sample.at_ 11 0) (Some 1) "Personal Training" None None None);
        (Sample.day,
         SchedulePtSession 2 2 (Sample.day + 2) (Sample.at_ 10 30)
           (Sample.at_ 11 30) None "Personal Training" None None None) ]
    Sample.start.

End Scenario.

(** ** Reading the schedule *)

(** The order of [view_schedule]: by date, then by start time. *)
Definition schedule_le (a b : PersonalTrainingSession.t) : Prop :=
  PersonalTrainingSession.SessionDate a < PersonalTrainingSession.SessionDate b \/
  PersonalTrainingSession.SessionDate a = PersonalTrainingSession.SessionDate b /\
  time_leb (PersonalTrainingSession.StartTime a)
    (PersonalTrainingSession.StartTime b) = true.

(** ** Searching members *)

(** [lower name] contains [lower term]. *)
Definition name_contains (term name : string) : Prop :=
  exists pre post, Text.lower name = (pre ++ Text.lower term ++ post)%string.

(** Characters with no meaning to [split], to [LIKE] or to the cleaning
    of the search term. *)
Definition plain_char (c : ascii) : bool :=
  negb (Text.is_space c) &&
  negb (Text.has_char c "%_\;-/*").

Fixpoint all_chars (p : ascii -> bool) (s : string) : bool :=
  match s with
  | EmptyString => true
  | String c r => p c && all_chars p r
  end.

Module Measured.

(** The sample club after Alice has logged two measurements and set a
    goal. *)
Definition session : OrmSession :=
  run [ (Sample.day,
         LogHealthMetric 1 (Sample.day - 2) None (Some (Finite 66)) None None
           None);
        (Sample.day,
         LogHealthMetric 1 Sample.day None (Some (Finite 65)) None (Some 61)
           None);
        (Sample.day,
         AddFitnessGoal 1 "Weight loss" (Some (Finite 62)) None
           (Some (Sample.day + 90)) "Active" None) ]
    Sample.start.

End Measured.

(** ** Profiles *)

(** The member after the assignments of a successful [update_profile]:
    each field that was given is replaced, the others are kept. *)
Definition updated_profile (first_name last_name phone address : option string)
    (date_of_birth : option date) (gender : option string) (m : Member.t)
    : Member.t :=
  Member.mk (Member.MemberID m)
    (match first_name with
     | Some v => Text.strip v
     | None => Member.FirstName m
     end)
    (match last_name with
     | Some v => Text.strip v
     | None => Member.LastName m
     end)
    (match date_of_birth with
     | Some d => Some d
     | None => Member.DateOfBirth m
     end)
    (match gender with
     | Some g => upper_or_none (Some g)
     | None => Member.Gender m
     end)
    (Member.Email m)
    (match phone with
     | Some v => Text.strip_or_none (Some v)
     | None => Member.Phone m
     end)
    (match address with
     | Some v => Text.strip_or_none (Some v)
     | None => Member.Address m
     end)
    (Member.JoinDate m) (Member.MembershipStatus m).

(** What [update_profile] has no parameter for. *)
Definition member_identity (m : Member.t)
    : Z * string * option date * option string :=
  (Member.MemberID m, Member.Email m, Member.JoinDate m,
   Member.MembershipStatus m).

Definition identities (t : Tables) : list (Z * string * option date * option string) :=
  map member_identity (Members t).

(** The addresses on record. *)
Definition emails (t : Tables) : list string := map Member.Email (Members t).

Definition is_register_member (op : Op) : bool :=
  match op with
  | RegisterMember _ _ _ _ _ _ _ _ => true
  | _ => false
  end.

(** ** Maintenance issues *)

(** The issue after the assignments of a successful
    [update_maintenance_status]: each field that was given (and, for the
    status and the notes, not empty) is replaced, the others are kept. *)
Definition updated_issue (status : option string)
    (assigned_repair_date resolution_date : option date)
    (resolution_notes : option string) (i : MaintenanceIssue.t)
    : MaintenanceIssue.t :=
  MaintenanceIssue.mk (MaintenanceIssue.IssueID i) (MaintenanceIssue.RoomID i)
    (MaintenanceIssue.AdminID i) (MaintenanceIssue.IssueDescription i)
    (MaintenanceIssue.EquipmentName i) (MaintenanceIssue.ReportedDate i)
    (MaintenanceIssue.Priority i)
    (if Text.truthy status then status else MaintenanceIssue.Status i)
    (match assigned_repair_date with
     | Some d => Some d
     | None => MaintenanceIssue.AssignedRepairDate i
     end)
    (match resolution_date with
     | Some d => Some d
     | None => MaintenanceIssue.ResolutionDate i
     end)
    (if Text.truthy resolution_notes
     then Text.strip_or_none resolution_notes
     else MaintenanceIssue.ResolutionNotes i).

(** The issue [id] is on record and its status is one of [names]. *)
Definition settled_in (id : Z) (names : list string) (t : Tables) : Prop :=
  (exists i, In i (MaintenanceIssues t) /\ MaintenanceIssue.IssueID i = id) /\
  forall i, In i (MaintenanceIssues t) -> MaintenanceIssue.IssueID i = id ->
            status_in (MaintenanceIssue.Status i) names = true.

(** ** Invoices *)

(** An invoice with the number [number] is on record. *)
Definition numbered_in (number : string) (t : Tables) : Prop :=
  exists i, In i (Invoices t) /\ Invoice.InvoiceNumber i = number.
(** * Proofs *)

(** ** Times *)

(** The order of the fields, hour first, as Python compares two times. *)
Lemma time_ltb_fields (a b : time) :
  valid_time a -> valid_time b ->
  time_ltb a b = true <->
  hour a < hour b \/
  hour a = hour b /\
  (minute a < minute b \/
   minute a = minute b /\
   (second a < second b \/
    second a = second b /\ microsecond a < microsecond b)).
Proof.
  unfold valid_time, time_ltb, to_us. intros Ha Hb.
  rewrite Z.ltb_lt. split; intro H; nia.
Qed.

Lemma to_us_inj (a b : time) :
  valid_time a -> valid_time b -> to_us a = to_us b -> a = b.
Proof.
  destruct a as [h m s u], b as [h' m' s' u'].
  unfold valid_time, to_us; simpl. intros Ha Hb H.
  assert (h = h') by nia. subst.
  assert (m = m') by nia. subst.
  assert (s = s') by nia. subst.
  assert (u = u') by nia. subst. reflexivity.
Qed.

(** For times on whole minutes the duration is the difference of the
    minute counts. *)
Lemma whole_minutes_on_the_minute (h m h' m' : Z) :
  whole_minutes (mk_time h m 0 0) (mk_time h' m' 0 0)
  = (h' * 60 + m') - (h * 60 + m).
Proof.
  unfold whole_minutes, time_diff, to_us; simpl.
  replace (((h' * 60 + m') * 60 + 0) * 1000000 + 0
           - (((h * 60 + m) * 60 + 0) * 1000000 + 0))
    with (((h' * 60 + m') - (h * 60 + m)) * 60000000) by ring.
  apply Z.div_mul. discriminate.
Qed.

(** Sessions that only touch the new interval do not clash with it. *)
Lemma touching_does_not_clash (d : date) (st en : time)
    (p : PersonalTrainingSession.t) :
  PersonalTrainingSession.EndTime p = st \/
  PersonalTrainingSession.StartTime p = en ->
  clashes d st en p = false.
Proof.
  unfold clashes, time_ltb. intros [H | H]; rewrite H.
  - rewrite Z.ltb_irrefl. apply andb_false_r.
  - rewrite Z.ltb_irrefl. rewrite andb_false_r. reflexivity.
Qed.

(** ** Monad laws used for inversion *)

Lemma bind_unfold {A B} (m : M A) (k : A -> M B) (s : OrmSession) :
  bind m k s = match m s with
               | (Ok a, s') => k a s'
               | (Raise e, s') => (Raise e, s')
               end.
Proof. reflexivity. Qed.

Lemma bind_ok {A B} (m : M A) (k : A -> M B) s b s' :
  bind m k s = (Ok b, s') ->
  exists a s1, m s = (Ok a, s1) /\ k a s1 = (Ok b, s').
Proof.
  unfold bind. destruct (m s) as [[a | e] s1]; intro H.
  - exists a, s1. split; [reflexivity | exact H].
  - discriminate.
Qed.

Lemma raise_if_ok (b : bool) (r : reason) s u s' :
  raise_if b r s = (Ok u, s') -> b = false /\ s' = s.
Proof.
  unfold raise_if, raise, ret. destruct b; intro H; inversion H; auto.
Qed.

Lemma when_given_ok {A} (o : option A) (k : A -> M unit) s u s' :
  when_given o k s = (Ok u, s') ->
  match o with
  | Some a => k a s = (Ok u, s')
  | None => s' = s
  end.
Proof.
  destruct o; simpl; intro H; [exact H | inversion H; reflexivity].
Qed.

Lemma query_first_run {R} (tbl : Tables -> list R) (key : R -> Z)
    (p : R -> bool) s :
  query_first tbl key p s
  = (Ok (option_map (loaded tbl key s) (find p (tbl (committed s)))), s).
Proof. reflexivity. Qed.

Lemma refreshed_run {R} (tbl : Tables -> list R) (key : R -> Z) k fb s :
  refreshed tbl key k fb s
  = (Ok (match find (fun o => key o =? k) (tbl (committed s)) with
         | Some o => o
         | None => fb
         end), s).
Proof. unfold refreshed. destruct (find _ _); reflexivity. Qed.

(** ** Structural lemmas: computations that leave the session alone *)

Create HintDb orm discriminated.

Lemma preserves_ret {A} (a : A) : preserves (ret a).
Proof. intro s. reflexivity. Qed.

Lemma preserves_raise {A} (r : reason) : preserves (@raise A r).
Proof. intro s. reflexivity. Qed.

Lemma preserves_raise_if (b : bool) (r : reason) : preserves (raise_if b r).
Proof. intro s. destruct b; reflexivity. Qed.

Lemma preserves_bind {A B} (m : M A) (k : A -> M B) :
  preserves m -> (forall a, preserves (k a)) -> preserves (bind m k).
Proof.
  intros Hm Hk s. unfold bind. specialize (Hm s).
  destruct (m s) as [[a | e] s1]; simpl in *; subst.
  - apply Hk.
  - reflexivity.
Qed.

Lemma preserves_when_given {A} (o : option A) (k : A -> M unit) :
  (forall a, preserves (k a)) -> preserves (when_given o k).
Proof. intro Hk. destruct o; simpl; [apply Hk | apply preserves_ret]. Qed.

Lemma preserves_query_first {R} (tbl : Tables -> list R) (key : R -> Z)
    (p : R -> bool) : preserves (query_first tbl key p).
Proof. intro s. reflexivity. Qed.

Lemma preserves_query_ordered {R} (tbl : Tables -> list R) (key : R -> Z)
    (p : R -> bool) (order : list R -> list R) :
  preserves (query_ordered tbl key p order).
Proof. intro s. reflexivity. Qed.

Lemma preserves_refreshed {R} (tbl : Tables -> list R) (key : R -> Z) k fb :
  preserves (refreshed tbl key k fb).
Proof. intro s. rewrite refreshed_run. reflexivity. Qed.

Lemma preserves_outcome {A} (m : M A) : preserves m -> preserves (outcome m).
Proof.
  intros H s. unfold outcome. specialize (H s).
  destruct (m s) as [[a | e] s1]; exact H.
Qed.

#[export] Hint Resolve preserves_ret preserves_raise preserves_raise_if
  preserves_bind preserves_when_given preserves_query_first
  preserves_query_ordered preserves_refreshed preserves_outcome : orm.

#[export] Hint Extern 1 =>
  match goal with
  | |- _ (if ?b then _ else _) => destruct b
  | |- _ (match ?x with _ => _ end) => destruct x
  end : orm.
#[export] Hint Extern 0 => progress cbv beta zeta : orm.

Lemma schedule_checks_preserves today m t d st en r ty cap :
  preserves (schedule_checks today m t d st en r ty cap).
Proof. unfold schedule_checks. auto 40 with orm. Qed.

#[export] Hint Resolve schedule_checks_preserves : orm.

Lemma set_availability_preserves today t d st en :
  preserves (set_availability today t d st en).
Proof. unfold set_availability. auto 40 with orm. Qed.

Lemma view_schedule_preserves today t d :
  preserves (view_schedule today t d).
Proof. unfold view_schedule. auto 40 with orm. Qed.

Lemma lookup_member_preserves q : preserves (Search.lookup_member q).
Proof.
  unfold Search.lookup_member.
  repeat (apply preserves_bind; [auto with orm | intro]).
  intro s. reflexivity.
Qed.

(** ** Structural lemmas: only [ValueError] leaves an operation *)

Lemma value_errors_ret {A} (a : A) : value_errors (ret a).
Proof. intros s e H. discriminate. Qed.

Lemma value_errors_raise {A} (r : reason) : value_errors (@raise A r).
Proof. intros s e H. inversion H. eauto. Qed.

Lemma value_errors_raise_if (b : bool) (r : reason) :
  value_errors (raise_if b r).
Proof. destruct b; [apply value_errors_raise | apply value_errors_ret]. Qed.

Lemma value_errors_bind {A B} (m : M A) (k : A -> M B) :
  value_errors m -> (forall a, value_errors (k a)) -> value_errors (bind m k).
Proof.
  intros Hm Hk s e. unfold bind. specialize (Hm s).
  destruct (m s) as [[a | e'] s1]; simpl in *.
  - apply Hk.
  - intro H. inversion H; subst. apply Hm. reflexivity.
Qed.

Lemma value_errors_when_given {A} (o : option A) (k : A -> M unit) :
  (forall a, value_errors (k a)) -> value_errors (when_given o k).
Proof. intro Hk. destruct o; simpl; [apply Hk | apply value_errors_ret]. Qed.

Lemma value_errors_query_first {R} (tbl : Tables -> list R) (key : R -> Z)
    (p : R -> bool) : value_errors (query_first tbl key p).
Proof. intros s e H. discriminate. Qed.

Lemma value_errors_query_ordered {R} (tbl : Tables -> list R) (key : R -> Z)
    (p : R -> bool) (order : list R -> list R) :
  value_errors (query_ordered tbl key p order).
Proof. intros s e H. discriminate. Qed.

Lemma value_errors_rollback : value_errors db_rollback.
Proof. intros s e H. discriminate. Qed.

Lemma value_errors_try_except {A} (body : M A) (handler : exn -> M A) :
  (forall e, value_errors (handler e)) -> value_errors (try_except body handler).
Proof.
  intros Hh s e. unfold try_except.
  destruct (body s) as [[a | e'] s1]; simpl.
  - discriminate.
  - apply Hh.
Qed.

Lemma value_errors_outcome {A} (m : M A) :
  value_errors m -> value_errors (outcome m).
Proof.
  intros H s e. unfold outcome. specialize (H s).
  destruct (m s) as [[a | e'] s1]; simpl in *.
  - discriminate.
  - intro E. inversion E; subst. apply H. reflexivity.
Qed.

#[export] Hint Resolve value_errors_ret value_errors_raise
  value_errors_raise_if value_errors_bind value_errors_when_given
  value_errors_query_first value_errors_query_ordered value_errors_rollback
  value_errors_try_except value_errors_outcome : orm.

(** ** Structural lemmas: failure is all or nothing *)

Lemma atomic_of_preserves {A} (m : M A) : preserves m -> atomic m.
Proof. intros H s _. left. apply H. Qed.

Lemma atomic_raise {A} (r : reason) : atomic (@raise A r).
Proof. apply atomic_of_preserves, preserves_raise. Qed.

Lemma atomic_bind {A B} (m : M A) (k : A -> M B) :
  preserves m -> (forall a, atomic (k a)) -> atomic (bind m k).
Proof.
  intros Hm Hk s. unfold bind. specialize (Hm s).
  destruct (m s) as [[a | e] s1]; simpl in *; subst.
  - apply Hk.
  - intros _. left. reflexivity.
Qed.

Lemma atomic_outcome {A} (m : M A) : atomic m -> atomic (outcome m).
Proof.
  intros H s. unfold outcome. specialize (H s).
  destruct (m s) as [[a | e] s1]; simpl in *; exact H.
Qed.

(** A [try] block whose handler rolls back: unfold the block and follow
    each branch to its end. *)
Ltac run_block :=
  cbv [try_except bind modify db_add db_commit db_rollback refreshed raise
       ret when_given clean];
  repeat (match goal with
          | |- context [if ?b then _ else _] => destruct b
          | |- context [match find ?p ?l with _ => _ end] =>
              destruct (find p l)
          | |- context [match ?x with _ => _ end] => is_var x; destruct x
          end; cbv beta iota).

Ltac atomic_block :=
  let s := fresh "s" in
  intro s; run_block; simpl; intros; try discriminate; auto.

#[export] Hint Resolve atomic_raise atomic_bind atomic_outcome : orm.
#[export] Hint Resolve atomic_of_preserves | 10 : orm.
#[export] Hint Extern 2 (atomic (try_except _ _)) => solve [atomic_block] : orm.

(** ** Structural lemmas: a relation kept along a computation *)

Section Keeps.
Variable P : OrmSession -> OrmSession -> Prop.
Hypothesis P_refl : forall s, P s s.
Hypothesis P_trans : forall a b c, P a b -> P b c -> P a c.

Lemma keeps_of_preserves {A} (m : M A) : preserves m -> keeps P m.
Proof. intros H s. rewrite H. apply P_refl. Qed.

Lemma keeps_bind {A B} (m : M A) (k : A -> M B) :
  keeps P m -> (forall a, keeps P (k a)) -> keeps P (bind m k).
Proof.
  intros Hm Hk s. unfold bind. specialize (Hm s).
  destruct (m s) as [[a | e] s1]; simpl in *.
  - apply P_trans with s1; [exact Hm | apply Hk].
  - exact Hm.
Qed.

Lemma keeps_when_given {A} (o : option A) (k : A -> M unit) :
  (forall a, keeps P (k a)) -> keeps P (when_given o k).
Proof.
  intro Hk. destruct o; simpl; [apply Hk | intro s; apply P_refl].
Qed.

Lemma keeps_try_except {A} (body : M A) (handler : exn -> M A) :
  keeps P body -> (forall e, keeps P (handler e)) ->
  keeps P (try_except body handler).
Proof.
  intros Hb Hh s. unfold try_except. specialize (Hb s).
  destruct (body s) as [[a | e] s1]; simpl in *.
  - exact Hb.
  - apply P_trans with s1; [exact Hb | apply Hh].
Qed.

Lemma keeps_outcome {A} (m : M A) : keeps P m -> keeps P (outcome m).
Proof.
  intros H s. unfold outcome. specialize (H s).
  destruct (m s) as [[a | e] s1]; exact H.
Qed.

End Keeps.

(** ** Every operation raises [ValueError] and nothing else *)

Lemma lookup_member_value_errors q : value_errors (Search.lookup_member q).
Proof.
  unfold Search.lookup_member.
  repeat (apply value_errors_bind; [auto with orm | intro]).
  intros s e H. discriminate.
Qed.

Lemma perform_value_errors (today : date) (op : Op) :
  value_errors (perform today op).
Proof.
  destruct op; simpl; apply value_errors_outcome;
    try apply lookup_member_value_errors;
    unfold register_member, update_profile, add_fitness_goal,
      log_health_metric, schedule_pt_session, schedule_checks,
      set_availability, view_schedule, assign_room_booking,
      log_maintenance_issue, update_maintenance_status, create_invoice,
      record_payment;
    auto 60 with orm.
Qed.

(** ** Every operation but [update_profile] fails without a trace *)

Lemma perform_atomic (today : date) (op : Op) :
  is_update_profile op = false -> atomic (perform today op).
Proof.
  destruct op; simpl; intro Hop; try discriminate; apply atomic_outcome;
    try (apply atomic_of_preserves;
         first [ apply set_availability_preserves
               | apply view_schedule_preserves
               | apply lookup_member_preserves ]);
    unfold register_member, add_fitness_goal, log_health_metric,
      schedule_pt_session, assign_room_booking, log_maintenance_issue,
      update_maintenance_status, create_invoice, record_payment;
    auto 60 with orm.
Qed.

Lemma failed_call_changes_nothing (today : date) (op : Op) (s : OrmSession) :
  is_update_profile op = false -> synced s ->
  is_ok (fst (perform today op s)) = false ->
  snd (perform today op s) = s.
Proof.
  intros Hop Hs Hfail.
  destruct (perform_atomic today op Hop s Hfail) as [H | H]; [exact H |].
  rewrite H. destruct s as [c w]. unfold synced in Hs. simpl in *.
  subst. reflexivity.
Qed.

(** ** Structural lemmas: reasons a computation never gives *)

Section Never.
Variable bad : reason -> bool.

Lemma never_ret {A} (a : A) : never bad (ret a).
Proof. intros s r H. discriminate. Qed.

Lemma never_raise {A} (r : reason) : bad r = false -> never bad (@raise A r).
Proof. intros Hr s r' H. inversion H; subst. exact Hr. Qed.

Lemma never_raise_if (b : bool) (r : reason) :
  bad r = false -> never bad (raise_if b r).
Proof.
  intro Hr. destruct b; [apply never_raise, Hr | apply never_ret].
Qed.

Lemma never_raise_if_false (r : reason) : never bad (raise_if false r).
Proof. apply never_ret. Qed.

Lemma never_bind {A B} (m : M A) (k : A -> M B) :
  never bad m -> (forall a, never bad (k a)) -> never bad (bind m k).
Proof.
  intros Hm Hk s r. unfold bind. specialize (Hm s).
  destruct (m s) as [[a | e] s1]; simpl in *.
  - apply Hk.
  - intro H. inversion H; subst. apply Hm. reflexivity.
Qed.

Lemma never_when_given {A} (o : option A) (k : A -> M unit) :
  (forall a, never bad (k a)) -> never bad (when_given o k).
Proof. intro Hk. destruct o; simpl; [apply Hk | apply never_ret]. Qed.

Lemma never_query_first {R} (tbl : Tables -> list R) (key : R -> Z)
    (p : R -> bool) : never bad (query_first tbl key p).
Proof. intros s r H. discriminate. Qed.

Lemma never_rollback : never bad db_rollback.
Proof. intros s r H. discriminate. Qed.

Lemma never_try_except {A} (body : M A) (handler : exn -> M A) :
  (forall e, never bad (handler e)) -> never bad (try_except body handler).
Proof.
  intros Hh s r. unfold try_except.
  destruct (body s) as [[a | e] s1]; simpl.
  - discriminate.
  - apply Hh.
Qed.

End Never.

#[export] Hint Resolve never_ret never_raise never_raise_if
  never_raise_if_false never_bind
  never_when_given never_query_first never_rollback never_try_except : orm.
#[export] Hint Extern 0 (_ = false) => reflexivity : orm.

(** ** Queries *)

Lemma find_hit {R} (p : R -> bool) (l : list R) (x : R) :
  In x l -> p x = true ->
  exists y, find p l = Some y /\ In y l /\ p y = true.
Proof.
  intros Hin Hp. destruct (find p l) as [y |] eqn:E.
  - exists y. apply find_some in E. tauto.
  - exfalso. apply (find_none _ _ E) in Hin. congruence.
Qed.

Lemma find_miss {R} (p : R -> bool) (l : list R) :
  (forall x, In x l -> p x = false) -> find p l = None.
Proof.
  induction l as [| a l IH]; simpl; intro H; [reflexivity |].
  rewrite (H a) by auto. apply IH. intros x Hx. apply H. auto.
Qed.

Lemma loaded_key {R} (tbl : Tables -> list R) (key : R -> Z) s (row : R) :
  key (loaded tbl key s row) = key row.
Proof.
  unfold loaded. destruct (find _ _) as [o |] eqn:E; [| reflexivity].
  apply find_some in E. apply Z.eqb_eq. apply E.
Qed.

Lemma loaded_synced {R} (tbl : Tables -> list R) (key : R -> Z) s (row : R) :
  synced s -> In row (tbl (committed s)) ->
  (forall a b, In a (tbl (committed s)) -> In b (tbl (committed s)) ->
               key a = key b -> a = b) ->
  loaded tbl key s row = row.
Proof.
  unfold loaded, synced. intros Hs Hin Hkey. rewrite Hs.
  destruct (find _ _) as [o |] eqn:E.
  - apply find_some in E. destruct E as [Ho Hk].
    apply Hkey; [exact Ho | exact Hin | apply Z.eqb_eq, Hk].
  - reflexivity.
Qed.

(** ** Scheduling against the trainer's sessions *)

Lemma schedule_checks_value_errors today m t d st en r ty cap :
  value_errors (schedule_checks today m t d st en r ty cap).
Proof. unfold schedule_checks. auto 40 with orm. Qed.

Lemma schedule_checks_no_conflict today m t d st en r ty cap :
  never is_trainer_conflict (schedule_checks today m t d st en r ty cap).
Proof. unfold schedule_checks. auto 40 with orm. Qed.

(** C1. A session of the same trainer on the same date that strictly
    overlaps the new interval makes [schedule_pt_session] fail and write
    nothing; once the arguments and the records they name pass their
    checks, the failure is the trainer conflict naming such a session.
    When every session of the trainer on that date ends by the new start
    or starts at or after the new end, no trainer conflict is raised. *)
Theorem schedule_trainer_conflict
    (today : date) (member_id trainer_id : Z) (session_date : date)
    (start_time end_time : time) (room_id : option Z) (session_type : string)
    (duration_minutes max_capacity : option Z) (notes : option string)
    (s : OrmSession) :
  let call := schedule_pt_session today member_id trainer_id session_date
                start_time end_time room_id session_type duration_minutes
                max_capacity notes in
  let clash := trainer_clash trainer_id session_date start_time end_time in
  (forall c, In c (Sessions (committed s)) -> clash c = true ->
     snd (call s) = s /\
     (exists r, fst (call s) = Raise (ValueError r)) /\
     (fst (schedule_checks today member_id trainer_id session_date start_time
             end_time room_id session_type max_capacity s) = Ok tt ->
      exists hit,
        In hit (Sessions (committed s)) /\ clash hit = true /\
        exists from to,
          fst (call s) = Raise (ValueError
            (TrainerConflict (PersonalTrainingSession.SessionID hit) from to))))
  /\
  ((forall p, In p (Sessions (committed s)) ->
      PersonalTrainingSession.TrainerID p = trainer_id ->
      PersonalTrainingSession.SessionDate p = session_date ->
      time_leb (PersonalTrainingSession.EndTime p) start_time = true \/
      time_leb end_time (PersonalTrainingSession.StartTime p) = true) ->
   forall id from to,
     fst (call s) <> Raise (ValueError (TrainerConflict id from to))).
Proof.
  intros call clash. split.
  - intros c Hin Hclash.
    destruct (find_hit clash _ c Hin Hclash) as (hit & Hfind & Hhit & Hp).
    pose proof (schedule_checks_preserves today member_id trainer_id
                  session_date start_time end_time room_id session_type
                  max_capacity s) as Hsame.
    pose proof (schedule_checks_value_errors today member_id trainer_id
                  session_date start_time end_time room_id session_type
                  max_capacity s) as Herr.
    unfold call, schedule_pt_session. rewrite bind_unfold.
    destruct (schedule_checks _ _ _ _ _ _ _ _ _ s) as [[[] | e] s1];
      simpl in Hsame, Herr; subst s1.
    + rewrite bind_unfold, query_first_run. fold clash. rewrite Hfind.
      simpl. repeat split; eauto.
      intros _. exists hit. repeat split; auto.
      rewrite loaded_key. eauto.
    + destruct (Herr e eq_refl) as [r ->]. simpl.
      repeat split; eauto. discriminate.
  - intros Hfree id from to.
    assert (Hnone : find clash (Sessions (committed s)) = None).
    { apply find_miss. intros p Hp. unfold clash, trainer_clash, clashes.
      destruct (Z.eqb_spec (PersonalTrainingSession.TrainerID p) trainer_id);
        [| reflexivity].
      destruct (Z.eqb_spec (PersonalTrainingSession.SessionDate p) session_date);
        [| reflexivity].
      simpl. unfold time_ltb, time_leb in *.
      destruct (Hfree p Hp e e0) as [H | H]; apply Z.leb_le in H.
      - replace (to_us start_time <? to_us (PersonalTrainingSession.EndTime p))
          with false by (symmetry; apply Z.ltb_ge; exact H).
        apply andb_false_r.
      - replace (to_us (PersonalTrainingSession.StartTime p) <? to_us end_time)
          with false by (symmetry; apply Z.ltb_ge; exact H).
        reflexivity. }
    intro Hcall. unfold call, schedule_pt_session in Hcall.
    rewrite bind_unfold in Hcall.
    pose proof (schedule_checks_preserves today member_id trainer_id
                  session_date start_time end_time room_id session_type
                  max_capacity s) as Hsame.
    pose proof (schedule_checks_no_conflict today member_id trainer_id
                  session_date start_time end_time room_id session_type
                  max_capacity s) as Hclean.
    destruct (schedule_checks _ _ _ _ _ _ _ _ _ s) as [[[] | e] s1];
      simpl in Hsame, Hclean; subst s1.
    + rewrite bind_unfold, query_first_run in Hcall. fold clash in Hcall.
      rewrite Hnone in Hcall. cbv beta iota in Hcall. simpl option_map in Hcall.
      cbv beta iota in Hcall.
      change (when_given None ?k) with (ret tt) in Hcall.
      match type of Hcall with
      | fst (?m s) = _ =>
          assert (Hn : never is_trainer_conflict m) by auto 40 with orm
      end.
      apply Hn in Hcall. discriminate.
    + simpl in Hcall. inversion Hcall; subst.
      specialize (Hclean _ eq_refl). discriminate.
Qed.

Lemma schedule_trainer_conflict_witness :
  let call := schedule_pt_session Sample.day 2 1 (Sample.day + 1)
                (Sample.at_ 10 30) (Sample.at_ 11 30) (Some 2)
                "Personal Training" None None None in
  snd (call Sample.start) = Sample.start /\
  exists hit,
    In hit (Sessions (committed Sample.start)) /\
    exists from to,
      fst (call Sample.start) = Raise (ValueError
        (TrainerConflict (PersonalTrainingSession.SessionID hit) from to)).
Proof.
  intro call.
  destruct (schedule_trainer_conflict Sample.day 2 1 (Sample.day + 1)
              (Sample.at_ 10 30) (Sample.at_ 11 30) (Some 2)
              "Personal Training" None None None Sample.start) as [H _].
  destruct (H Sample.morning) as (Hsame & _ & Hhit).
  - simpl. auto.
  - reflexivity.
  - split; [exact Hsame |].
    destruct (Hhit eq_refl) as (hit & Hin & _ & Hcall).
    exists hit. split; assumption.
Defined.

(** The scenario of the specification: the first booking succeeds with a
    duration of 60 minutes, an overlapping one for the same trainer is a
    trainer conflict, an overlapping one in the same room with another
    trainer is a room conflict, and one that starts when the first ends is
    accepted. *)
Example scenario_bookings :
  let book m t st en :=
    schedule_pt_session Sample.day m t (Sample.day + 2) st en (Some 1)
      "Personal Training" None None None in
  let after_first := snd (book 1 1 (Sample.at_ 10 0) (Sample.at_ 11 0)
                            Sample.start) in
  option_map PersonalTrainingSession.DurationMinutes
    (match fst (book 1 1 (Sample.at_ 10 0) (Sample.at_ 11 0) Sample.start) with
     | Ok p => Some p
     | Raise _ => None
     end) = Some (Some 60) /\
  fst (book 2 1 (Sample.at_ 10 30) (Sample.at_ 11 30) after_first)
  = Raise (ValueError (TrainerConflict 2 (Sample.at_ 10 0) (Sample.at_ 11 0))) /\
  fst (book 2 2 (Sample.at_ 10 30) (Sample.at_ 11 30) after_first)
  = Raise (ValueError (RoomConflict 2 (Sample.at_ 10 0) (Sample.at_ 11 0))) /\
  is_ok (fst (book 2 1 (Sample.at_ 11 0) (Sample.at_ 12 0) after_first)) = true.
Proof. vm_compute. repeat split. Qed.

(** ** Inverting a successful call *)

Lemma try_except_ok {A} (body : M A) (handler : exn -> M A) s a s' :
  (forall e s1, is_ok (fst (handler e s1)) = false) ->
  try_except body handler s = (Ok a, s') -> body s = (Ok a, s').
Proof.
  intros Hh. unfold try_except.
  destruct (body s) as [[a' | e] s1]; intro H; [exact H |].
  specialize (Hh e s1). rewrite H in Hh. discriminate.
Qed.

Lemma db_commit_ok s u s' :
  db_commit s = (Ok u, s') ->
  widths_ok (working s) = true /\ unique_ok (working s) = true /\
  s' = clean (working s).
Proof.
  unfold db_commit.
  destruct (widths_ok (working s)); simpl; [| discriminate].
  destruct (unique_ok (working s)); simpl; [| discriminate].
  intro H. inversion H. auto.
Qed.

Lemma ret_ok {A} (a b : A) s s' : ret a s = (Ok b, s') -> b = a /\ s' = s.
Proof. unfold ret. intro H. inversion H. auto. Qed.

Lemma query_first_ok {R} (tbl : Tables -> list R) (key : R -> Z)
    (p : R -> bool) s a s' :
  query_first tbl key p s = (Ok a, s') ->
  a = option_map (loaded tbl key s) (find p (tbl (committed s))) /\ s' = s.
Proof. rewrite query_first_run. intro H. inversion H. auto. Qed.

Lemma refreshed_ok {R} (tbl : Tables -> list R) (key : R -> Z) k fb s a s' :
  refreshed tbl key k fb s = (Ok a, s') ->
  a = match find (fun o => key o =? k) (tbl (committed s)) with
      | Some o => o
      | None => fb
      end /\ s' = s.
Proof. rewrite refreshed_run. intro H. inversion H. auto. Qed.

Lemma db_add_ok {R} (tbl : Tables -> list R) with_tbl (key : R -> Z) new s a s' :
  db_add tbl with_tbl key new s = (Ok a, s') ->
  a = new (next_id key (tbl (working s))) /\
  s' = mk_session (committed s)
         (with_tbl (insert (new (next_id key (tbl (working s))))) (working s)).
Proof. unfold db_add. intro H. inversion H. auto. Qed.

Lemma modify_ok (f : Tables -> Tables) s u s' :
  modify f s = (Ok u, s') -> s' = mk_session (committed s) (f (working s)).
Proof. unfold modify. intro H. inversion H. auto. Qed.

Lemma option_map_some {A B} (f : A -> B) (o : option A) (y : B) :
  option_map f o = Some y -> exists x, o = Some x /\ f x = y.
Proof.
  destruct o as [x |]; simpl; intro H; [| discriminate].
  exists x. split; [reflexivity | congruence].
Qed.

Ltac ok_inv :=
  repeat match goal with
         | H : bind _ _ _ = (Ok _, _) |- _ =>
             apply bind_ok in H;
             let a := fresh "a" in
             let s := fresh "s" in
             let E := fresh "E" in
             destruct H as (a & s & E & H); cbv beta in H
         | H : raise_if _ _ _ = (Ok _, _) |- _ =>
             apply raise_if_ok in H;
             let C := fresh "C" in
             destruct H as [C ->]
         | H : ret _ _ = (Ok _, _) |- _ =>
             apply ret_ok in H; destruct H as [-> ->]
         | H : query_first _ _ _ _ = (Ok _, _) |- _ =>
             apply query_first_ok in H; destruct H as [-> ->]
         | H : when_given (Some _) _ _ = (Ok _, _) |- _ =>
             simpl when_given in H
         | H : when_given None _ _ = (Ok _, _) |- _ =>
             simpl when_given in H
         | H : when_given ?o _ _ = (Ok _, _) |- _ =>
             let C := fresh "C" in
             destruct o eqn:C; rewrite ?C in *
         | H : (if true then _ else _) _ = (Ok _, _) |- _ => cbv iota in H
         | H : (if false then _ else _) _ = (Ok _, _) |- _ => cbv iota in H
         | H : (if ?b then _ else _) _ = (Ok _, _) |- _ =>
             let C := fresh "C" in destruct b eqn:C; rewrite ?C in *
         | H : raise _ _ = (Ok _, _) |- _ => discriminate H
         | H : match ?x with _ => _ end _ = (Ok _, _) |- _ =>
             let C := fresh "C" in destruct x eqn:C; rewrite ?C in *
         | H : db_commit _ = (Ok _, _) |- _ =>
             apply db_commit_ok in H;
             let W := fresh "W" in
             let U := fresh "U" in
             destruct H as (W & U & ->)
         | H : refreshed _ _ _ _ _ = (Ok _, _) |- _ =>
             apply refreshed_ok in H; destruct H as [-> ->]
         | H : db_add _ _ _ _ _ = (Ok _, _) |- _ =>
             apply db_add_ok in H; destruct H as [-> ->]
         | H : modify _ _ = (Ok _, _) |- _ =>
             apply modify_ok in H; rewrite H in *; clear H
         end.

(** What a successful registration did. *)
Lemma register_member_ok today f l e d g p a st s m s1 :
  register_member today f l e d g p a st s = (Ok m, s1) ->
  exists row,
    Member.Email row = Text.lower (Text.strip e) /\
    Member.MemberID row = next_id Member.MemberID (Members (working s)) /\
    s1 = clean (with_Members (insert row) (working s)) /\
    unique_ok (with_Members (insert row) (working s)) = true.
Proof.
  unfold register_member. intro H.
  ok_inv;
    (apply try_except_ok in H; [| intros e0 s0; destruct e0; reflexivity]);
    ok_inv; cbn [working] in *;
    match type of U with
    | unique_ok (with_Members (insert ?r) _) = true => exists r
    end; repeat split; try reflexivity; assumption.
Qed.

(** ** Registering the same address twice *)

Lemma distinct_repeat (l : list string) (x : string) :
  In x l -> distinct (l ++ [x]) = false.
Proof.
  induction l as [| y l IH]; simpl; [tauto |].
  intros [-> | Hin].
  - replace (existsb (String.eqb x) (l ++ [x])) with true; [reflexivity |].
    symmetry. apply existsb_exists. exists x. split.
    + apply in_or_app. right. simpl. auto.
    + apply String.eqb_refl.
  - rewrite (IH Hin). apply andb_false_r.
Qed.

(** ** Assignments to a loaded object *)

Lemma assign_in {R} (key : R -> Z) (k : Z) (f : R -> R) (rows : list R) i :
  In i (assign key k f rows) ->
  exists o, In o rows /\ i = if key o =? k then f o else o.
Proof.
  unfold assign. intro H. apply in_map_iff in H.
  destruct H as (o & Ho & Hin). exists o. auto.
Qed.

Lemma assign_all {R} (key : R -> Z) (k : Z) (f : R -> R) (rows : list R)
    (Q : R -> Prop) :
  (forall o, key (f o) = key o) ->
  (forall o, In o rows -> key o = k -> Q (f o)) ->
  forall i, In i (assign key k f rows) -> key i = k -> Q i.
Proof.
  intros Hkey HQ i Hin Hk.
  destruct (assign_in _ _ _ _ _ Hin) as (o & Ho & ->).
  destruct (Z.eqb_spec (key o) k) as [E | E].
  - apply HQ; assumption.
  - contradiction.
Qed.

Lemma assign_other {R} (key : R -> Z) (k : Z) (f : R -> R) (rows : list R)
    (Q : R -> Prop) :
  (forall o, key (f o) = key o) ->
  (forall o, In o rows -> key o <> k -> Q o) ->
  forall i, In i (assign key k f rows) -> key i <> k -> Q i.
Proof.
  intros Hkey HQ i Hin Hk.
  destruct (assign_in _ _ _ _ _ Hin) as (o & Ho & ->).
  destruct (Z.eqb_spec (key o) k) as [E | E].
  - rewrite Hkey in Hk. contradiction.
  - apply HQ; assumption.
Qed.

Lemma assign_keeps {R} (key : R -> Z) (k : Z) (g : R -> R) (rows : list R)
    (Q : R -> Prop) :
  (forall o, key (g o) = key o) ->
  (forall o, Q o -> Q (g o)) ->
  (forall o, In o rows -> key o = k -> Q o) ->
  forall i, In i (assign key k g rows) -> key i = k -> Q i.
Proof.
  intros Hkey Hg HQ. apply assign_all; [exact Hkey |].
  intros o Ho Hk. apply Hg, HQ; assumption.
Qed.

(** Turn the recorded outcomes of boolean checks into facts. *)
Ltac bool_facts :=
  repeat match goal with
         | H : _ || _ = false |- _ => apply orb_false_iff in H; destruct H
         | H : _ && _ = true |- _ => apply andb_true_iff in H; destruct H
         | H : negb _ = false |- _ => apply negb_false_iff in H
         | H : negb _ = true |- _ => apply negb_true_iff in H
         | H : (_ <? _) = false |- _ => apply Z.ltb_ge in H
         | H : (_ <? _) = true |- _ => apply Z.ltb_lt in H
         | H : (_ <=? _) = false |- _ => apply Z.leb_gt in H
         | H : (_ <=? _) = true |- _ => apply Z.leb_le in H
         | H : (_ =? _) = true |- _ => apply Z.eqb_eq in H
         | H : (_ =? _) = false |- _ => apply Z.eqb_neq in H
         end.

(** Split the conjunctions among the failed conditions, by cases. *)
Ltac split_checks :=
  repeat match goal with
         | H : true && _ = false |- _ => simpl andb in H
         | H : false && _ = false |- _ => clear H
         | H : ?a && ?b = false |- _ =>
             let E := fresh "E" in
             destruct a eqn:E; simpl andb in H; [| clear H]
         end.

(** A property of the rows with key [k] after a chain of assignments:
    it is set by one of them and kept by those after it. *)
Ltac through_assignments :=
  repeat first
    [ solve [ apply assign_all;
              [ intros []; reflexivity | intros; reflexivity ] ]
    | apply assign_keeps;
      [ intros []; reflexivity | intros [] ?; assumption | ] ].

(** ** Maintenance issues *)

(** Every check a successful [update_maintenance_status] passed, and the
    rows it committed. *)
Lemma update_maintenance_status_ok today issue_id status repair resolution
    notes s v s1 :
  update_maintenance_status today issue_id status repair resolution notes s
  = (Ok v, s1) ->
  exists row,
    find (fun i => MaintenanceIssue.IssueID i =? issue_id)
      (MaintenanceIssues (committed s)) = Some row /\
    let issue := loaded MaintenanceIssues MaintenanceIssue.IssueID s row in
    (Text.truthy status = true ->
     status_in status issue_statuses = true /\
     (status_is (MaintenanceIssue.Status issue) "Closed" = true ->
      status_is status "Closed" = true) /\
     (status_is (MaintenanceIssue.Status issue) "Resolved" = true ->
      status_in status ["Resolved"; "Closed"] = true)) /\
    (forall d, repair = Some d ->
       MaintenanceIssue.ReportedDate issue <= d <= today + 364) /\
    (forall d, resolution = Some d ->
       status_in (MaintenanceIssue.Status issue) ["Resolved"; "Closed"] = true /\
       MaintenanceIssue.ReportedDate issue <= d <= today /\
       forall a, repair = Some a -> a <= d) /\
    exists W,
      s1 = clean W /\
      (Text.truthy status = true ->
       forall i, In i (MaintenanceIssues W) ->
                 MaintenanceIssue.IssueID i = issue_id ->
                 MaintenanceIssue.Status i = status) /\
      (forall d, resolution = Some d ->
       forall i, In i (MaintenanceIssues W) ->
                 MaintenanceIssue.IssueID i = issue_id ->
                 MaintenanceIssue.ResolutionDate i = Some d).
Proof.
  unfold update_maintenance_status. intro H. ok_inv.
  all: match goal with
       | C : option_map _ (find _ _) = Some _ |- _ =>
           apply option_map_some in C; destruct C as (row & Hfind & <-)
       end.
  all: exists row; split; [exact Hfind |].
  all: assert (Hk : MaintenanceIssue.IssueID
                      (loaded MaintenanceIssues MaintenanceIssue.IssueID s row)
                    = issue_id)
         by (rewrite loaded_key; apply find_some in Hfind;
             apply Z.eqb_eq, Hfind).
  all: rewrite Hk in H.
  all: set (issue := loaded MaintenanceIssues MaintenanceIssue.IssueID s row)
         in *; clearbody issue.
  all: (apply try_except_ok in H; [| intros e0 s0; reflexivity]);
    ok_inv; cbn [working committed] in *.
  all: split_checks; bool_facts.
  all: split; [intros; repeat split; intros; try assumption; congruence |].
  all: split; [intros ? Hd; try discriminate Hd; injection Hd as <-; lia |].
  all: split;
    [ intros ? Hd; try discriminate Hd; injection Hd as <-;
      repeat split; try assumption; try lia;
      intros ? Ha; try discriminate Ha; injection Ha as <-; lia |].
  all: eexists; split; [reflexivity |].
  all: cbn [MaintenanceIssues with_MaintenanceIssues]; split;
    [ intro Ht; try discriminate Ht; through_assignments
    | intros ? Hd; try discriminate Hd; injection Hd as <-;
      through_assignments ].
Qed.

Lemma status_is_true (o : option string) (name : string) :
  status_is o name = true <-> o = Some name.
Proof.
  destruct o as [x |]; simpl.
  - rewrite String.eqb_eq. split; [intros -> | intros [= ->]]; reflexivity.
  - split; discriminate.
Qed.

Lemma status_in_resolved_closed (o : option string) :
  status_in o ["Resolved"; "Closed"] = true <->
  o = Some "Resolved" \/ o = Some "Closed".
Proof.
  destruct o as [x |]; simpl.
  - rewrite !orb_true_iff, !String.eqb_eq. split.
    + intros [-> | [-> | H]]; [auto | auto | discriminate].
    + intros [[= ->] | [= ->]]; auto.
  - split; [discriminate | intros [H | H]; discriminate].
Qed.

(** C3, as stated, fails: an issue in progress is put back to open. *)
Lemma maintenance_status_moves_back :
  MaintenanceIssue.Status Sample.treadmill = Some "In Progress" /\
  fst (update_maintenance_status Sample.day 1 (Some "Open") None None None
         Sample.start)
  = Ok (MaintenanceIssue.set_Status (Some "Open") Sample.treadmill).
Proof. vm_compute. split; reflexivity. Qed.

(** C3, amended. A successful [update_maintenance_status] that supplies a
    status sets the issue to it; the status is one of the four names; from
    Closed only Closed passes and from Resolved only Resolved or Closed.
    From any other status the transition check rejects nothing. *)
Theorem maintenance_status_guard
    (today : date) (issue_id : Z) (status : option string)
    (assigned_repair_date resolution_date : option date)
    (resolution_notes : option string) (s : OrmSession) :
  let call := update_maintenance_status today issue_id status
                assigned_repair_date resolution_date resolution_notes in
  let by_id := fun i => MaintenanceIssue.IssueID i =? issue_id in
  let current row :=
    MaintenanceIssue.Status
      (loaded MaintenanceIssues MaintenanceIssue.IssueID s row) in
  (forall v s1, call s = (Ok v, s1) -> Text.truthy status = true ->
     exists row,
       find by_id (MaintenanceIssues (committed s)) = Some row /\
       status_in status issue_statuses = true /\
       (current row = Some "Closed" -> status = Some "Closed") /\
       (current row = Some "Resolved" ->
        status = Some "Resolved" \/ status = Some "Closed") /\
       forall i, In i (MaintenanceIssues (committed s1)) ->
                 MaintenanceIssue.IssueID i = issue_id ->
                 MaintenanceIssue.Status i = status)
  /\
  (forall row, find by_id (MaintenanceIssues (committed s)) = Some row ->
     current row <> Some "Closed" -> current row <> Some "Resolved" ->
     forall r, fst (call s) = Raise (ValueError r) ->
               is_transition_error r = false).
Proof.
  intros call by_id current. split.
  - intros v s1 Hcall Htruthy.
    destruct (update_maintenance_status_ok _ _ _ _ _ _ _ _ _ Hcall)
      as (row & Hfind & Hstatus & _ & _ & W & -> & HW & _).
    destruct (Hstatus Htruthy) as (Hin & Hclosed & Hresolved).
    exists row. repeat split; try assumption.
    + intro H. apply status_is_true, Hclosed, status_is_true, H.
    + intro H. apply status_in_resolved_closed, Hresolved, status_is_true, H.
    + apply HW, Htruthy.
  - intros row Hfind Hnc Hnr r.
    assert (Hc : status_is (current row) "Closed" = false).
    { apply not_true_is_false. intro E.
      apply status_is_true in E. contradiction. }
    assert (Hr : status_is (current row) "Resolved" = false).
    { apply not_true_is_false. intro E.
      apply status_is_true in E. contradiction. }
    unfold call, update_maintenance_status.
    rewrite bind_unfold. unfold raise_if at 1.
    destruct (issue_id <=? 0); [intros [= <-]; reflexivity |].
    cbv [ret]. cbv beta iota.
    rewrite bind_unfold. unfold raise_if at 1.
    destruct (_ && _); [intros [= <-]; reflexivity |].
    cbv [ret]. cbv beta iota.
    rewrite bind_unfold, query_first_run. fold by_id. rewrite Hfind.
    cbn [option_map]. cbv beta iota zeta. fold (current row).
    rewrite bind_unfold. unfold raise_if at 1.
    destruct (_ && _); [intros [= <-]; reflexivity |].
    cbv [ret]. cbv beta iota.
    rewrite Hc, Hr. cbn [andb].
    match goal with
    | |- fst (?m s) = _ -> _ =>
        assert (Hn : never is_transition_error m)
    end.
    { apply never_bind; [destruct (Text.truthy status) | intro];
        auto 40 with orm; exact (never_ret _ tt). }
    apply Hn.
Qed.

Lemma maintenance_status_guard_witness :
  exists row,
    find (fun i => MaintenanceIssue.IssueID i =? 1)
      (MaintenanceIssues (committed Sample.start)) = Some row /\
    forall i,
      In i (MaintenanceIssues
              (committed (snd (update_maintenance_status Sample.day 1
                                 (Some "Resolved") None None None
                                 Sample.start)))) ->
      MaintenanceIssue.IssueID i = 1 ->
      MaintenanceIssue.Status i = Some "Resolved".
Proof.
  destruct (maintenance_status_guard Sample.day 1 (Some "Resolved") None None
              None Sample.start) as [H _].
  destruct (H (MaintenanceIssue.set_Status (Some "Resolved") Sample.treadmill)
              (snd (update_maintenance_status Sample.day 1 (Some "Resolved")
                      None None None Sample.start)))
    as (row & Hfind & _ & _ & _ & Hrows).
  - vm_compute. reflexivity.
  - reflexivity.
  - exists row. split; assumption.
Defined.

(** C7, as stated, fails: the run of the demonstration script ends with a
    resolution date before the repair date stored on the issue. *)
Lemma resolution_before_stored_repair_date :
  option_map
    (fun i => (MaintenanceIssue.AssignedRepairDate i,
               MaintenanceIssue.ResolutionDate i))
    (match fst (update_maintenance_status Sample.day 3 None None
                  (Some Sample.day) None Sample.demo_resolved) with
     | Ok i => Some i
     | Raise _ => None
     end)
  = Some (Some (Sample.day + 3), Some Sample.day).
Proof. vm_compute. reflexivity. Qed.

(** C7, amended. A successful [update_maintenance_status] that supplies a
    resolution date found the issue Resolved or Closed, the date between
    the reported date and today, and not before the repair date supplied in
    the same call; the date is then stored.  A call that fails raises
    [ValueError]. *)
Theorem resolution_date_guard
    (today : date) (issue_id : Z) (status : option string)
    (assigned_repair_date resolution_date : option date)
    (resolution_notes : option string) (s s1 : OrmSession)
    (v : MaintenanceIssue.t) (d : date) :
  update_maintenance_status today issue_id status assigned_repair_date
    resolution_date resolution_notes s = (Ok v, s1) ->
  resolution_date = Some d ->
  (exists row,
     find (fun i => MaintenanceIssue.IssueID i =? issue_id)
       (MaintenanceIssues (committed s)) = Some row /\
     let issue := loaded MaintenanceIssues MaintenanceIssue.IssueID s row in
     (MaintenanceIssue.Status issue = Some "Resolved" \/
      MaintenanceIssue.Status issue = Some "Closed") /\
     MaintenanceIssue.ReportedDate issue <= d <= today /\
     (forall a, assigned_repair_date = Some a -> a <= d) /\
     forall i, In i (MaintenanceIssues (committed s1)) ->
               MaintenanceIssue.IssueID i = issue_id ->
               MaintenanceIssue.ResolutionDate i = Some d)
  /\
  (forall today' id st a r n s' e,
     fst (update_maintenance_status today' id st a r n s') = Raise e ->
     exists reason, e = ValueError reason).
Proof.
  intros Hcall Hd. split.
  - destruct (update_maintenance_status_ok _ _ _ _ _ _ _ _ _ Hcall)
      as (row & Hfind & _ & _ & Hres & W & -> & _ & HW).
    destruct (Hres d Hd) as (Hst & Hrange & Hrepair).
    exists row. split; [exact Hfind |]. intro issue.
    repeat split; try apply Hrange; try assumption.
    + apply status_in_resolved_closed, Hst.
    + apply HW, Hd.
  - intros today' id st a r n s' e He.
    apply (perform_value_errors today' (UpdateMaintenanceStatus id st a r n) s').
    simpl. unfold outcome.
    destruct (update_maintenance_status today' id st a r n s') as [[x | e'] s2];
      simpl in *; congruence.
Qed.

Lemma resolution_date_guard_witness :
  exists row,
    find (fun i => MaintenanceIssue.IssueID i =? 2)
      (MaintenanceIssues (committed Sample.start)) = Some row /\
    MaintenanceIssue.ReportedDate
      (loaded MaintenanceIssues MaintenanceIssue.IssueID Sample.start row)
    <= Sample.day - 1 <= Sample.day.
Proof.
  destruct (resolution_date_guard Sample.day 2 None (Some (Sample.day - 2))
              (Some (Sample.day - 1)) None Sample.start
              (snd (update_maintenance_status Sample.day 2 None
                      (Some (Sample.day - 2)) (Some (Sample.day - 1)) None
                      Sample.start))
              (MaintenanceIssue.set_ResolutionDate (Some (Sample.day - 1))
                 Sample.bulb)
              (Sample.day - 1))
    as [(row & Hfind & _ & Hrange & _) _].
  - vm_compute. reflexivity.
  - reflexivity.
  - exists row. split; assumption.
Defined.

(** ** Fresh primary keys *)

Lemma next_id_above {R} (key : R -> Z) (rows : list R) (r : R) :
  In r rows -> key r < next_id key rows.
Proof.
  unfold next_id. induction rows as [| x rows IH]; [simpl; tauto |].
  cbn [fold_right In].
  set (m := fold_right (fun r acc => Z.max (key r) acc) 0 rows) in *.
  pose proof (Z.le_max_l (key x) m). pose proof (Z.le_max_r (key x) m).
  intros [<- | Hin]; [lia |]. specialize (IH Hin). lia.
Qed.

Lemma find_inserted {R} (key : R -> Z) (rows : list R) (row : R) :
  key row = next_id key rows ->
  find (fun o => key o =? key row) (insert row rows) = Some row.
Proof.
  intro Hk. unfold insert.
  assert (H : forall l, (forall r, In r l -> key r < key row) ->
                        find (fun o => key o =? key row) (l ++ [row])
                        = Some row).
  { induction l as [| x l IH]; simpl; intro Hl.
    - rewrite Z.eqb_refl. reflexivity.
    - destruct (Z.eqb_spec (key x) (key row)) as [E | E].
      + specialize (Hl x (or_introl eq_refl)). lia.
      + apply IH. intros r Hr. apply Hl. auto. }
  apply H. intros r Hr. rewrite Hk. apply next_id_above, Hr.
Qed.

(** ** What a successful booking did *)

Lemma schedule_pt_session_ok today member_id trainer_id session_date
    start_time end_time room_id session_type duration_minutes max_capacity
    notes s v s1 :
  schedule_pt_session today member_id trainer_id session_date start_time
    end_time room_id session_type duration_minutes max_capacity notes s
  = (Ok v, s1) ->
  15 * 60000000 <= time_diff start_time end_time <= 480 * 60000000 /\
  (session_type = "Group Class" ->
   exists c, max_capacity = Some c /\ 0 < c <= 100) /\
  find (trainer_clash trainer_id session_date start_time end_time)
    (Sessions (committed s)) = None /\
  v = PersonalTrainingSession.mk
        (next_id PersonalTrainingSession.SessionID (Sessions (working s)))
        trainer_id member_id room_id session_date start_time end_time
        (Some (match duration_minutes with
               | Some d => d
               | None => whole_minutes start_time end_time
               end))
        (Some session_type) max_capacity (Some 0) (Text.strip_or_none notes) /\
  s1 = clean (with_Sessions (insert v) (working s)).
Proof.
  unfold schedule_pt_session, schedule_checks. intro H.
  ok_inv;
    (apply try_except_ok in H; [| intros e0 s0; reflexivity]);
    ok_inv; cbn [working committed clean with_Sessions Sessions] in *.
  all: rewrite find_inserted by reflexivity.
  all: bool_facts.
  all: split; [lia |].
  all: split;
    [ intro Hty;
      first
        [ match goal with
          | C : (_ =? "Group Class")%string = false |- _ =>
              apply String.eqb_neq in C; contradiction
          end
        | destruct max_capacity as [c |]; [| discriminate];
          exists c; split; [reflexivity | bool_facts; lia] ] |].
  all: split;
    [ match goal with
      | C : option_map _ (find (trainer_clash _ _ _ _) _) = None |- _ =>
          destruct (find (trainer_clash _ _ _ _) _); [discriminate C | reflexivity]
      end |].
  all: split; reflexivity.
Qed.

(** The duration a successful [schedule_pt_session] stores: the whole
    minutes from start to end, between 15 and 480, when the call gives no
    [duration_minutes]; the value of [duration_minutes], unchecked, when it
    gives one. *)
Lemma session_duration
    (today : date) (member_id trainer_id : Z) (session_date : date)
    (start_time end_time : time) (room_id : option Z) (session_type : string)
    (duration_minutes max_capacity : option Z) (notes : option string)
    (s s1 : OrmSession) (v : PersonalTrainingSession.t) :
  schedule_pt_session today member_id trainer_id session_date start_time
    end_time room_id session_type duration_minutes max_capacity notes s
  = (Ok v, s1) ->
  In v (Sessions (committed s1)) /\
  PersonalTrainingSession.StartTime v = start_time /\
  PersonalTrainingSession.EndTime v = end_time /\
  (duration_minutes = None ->
   PersonalTrainingSession.DurationMinutes v
   = Some (whole_minutes (PersonalTrainingSession.StartTime v)
             (PersonalTrainingSession.EndTime v)) /\
   15 <= whole_minutes start_time end_time <= 480) /\
  (forall d, duration_minutes = Some d ->
             PersonalTrainingSession.DurationMinutes v = Some d).
Proof.
  intro H.
  destruct (schedule_pt_session_ok _ _ _ _ _ _ _ _ _ _ _ _ _ _ H)
    as (Hlen & _ & _ & Hv & ->).
  split.
  { cbn [clean committed with_Sessions Sessions]. unfold insert.
    apply in_or_app. right. simpl. auto. }
  rewrite Hv. cbn [PersonalTrainingSession.StartTime
                     PersonalTrainingSession.EndTime
                     PersonalTrainingSession.DurationMinutes].
  split; [reflexivity |]. split; [reflexivity |]. split.
  - intros ->. split; [reflexivity |]. unfold whole_minutes. split.
    + apply Z.div_le_lower_bound; lia.
    + apply Z.div_le_upper_bound; lia.
  - intros d ->. reflexivity.
Qed.

Lemma session_duration_example :
  exists v,
    fst (schedule_pt_session Sample.day 2 2 (Sample.day + 2) (Sample.at_ 9 15)
           (Sample.at_ 10 0) None "Personal Training" None None None
           Sample.start) = Ok v /\
    PersonalTrainingSession.DurationMinutes v = Some 45.
Proof.
  exists (PersonalTrainingSession.mk 2 2 2 None (Sample.day + 2)
            (Sample.at_ 9 15) (Sample.at_ 10 0) (Some 45)
            (Some "Personal Training") None (Some 0) None).
  split; [vm_compute; reflexivity |].
  destruct (session_duration Sample.day 2 2 (Sample.day + 2) (Sample.at_ 9 15)
              (Sample.at_ 10 0) None "Personal Training" None None None
              Sample.start
              (snd (schedule_pt_session Sample.day 2 2 (Sample.day + 2)
                      (Sample.at_ 9 15) (Sample.at_ 10 0) None
                      "Personal Training" None None None Sample.start))
              (PersonalTrainingSession.mk 2 2 2 None (Sample.day + 2)
                 (Sample.at_ 9 15) (Sample.at_ 10 0) (Some 45)
                 (Some "Personal Training") None (Some 0) None))
    as (_ & _ & _ & Hd & _).
  - vm_compute. reflexivity.
  - destruct (Hd eq_refl) as [Hdur _]. exact Hdur.
Defined.

(** C8. The duration of a session is not always derived from its bounds:
    called with [duration_minutes], [schedule_pt_session] succeeds and
    stores the value it is given.  On the sample club a session from 10:00
    to 11:00 booked with [duration_minutes = 999] is committed with
    DurationMinutes 999, although its bounds are 60 minutes apart and the
    operation refuses an interval of more than 480 minutes. *)
Theorem supplied_duration_is_stored :
  exists v s1,
    schedule_pt_session Sample.day 2 2 (Sample.day + 2) (Sample.at_ 10 0)
      (Sample.at_ 11 0) None "Personal Training" (Some 999) None None
      Sample.start = (Ok v, s1) /\
    In v (Sessions (committed s1)) /\
    PersonalTrainingSession.DurationMinutes v = Some 999 /\
    whole_minutes (PersonalTrainingSession.StartTime v)
      (PersonalTrainingSession.EndTime v) = 60 /\
    fst (schedule_pt_session Sample.day 2 2 (Sample.day + 2) (Sample.at_ 10 0)
           (Sample.at_ 19 0) None "Personal Training" None None None
           Sample.start)
    = Raise (ValueError TooLongDuration).
Proof.
  destruct (schedule_pt_session Sample.day 2 2 (Sample.day + 2)
              (Sample.at_ 10 0) (Sample.at_ 11 0) None "Personal Training"
              (Some 999) None None Sample.start) as [[v | e] s1] eqn:E;
    [| vm_compute in E; discriminate E].
  exists v, s1. split; [reflexivity |].
  destruct (session_duration _ _ _ _ _ _ _ _ _ _ _ _ _ _ E)
    as (Hin & Hstart & Hend & _ & Hd).
  split; [exact Hin |]. split; [exact (Hd 999 eq_refl) |].
  split; [rewrite Hstart, Hend; reflexivity | vm_compute; reflexivity].
Qed.

(** ** Group classes *)

Lemma schedule_checks_group_class today member_id trainer_id session_date
    start_time end_time room_id max_capacity s u s1 :
  schedule_checks today member_id trainer_id session_date start_time end_time
    room_id "Group Class" max_capacity s = (Ok u, s1) ->
  exists c, max_capacity = Some c /\ 0 < c <= 100.
Proof.
  unfold schedule_checks. intro H.
  do 9 (apply bind_ok in H; destruct H as (? & ? & ? & H); cbv beta in H).
  apply bind_ok in H. destruct H as (? & ? & E & _).
  cbn [String.eqb Ascii.eqb Bool.eqb] in E. cbv iota in E.
  ok_inv; (destruct max_capacity as [c |]; [| congruence]);
    exists c; (split; [reflexivity | bool_facts; lia]).
Qed.

(** C10. A successful [schedule_pt_session] for a group class was given a
    [max_capacity] between 1 and 100, which the session carries; a call
    for a group class without one, or with one that is not positive or is
    above 100, raises [ValueError] and leaves the session state as it was,
    whatever room is named and whatever the store holds. *)
Theorem group_class_capacity
    (today : date) (member_id trainer_id : Z) (session_date : date)
    (start_time end_time : time) (room_id : option Z)
    (duration_minutes max_capacity : option Z) (notes : option string)
    (s : OrmSession) :
  let call := schedule_pt_session today member_id trainer_id session_date
                start_time end_time room_id "Group Class" duration_minutes
                max_capacity notes in
  (forall v s1, call s = (Ok v, s1) ->
     exists c, max_capacity = Some c /\ 0 < c <= 100 /\
               PersonalTrainingSession.MaxCapacity v = Some c)
  /\
  ((forall c, max_capacity = Some c -> c <= 0 \/ 100 < c) ->
   exists r, call s = (Raise (ValueError r), s)).
Proof.
  intro call. split.
  - intros v s1 H.
    destruct (schedule_pt_session_ok _ _ _ _ _ _ _ _ _ _ _ _ _ _ H)
      as (_ & Hcap & _ & Hv & _).
    destruct (Hcap eq_refl) as (c & Hc & Hrange).
    exists c. repeat split; try apply Hrange; try assumption.
    rewrite Hv. exact Hc.
  - intro Hbad. unfold call, schedule_pt_session. rewrite bind_unfold.
    pose proof (schedule_checks_preserves today member_id trainer_id
                  session_date start_time end_time room_id "Group Class"
                  max_capacity s) as Hsame.
    pose proof (schedule_checks_value_errors today member_id trainer_id
                  session_date start_time end_time room_id "Group Class"
                  max_capacity s) as Herr.
    destruct (schedule_checks _ _ _ _ _ _ _ _ _ s) as [[u | e] s1] eqn:E;
      simpl in Hsame, Herr; subst s1.
    + exfalso.
      destruct (schedule_checks_group_class _ _ _ _ _ _ _ _ _ _ _ E)
        as (c & Hc & Hrange).
      destruct (Hbad c Hc); lia.
    + destruct (Herr e eq_refl) as [r ->]. exists r. reflexivity.
Qed.

Lemma group_class_capacity_witness :
  exists r,
    schedule_pt_session Sample.day 2 2 (Sample.day + 2) (Sample.at_ 18 0)
      (Sample.at_ 19 0) (Some 2) "Group Class" None (Some 101) None
      Sample.start
    = (Raise (ValueError r), Sample.start).
Proof.
  apply (group_class_capacity Sample.day 2 2 (Sample.day + 2)
           (Sample.at_ 18 0) (Sample.at_ 19 0) (Some 2) None (Some 101) None
           Sample.start).
  intros c [= <-]. right. lia.
Defined.

(** ** Running a computation from its first step *)

Lemma bind_raise_if {A} (b : bool) (r : reason) (k : unit -> M A) s :
  bind (raise_if b r) k s = if b then (Raise (ValueError r), s) else k tt s.
Proof. destruct b; reflexivity. Qed.

Lemma bind_query_first {R A} (tbl : Tables -> list R) (key : R -> Z)
    (p : R -> bool) (k : option R -> M A) s :
  bind (query_first tbl key p) k s
  = k (option_map (loaded tbl key s) (find p (tbl (committed s)))) s.
Proof. reflexivity. Qed.

Lemma never_query_bind {R A} (bad : reason -> bool) (tbl : Tables -> list R)
    (key : R -> Z) (p : R -> bool) (k : option R -> M A) :
  never bad (k None) ->
  (forall row, (exists hit, p hit = true /\ key row = key hit) ->
               never bad (k (Some row))) ->
  never bad (bind (query_first tbl key p) k).
Proof.
  intros Hnone Hsome s r. rewrite bind_query_first.
  destruct (find p (tbl (committed s))) as [hit |] eqn:E; cbn [option_map].
  - apply Hsome. exists hit. split.
    + apply find_some in E. apply E.
    + apply loaded_key.
  - apply Hnone.
Qed.

(** ** Assigning a room *)

Lemma assign_room_never_self today session_id room_id :
  never (is_self_booking session_id)
    (assign_room_booking today session_id room_id).
Proof.
  unfold assign_room_booking.
  do 2 (apply never_bind; [auto with orm | intros _]).
  apply never_bind; [auto with orm | intros [session |]; [| auto with orm]].
  apply never_bind; [auto with orm | intros _].
  apply never_bind; [auto with orm | intros [room |]; [| auto with orm]].
  apply never_bind; [auto with orm | intros _].
  apply never_bind; [auto 10 with orm | intros _].
  apply never_query_bind.
  - apply never_bind; [apply never_ret | intro; auto 10 with orm].
  - intros row (hit & Hp & Hkey).
    apply never_bind; [| intro; auto 10 with orm].
    simpl. apply never_raise. simpl. rewrite Hkey.
    apply andb_prop in Hp. destruct Hp as [_ Hp].
    apply negb_true_iff in Hp. exact Hp.
Qed.

(** C9. When the room is already the session's room, [assign_room_booking]
    raises [ValueError] and changes nothing; once the ids are positive, the
    session is not in the past and the room exists, the error says the
    room is already assigned.  The scan of the room's bookings skips every
    row that carries the session's own id, and no room conflict ever names
    the session itself. *)
Theorem assign_room_guard (today : date) (session_id room_id : Z)
    (s : OrmSession) :
  let call := assign_room_booking today session_id room_id in
  (forall row,
     find (session_by_id session_id) (Sessions (committed s)) = Some row ->
     let session := loaded Sessions PersonalTrainingSession.SessionID s row in
     PersonalTrainingSession.RoomID session = Some room_id ->
     (exists r, call s = (Raise (ValueError r), s)) /\
     (0 < session_id -> 0 < room_id ->
      today <= PersonalTrainingSession.SessionDate session ->
      (exists room, find (fun r => Room.RoomID r =? room_id)
                      (Rooms (committed s)) = Some room) ->
      call s = (Raise (ValueError (RoomAlreadyAssigned room_id)), s)))
  /\
  (forall session p,
     PersonalTrainingSession.SessionID p = session_id ->
     other_booking session_id room_id session p = false)
  /\
  (forall at_ on,
     fst (call s) <> Raise (ValueError (RoomBooked session_id at_ on))).
Proof.
  intro call. split; [| split].
  - intros row Hfind session Hroom.
    assert (Hsame : room_is room_id session = true).
    { unfold room_is. rewrite Hroom. apply Z.eqb_refl. }
    unfold call, assign_room_booking.
    rewrite bind_raise_if.
    destruct (Z.leb_spec session_id 0);
      [split; [eauto | intros; lia] |].
    rewrite bind_raise_if.
    destruct (Z.leb_spec room_id 0);
      [split; [eauto | intros; lia] |].
    rewrite bind_query_first, Hfind. cbn [option_map]. fold session.
    rewrite bind_raise_if.
    destruct (Z.ltb_spec (PersonalTrainingSession.SessionDate session) today);
      [split; [eauto | intros; lia] |].
    rewrite bind_query_first.
    destruct (find _ (Rooms (committed s))) as [room |]; cbn [option_map].
    + rewrite bind_raise_if, Hsame. split; [eauto | reflexivity].
    + split; [eexists; reflexivity |].
      intros _ _ _ [room Hroom']. discriminate.
  - intros session p Hp. unfold other_booking.
    rewrite Hp, Z.eqb_refl. apply andb_false_r.
  - intros at_ on H.
    apply (assign_room_never_self today session_id room_id) in H.
    simpl in H. rewrite Z.eqb_refl in H. discriminate.
Qed.

Lemma assign_room_guard_witness :
  assign_room_booking Sample.day 1 1 Sample.start
  = (Raise (ValueError (RoomAlreadyAssigned 1)), Sample.start).
Proof.
  destruct (assign_room_guard Sample.day 1 1 Sample.start) as [H _].
  destruct (H Sample.morning) as [_ Hsame].
  - reflexivity.
  - reflexivity.
  - apply Hsame.
    + reflexivity.
    + reflexivity.
    + vm_compute. discriminate.
    + exists (Room.mk 1 "R101" (Some 10) (Some "Studio")). reflexivity.
Defined.

(** ** Recording a payment *)

Lemma find_assign {R} (key : R -> Z) (k k' : Z) (f : R -> R) (rows : list R) :
  (forall o, key (f o) = key o) ->
  find (fun o => key o =? k') (assign key k f rows)
  = option_map (fun o => if key o =? k then f o else o)
      (find (fun o => key o =? k') rows).
Proof.
  intro Hkey. unfold assign.
  induction rows as [| x rows IH]; simpl; [reflexivity |].
  assert (E : key (if key x =? k then f x else x) = key x)
    by (destruct (key x =? k); [apply Hkey | reflexivity]).
  rewrite E. destruct (key x =? k'); [reflexivity | exact IH].
Qed.

Lemma find_by_own_key {R} (key : R -> Z) (k : Z) (rows : list R) (row : R) :
  find (fun o => key o =? k) rows = Some row ->
  find (fun o => key o =? key row) rows = Some row.
Proof.
  intro H. pose proof (find_some _ _ H) as [_ Hk].
  apply Z.eqb_eq in Hk. rewrite Hk. exact H.
Qed.

Lemma loaded_of_synced {R} (tbl : Tables -> list R) (key : R -> Z) (k : Z)
    s (row : R) :
  tbl (working s) = tbl (committed s) ->
  find (fun o => key o =? k) (tbl (committed s)) = Some row ->
  loaded tbl key s row = row.
Proof.
  intros Hs H. unfold loaded. rewrite Hs.
  rewrite (find_by_own_key _ _ _ _ H). reflexivity.
Qed.

(** What a successful [record_payment] checked and wrote. *)
Lemma record_payment_ok today invoice_id payment_method paid_date s v s1 :
  record_payment today invoice_id payment_method paid_date s = (Ok v, s1) ->
  exists row,
    find (invoice_by_id invoice_id) (Invoices (committed s)) = Some row /\
    let invoice := loaded Invoices Invoice.InvoiceID s row in
    status_is (Invoice.PaymentStatus invoice) "Paid" = false /\
    (forall d, paid_date = Some d -> Invoice.InvoiceDate invoice <= d <= today) /\
    s1 = clean (with_Invoices
                  (assign Invoice.InvoiceID invoice_id
                     (Invoice.set_payment (Some "Paid")
                        (Some (Text.strip payment_method))
                        (Some (match paid_date with
                               | Some d => d
                               | None => today
                               end))))
                  (working s)).
Proof.
  unfold record_payment. intro H. ok_inv.
  all: match goal with
       | C : option_map _ (find _ _) = Some _ |- _ =>
           apply option_map_some in C; destruct C as (row & Hfind & <-)
       end.
  all: exists row; split; [exact Hfind |].
  all: assert (Hk : Invoice.InvoiceID (loaded Invoices Invoice.InvoiceID s row)
                    = invoice_id)
         by (rewrite loaded_key; apply find_some in Hfind;
             apply Z.eqb_eq, Hfind).
  all: rewrite Hk in H.
  all: (apply try_except_ok in H; [| intros e0 s0; reflexivity]);
    ok_inv; cbn [working committed] in *.
  all: bool_facts.
  all: split; [assumption |].
  all: split; [intros d ->; cbv iota in *; bool_facts; lia |].
  all: reflexivity.
Qed.

Lemma paid_after_assign (k : Z) (m : option string) (p : option date)
    (rows : list Invoice.t) (i : Invoice.t) :
  In i (assign Invoice.InvoiceID k (Invoice.set_payment (Some "Paid") m p) rows) ->
  Invoice.InvoiceID i = k ->
  Invoice.PaymentStatus i = Some "Paid".
Proof.
  revert i. apply assign_all; [intros []; reflexivity | intros; reflexivity].
Qed.

Lemma unique_ok_set_payment (t : Tables) (k : Z) (st m : option string)
    (p : option date) :
  unique_ok (with_Invoices
               (assign Invoice.InvoiceID k (Invoice.set_payment st m p)) t)
  = unique_ok t.
Proof.
  unfold unique_ok, with_Invoices, assign. cbn [Members Invoices].
  rewrite map_map. f_equal. f_equal. apply map_ext.
  intros a. destruct (Invoice.InvoiceID a =? k); reflexivity.
Qed.

Lemma widths_ok_set_payment (t : Tables) (k : Z) (st m : option string)
    (p : option date) :
  widths_ok t = true -> fits_opt 20 st = true -> fits_opt 30 m = true ->
  widths_ok (with_Invoices
               (assign Invoice.InvoiceID k (Invoice.set_payment st m p)) t)
  = true.
Proof.
  unfold widths_ok, with_Invoices.
  cbn [Members Sessions FitnessGoals Invoices MaintenanceIssues HealthMetrics].
  intros H Hst Hm. rewrite !andb_true_iff in *.
  destruct H as (((((H1 & H2) & H3) & H4) & H5) & H6).
  repeat split; try assumption.
  unfold assign. rewrite forallb_forall in *. intros x Hx.
  apply in_map_iff in Hx. destruct Hx as (o & <- & Ho).
  specialize (H4 o Ho). destruct (Invoice.InvoiceID o =? k); [| exact H4].
  unfold invoice_fits in *. destruct o.
  cbn [Invoice.set_payment Invoice.InvoiceNumber Invoice.PaymentMethod
       Invoice.PaymentStatus Invoice.ServiceDescription Invoice.Amount] in *.
  rewrite !andb_true_iff in *. tauto.
Qed.

(** ** Tables an operation does not write *)

Section TableKept.
Context {R : Type} (tbl : Tables -> list R).

Lemma table_kept_refl s : table_kept tbl s s.
Proof. intro H. auto. Qed.

Lemma table_kept_trans a b c :
  table_kept tbl a b -> table_kept tbl b c -> table_kept tbl a c.
Proof.
  unfold table_kept. intros Hab Hbc Ha.
  destruct (Hab Ha) as [H1 H2].
  destruct Hbc as [H3 H4]; [congruence |]. split; congruence.
Qed.

Lemma table_kept_modify (f : Tables -> Tables) :
  (forall t, tbl (f t) = tbl t) -> keeps (table_kept tbl) (modify f).
Proof. intros Hf s Hs. simpl. rewrite Hf. auto. Qed.

Lemma table_kept_db_add {R'} (tbl' : Tables -> list R')
    (with_tbl : (list R' -> list R') -> Tables -> Tables) (key : R' -> Z)
    (new : Z -> R') :
  (forall g t, tbl (with_tbl g t) = tbl t) ->
  keeps (table_kept tbl) (db_add tbl' with_tbl key new).
Proof. intros Hf s Hs. simpl. rewrite Hf. auto. Qed.

Lemma table_kept_commit : keeps (table_kept tbl) db_commit.
Proof.
  intros s Hs. unfold db_commit.
  destruct (widths_ok (working s)); simpl; [| auto].
  destruct (unique_ok (working s)); simpl; auto.
Qed.

Lemma table_kept_rollback : keeps (table_kept tbl) db_rollback.
Proof. intros s Hs. simpl. auto. Qed.

Lemma table_kept_preserves {A} (m : M A) :
  preserves m -> keeps (table_kept tbl) m.
Proof. apply keeps_of_preserves, table_kept_refl. Qed.

Lemma table_kept_bind {A B} (m : M A) (k : A -> M B) :
  keeps (table_kept tbl) m -> (forall a, keeps (table_kept tbl) (k a)) ->
  keeps (table_kept tbl) (bind m k).
Proof. apply keeps_bind, table_kept_trans. Qed.

Lemma table_kept_when_given {A} (o : option A) (k : A -> M unit) :
  (forall a, keeps (table_kept tbl) (k a)) ->
  keeps (table_kept tbl) (when_given o k).
Proof. apply keeps_when_given, table_kept_refl. Qed.

Lemma table_kept_try_except {A} (body : M A) (handler : exn -> M A) :
  keeps (table_kept tbl) body ->
  (forall e, keeps (table_kept tbl) (handler e)) ->
  keeps (table_kept tbl) (try_except body handler).
Proof. apply keeps_try_except, table_kept_trans. Qed.

Lemma table_kept_outcome {A} (m : M A) :
  keeps (table_kept tbl) m -> keeps (table_kept tbl) (outcome m).
Proof. apply keeps_outcome. Qed.

End TableKept.

Create HintDb tables discriminated.

#[export] Hint Resolve table_kept_bind table_kept_when_given
  table_kept_try_except table_kept_commit table_kept_rollback
  table_kept_outcome : tables.
#[export] Hint Extern 1 (keeps (table_kept _) (modify _)) =>
  apply table_kept_modify; intro; reflexivity : tables.
#[export] Hint Extern 1 (keeps (table_kept _) (db_add _ _ _ _)) =>
  apply table_kept_db_add; intros; reflexivity : tables.
#[export] Hint Extern 3 (keeps (table_kept _) _) =>
  apply table_kept_preserves; solve [auto 10 with orm] : tables.
#[export] Hint Extern 2 =>
  match goal with
  | |- _ (if ?b then _ else _) => destruct b
  | |- _ (match ?x with _ => _ end) => destruct x
  end : tables.
#[export] Hint Extern 0 => progress cbv beta zeta : tables.

Ltac unfold_operations :=
  unfold register_member, update_profile, add_fitness_goal, log_health_metric,
    schedule_pt_session, assign_room_booking, log_maintenance_issue,
    update_maintenance_status, create_invoice, record_payment.

Ltac read_only_operations :=
  apply table_kept_preserves;
  first [ apply set_availability_preserves
        | apply view_schedule_preserves
        | apply lookup_member_preserves ].

(** ** Health metrics are only ever appended *)

(** Every operation other than [log_health_metric] leaves the table. *)
Lemma perform_keeps_metrics (today : date) (op : Op) :
  is_log_health_metric op = false ->
  keeps (table_kept HealthMetrics) (perform today op).
Proof.
  destruct op; simpl; intro Hop; try discriminate; apply table_kept_outcome;
    try read_only_operations; unfold_operations; auto 60 with tables.
Qed.

Lemma forallb_inserted {R} (f : R -> bool) (row : R) (rows : list R) :
  forallb f (insert row rows) = true -> f row = true.
Proof.
  unfold insert. rewrite forallb_app. intro H. apply andb_prop in H.
  destruct H as [_ H]. cbn [forallb] in H. apply andb_prop in H. apply H.
Qed.

(** What a successful [log_health_metric] returned and wrote: the row as
    the columns hold it, which the database accepted. *)
Lemma log_health_metric_ok today member_id recorded_date height weight
    body_fat_percentage resting_heart_rate notes s v s1 :
  log_health_metric today member_id recorded_date height weight
    body_fat_percentage resting_heart_rate notes s = (Ok v, s1) ->
  v = HealthMetric.mk
        (next_id HealthMetric.HealthMetricID (HealthMetrics (working s)))
        member_id recorded_date (option_map numeric2 height)
        (option_map numeric2 weight) (option_map numeric2 body_fat_percentage)
        resting_heart_rate (Text.strip_or_none notes) /\
  s1 = clean (with_HealthMetrics (insert v) (working s)) /\
  metric_fits v = true.
Proof.
  unfold log_health_metric. intro H.
  ok_inv;
    (apply try_except_ok in H; [| intros e0 s0; reflexivity]);
    ok_inv;
    cbn [working committed clean with_HealthMetrics HealthMetrics] in *;
    rewrite find_inserted by reflexivity;
    (split; [reflexivity |]; split; [reflexivity |]);
    unfold widths_ok in *; bool_facts;
    match goal with
    | F : forallb metric_fits _ = true |- _ =>
        cbn [with_HealthMetrics HealthMetrics] in F;
        apply forallb_inserted in F; exact F
    end.
Qed.

Lemma perform_log_health_metric today id d h w bf hr n s :
  perform today (LogHealthMetric id d h w bf hr n) s
  = outcome (log_health_metric today id d h w bf hr n) s.
Proof. reflexivity. Qed.

(** One call of the loop: the table grows by the row a successful
    [log_health_metric] returns, and by nothing else. *)
Lemma perform_metrics (today : date) (op : Op) (s : OrmSession) :
  HealthMetrics (working s) = HealthMetrics (committed s) ->
  let s' := snd (perform today op s) in
  HealthMetrics (committed s')
  = (HealthMetrics (committed s) ++ logged_rows [(today, op)] s)%list /\
  HealthMetrics (working s') = HealthMetrics (committed s').
Proof.
  intros Hs s'. cbn [logged_rows]. rewrite app_nil_r.
  destruct (is_log_health_metric op) eqn:Hop.
  - destruct op; try discriminate. subst s'.
    rewrite perform_log_health_metric. unfold outcome.
    pose proof (perform_atomic today
                  (LogHealthMetric member_id recorded_date height weight
                     body_fat_percentage resting_heart_rate notes) eq_refl s)
      as Hat.
    rewrite perform_log_health_metric in Hat. unfold outcome in Hat.
    destruct (log_health_metric _ _ _ _ _ _ _ _ s) as [[v | e] s1] eqn:E;
      cbn [fst snd] in *.
    + destruct (log_health_metric_ok _ _ _ _ _ _ _ _ _ _ _ E) as (_ & -> & _).
      cbn [clean committed working with_HealthMetrics HealthMetrics].
      unfold insert. rewrite Hs. auto.
    + rewrite app_nil_r.
      destruct (Hat eq_refl) as [-> | ->]; cbn [clean committed working]; auto.
  - replace (match op with
             | LogHealthMetric id d h w bf hr n =>
                 match fst (log_health_metric today id d h w bf hr n s) with
                 | Ok v => [v]
                 | Raise _ => []
                 end
             | _ => []
             end) with (@nil HealthMetric.t)
      by (destruct op; try reflexivity; discriminate).
    rewrite app_nil_r.
    destruct (perform_keeps_metrics today op Hop s Hs) as [Hc Hw].
    subst s'. split; congruence.
Qed.

Lemma logged_count (member_id : Z) (calls : list (date * Op)) (s : OrmSession) :
  length (metrics_of member_id (logged_rows calls s))
  = logged member_id calls s.
Proof.
  revert s. induction calls as [| [today op] calls IH]; intro s;
    [reflexivity |].
  cbn [logged_rows logged]. unfold metrics_of in *.
  rewrite filter_app, length_app, IH.
  destruct (perform today op s) as [r s'] eqn:E. cbn [snd]. f_equal.
  destruct op; try reflexivity.
  rewrite perform_log_health_metric in E. unfold outcome in E.
  destruct (log_health_metric _ _ _ _ _ _ _ _ s) as [[v | e] s1] eqn:El;
    inversion E; subst; cbn [fst is_ok].
  - destruct (log_health_metric_ok _ _ _ _ _ _ _ _ _ _ _ El) as [-> _].
    cbn [filter HealthMetric.MemberID].
    destruct (member_id0 =? member_id); reflexivity.
  - rewrite andb_false_r. reflexivity.
Qed.

Lemma log_health_metric_values today id d h w bf hr n s v :
  fst (log_health_metric today id d h w bf hr n s) = Ok v ->
  v = HealthMetric.mk
        (next_id HealthMetric.HealthMetricID (HealthMetrics (working s)))
        id d (option_map numeric2 h) (option_map numeric2 w)
        (option_map numeric2 bf) hr (Text.strip_or_none n) /\
  metric_fits v = true.
Proof.
  destruct (log_health_metric today id d h w bf hr n s) as [[v' | e] s1] eqn:E;
    [| discriminate].
  cbn [fst]. intros [= <-].
  destruct (log_health_metric_ok _ _ _ _ _ _ _ _ _ _ _ E) as (Hv & _ & Hfits).
  split; assumption.
Qed.

(** C6. Along any run of the operations, the HealthMetric rows the
    database holds are the rows it held at the start, unchanged, and the
    rows the successful [log_health_metric] calls returned, one for each
    call; no pending change to the table is left behind; the rows of a
    member grow by the number of his successful calls; and each returned
    row carries the member, the date and the heart rate of its call and,
    for height, weight and body fat, the value of the call as the
    [Numeric(5, 2)] column holds it: rounded to two decimals, of size
    below 1000 or NaN (a call whose value does not fit fails and adds no
    row). *)
Theorem health_metrics_append_only (calls : list (date * Op)) (s : OrmSession) :
  HealthMetrics (working s) = HealthMetrics (committed s) ->
  HealthMetrics (committed (run calls s))
  = (HealthMetrics (committed s) ++ logged_rows calls s)%list /\
  HealthMetrics (working (run calls s))
  = HealthMetrics (committed (run calls s)) /\
  (forall member_id,
     length (metrics_of member_id (HealthMetrics (committed (run calls s))))
     = (length (metrics_of member_id (HealthMetrics (committed s)))
        + logged member_id calls s)%nat) /\
  (forall today id d h w bf hr n s0 v,
     fst (log_health_metric today id d h w bf hr n s0) = Ok v ->
     HealthMetric.MemberID v = id /\ HealthMetric.RecordedDate v = d /\
     HealthMetric.Height v = option_map numeric2 h /\
     HealthMetric.Weight v = option_map numeric2 w /\
     HealthMetric.BodyFatPercentage v = option_map numeric2 bf /\
     HealthMetric.RestingHeartRate v = hr /\
     metric_fits v = true).
Proof.
  intro Hs.
  assert (Hrun : HealthMetrics (committed (run calls s))
                 = (HealthMetrics (committed s) ++ logged_rows calls s)%list /\
                 HealthMetrics (working (run calls s))
                 = HealthMetrics (committed (run calls s))).
  { revert s Hs. induction calls as [| [today op] calls IH]; intros s Hs.
    - simpl. rewrite app_nil_r. auto.
    - destruct (perform_metrics today op s Hs) as [Hc Hw].
      cbn [logged_rows] in Hc. rewrite app_nil_r in Hc.
      cbn [run].
      destruct (IH (snd (perform today op s)) Hw) as [Hc' Hw'].
      split; [| exact Hw'].
      rewrite Hc', Hc. cbn [logged_rows]. rewrite app_assoc. reflexivity. }
  destruct Hrun as [Hc Hw].
  split; [exact Hc |]. split; [exact Hw |]. split.
  - intro member_id. rewrite Hc. unfold metrics_of.
    rewrite filter_app, length_app. f_equal. apply logged_count.
  - intros today id d h w bf hr n s0 v H.
    apply log_health_metric_values in H. destruct H as [Hv Hfits].
    rewrite Hv in *. repeat split; try reflexivity. exact Hfits.
Qed.

Lemma health_metrics_append_only_witness :
  let calls :=
    [ (Sample.day,
       LogHealthMetric 1 Sample.day (Some (Finite 170)) (Some (Finite 65))
         None (Some 62) None);
      (Sample.day,
       UpdateProfile 1 (Some "Alicia") (Some "   ") None None None None);
      (Sample.day,
       LogHealthMetric 2 (Sample.day - 1) None (Some (Finite 80)) None None
         (Some "after holidays"));
      (Sample.day,
       LogHealthMetric 1 Sample.day None (Some (Finite 1000)) None None None);
      (Sample.day,
       LogHealthMetric 1 (Sample.day + 1) None (Some (Finite 64)) None None
         None);
      (Sample.day + 7,
       LogHealthMetric 1 (Sample.day + 7) None
         (Some (Finite (70456 # 1000))) (Some NaN) None None);
      (Sample.day + 7, RecordPayment 1 "Cash" None) ] in
  length (metrics_of 1 (HealthMetrics (committed (run calls Sample.start))))
  = 2%nat /\
  map HealthMetric.Weight (HealthMetrics (committed (run calls Sample.start)))
  = [Some (Finite 65); Some (Finite 80); Some (Finite (3523 # 50))].
Proof.
  intro calls.
  destruct (health_metrics_append_only calls Sample.start eq_refl)
    as (Hrows & _ & Hcount & _).
  split; [rewrite Hcount | rewrite Hrows]; vm_compute; reflexivity.
Defined.

(** ** The partial write of [update_profile] *)

(** C4 fails for [update_profile]: a first name that passes its checks is
    assigned before the last name is checked, the error leaves the
    assignment on the loaded object, and the next commit of the session
    writes it to the database. *)
Theorem update_profile_partial_write :
  let failed := update_profile Sample.day 1 (Some "Alicia") (Some "   ") None
                  None None None Sample.start in
  let first_names t := map Member.FirstName (Members t) in
  fst failed = Raise (ValueError (CannotBeEmpty "Last name")) /\
  committed (snd failed) = committed Sample.start /\
  first_names (committed Sample.start) = ["Alice"; "Bob"] /\
  first_names (working (snd failed)) = ["Alicia"; "Bob"] /\
  first_names
    (committed
       (run [ (Sample.day,
               UpdateProfile 1 (Some "Alicia") (Some "   ") None None None None);
              (Sample.day,
               LogHealthMetric 2 Sample.day None (Some (Finite 80)) None None
                 None) ]
          Sample.start))
  = ["Alicia"; "Bob"].
Proof. vm_compute. repeat split. Qed.

Lemma update_profile_not_atomic :
  ~ atomic (update_profile Sample.day 1 (Some "Alicia") (Some "   ") None None
              None None).
Proof.
  intro H. specialize (H Sample.start eq_refl).
  destruct H as [H | H]; vm_compute in H; discriminate H.
Qed.

(** ** A paid invoice stays paid *)

Lemma perform_keeps_invoices (today : date) (op : Op) :
  writes_invoices op = false ->
  keeps (table_kept Invoices) (perform today op).
Proof.
  destruct op; simpl; intro Hop; try discriminate; apply table_kept_outcome;
    try read_only_operations; unfold_operations; auto 60 with tables.
Qed.

(** What a successful [create_invoice] wrote. *)
Lemma create_invoice_ok today payer_id invoice_number invoice_date due_date
    amount service_description session_id payment_method s v s1 :
  create_invoice today payer_id invoice_number invoice_date due_date amount
    service_description session_id payment_method s = (Ok v, s1) ->
  exists row,
    Invoice.InvoiceID row = next_id Invoice.InvoiceID (Invoices (working s)) /\
    s1 = clean (with_Invoices (insert row) (working s)).
Proof.
  unfold create_invoice. intro H.
  ok_inv;
    (apply try_except_ok in H; [| intros e0 s0; destruct e0; reflexivity]);
    ok_inv; cbn [working] in *; eexists; (split; [| reflexivity]);
    reflexivity.
Qed.

Lemma paid_in_insert (id : Z) (t : Tables) (row : Invoice.t) :
  Invoice.InvoiceID row = next_id Invoice.InvoiceID (Invoices t) ->
  paid_in id t -> paid_in id (with_Invoices (insert row) t).
Proof.
  intros Hrow [[i0 [Hin0 Hid0]] Hall]. unfold paid_in, with_Invoices, insert.
  cbn [Invoices]. split.
  - exists i0. split; [apply in_or_app; auto | exact Hid0].
  - intros i Hin Hid. apply in_app_or in Hin. destruct Hin as [Hin | [<- | []]].
    + apply Hall; assumption.
    + pose proof (next_id_above Invoice.InvoiceID _ _ Hin0). lia.
Qed.

Lemma paid_in_set_paid (id k : Z) (t : Tables) (m : option string)
    (p : option date) :
  paid_in id t ->
  paid_in id (with_Invoices
                (assign Invoice.InvoiceID k
                   (Invoice.set_payment (Some "Paid") m p)) t).
Proof.
  intros [[i0 [Hin0 Hid0]] Hall]. unfold paid_in, with_Invoices.
  cbn [Invoices]. split.
  - exists (if Invoice.InvoiceID i0 =? k
            then Invoice.set_payment (Some "Paid") m p i0 else i0).
    split.
    + unfold assign. apply in_map_iff. exists i0. auto.
    + destruct (Invoice.InvoiceID i0 =? k); [destruct i0 |]; exact Hid0.
  - intros i Hin Hid.
    destruct (assign_in _ _ _ _ _ Hin) as (o & Ho & ->).
    destruct (Invoice.InvoiceID o =? k); [reflexivity |].
    apply Hall; assumption.
Qed.

Lemma paid_in_after_payment (id : Z) (t : Tables) (m : option string)
    (p : option date) :
  (exists i, In i (Invoices t) /\ Invoice.InvoiceID i = id) ->
  paid_in id (with_Invoices
                (assign Invoice.InvoiceID id
                   (Invoice.set_payment (Some "Paid") m p)) t).
Proof.
  intros [i0 [Hin0 Hid0]]. unfold paid_in, with_Invoices. cbn [Invoices].
  split.
  - exists (Invoice.set_payment (Some "Paid") m p i0). split.
    + unfold assign. apply in_map_iff. exists i0.
      rewrite Hid0, Z.eqb_refl. auto.
    + destruct i0. exact Hid0.
  - intro i. apply paid_after_assign.
Qed.

Lemma paid_in_same_invoices (id : Z) (t t' : Tables) :
  Invoices t' = Invoices t -> paid_in id t -> paid_in id t'.
Proof. unfold paid_in. intros ->. auto. Qed.

(** One call of the loop keeps the invoice paid and the table without
    pending changes. *)
Lemma perform_paid (today : date) (op : Op) (id : Z) (s : OrmSession) :
  Invoices (working s) = Invoices (committed s) ->
  paid_in id (committed s) ->
  let s' := snd (perform today op s) in
  Invoices (working s') = Invoices (committed s') /\ paid_in id (committed s').
Proof.
  intros Hs Hpaid s'.
  assert (Hw : paid_in id (working s))
    by (apply (paid_in_same_invoices id (committed s)); assumption).
  destruct (writes_invoices op) eqn:Hop.
  - assert (Hfail : is_ok (fst (perform today op s)) = false ->
                    Invoices (working s') = Invoices (committed s') /\
                    paid_in id (committed s')).
    { intro Hf.
      destruct (perform_atomic today op) with (s := s) as [H | H];
        [destruct op; try discriminate; reflexivity | exact Hf | |];
        subst s'; rewrite H; cbn [clean committed working]; auto. }
    destruct op; try discriminate; subst s'; simpl in *; unfold outcome in *.
    + destruct (create_invoice _ _ _ _ _ _ _ _ _ s) as [[v | e] s1] eqn:E;
        cbn [fst snd is_ok] in *; [| auto].
      destruct (create_invoice_ok _ _ _ _ _ _ _ _ _ _ _ _ E) as (row & Hrow & ->).
      cbn [clean committed working]. split; [reflexivity |].
      apply paid_in_insert; assumption.
    + destruct (record_payment _ _ _ _ s) as [[v | e] s1] eqn:E;
        cbn [fst snd is_ok] in *; [| auto].
      destruct (record_payment_ok _ _ _ _ _ _ _ E) as (row & _ & _ & _ & ->).
      cbn [clean committed working]. split; [reflexivity |].
      apply paid_in_set_paid. exact Hw.
  - destruct (perform_keeps_invoices today op Hop s Hs) as [Hc Hwk].
    subst s'. split; [congruence |].
    apply (paid_in_same_invoices id (committed s)); assumption.
Qed.

Lemma run_paid (calls : list (date * Op)) (id : Z) (s : OrmSession) :
  Invoices (working s) = Invoices (committed s) ->
  paid_in id (committed s) ->
  Invoices (working (run calls s)) = Invoices (committed (run calls s)) /\
  paid_in id (committed (run calls s)).
Proof.
  revert s. induction calls as [| [today op] calls IH]; intros s Hs Hpaid;
    [simpl; auto |].
  cbn [run]. destruct (perform_paid today op id s Hs Hpaid) as [Hs' Hpaid'].
  apply IH; assumption.
Qed.

(** A call of [record_payment] for an invoice that is paid. *)
Lemma record_payment_on_paid today invoice_id payment_method paid_date s :
  Invoices (working s) = Invoices (committed s) ->
  paid_in invoice_id (committed s) ->
  exists r,
    record_payment today invoice_id payment_method paid_date s
    = (Raise (ValueError r), s) /\
    (0 < invoice_id ->
     Text.blank payment_method = false ->
     Text.longer_than payment_method 50 = false ->
     (forall d, paid_date = Some d -> d <= today) ->
     r = AlreadyPaid invoice_id).
Proof.
  intros Hs [[i0 [Hin0 Hid0]] Hall]. unfold record_payment.
  rewrite bind_raise_if.
  destruct (Z.leb_spec invoice_id 0); [eexists; split; [reflexivity | lia] |].
  rewrite bind_raise_if.
  destruct (Text.blank payment_method);
    [eexists; split; [reflexivity | discriminate] |].
  rewrite bind_raise_if.
  destruct (Text.longer_than payment_method 50);
    [eexists; split; [reflexivity | discriminate] |].
  rewrite bind_raise_if.
  destruct (match paid_date with Some d => today <? d | None => false end)
    eqn:Hfuture.
  { eexists. split; [reflexivity |]. intros _ _ _ Hd.
    destruct paid_date as [d |]; [| discriminate].
    specialize (Hd d eq_refl). apply Z.ltb_lt in Hfuture. lia. }
  rewrite bind_query_first.
  destruct (find_hit (invoice_by_id invoice_id) _ i0 Hin0)
    as (row & Hfind & Hrow & _);
    [unfold invoice_by_id; apply Z.eqb_eq, Hid0 |].
  rewrite Hfind. cbn [option_map].
  rewrite (loaded_of_synced Invoices Invoice.InvoiceID invoice_id);
    [| exact Hs | exact Hfind].
  rewrite bind_raise_if.
  assert (Hk : Invoice.InvoiceID row = invoice_id)
    by (apply find_some in Hfind; apply Z.eqb_eq, Hfind).
  rewrite (Hall row Hrow Hk).
  cbn [status_is String.eqb Ascii.eqb Bool.eqb]. cbv iota.
  eexists. split; reflexivity.
Qed.

(** C5. A successful [record_payment] found the invoice not yet Paid and
    a supplied paid date between the invoice date and today, and left the
    invoice Paid; from then on, whatever operations run in between, every
    call for that invoice raises [ValueError] and changes nothing, and with
    well-formed arguments the error is "already paid".  A valid call on a
    Pending invoice succeeds. *)
Theorem record_payment_one_shot
    (today : date) (invoice_id : Z) (payment_method : string)
    (paid_date : option date) (s : OrmSession) :
  let call := record_payment today invoice_id payment_method paid_date in
  (forall v s1, call s = (Ok v, s1) ->
     exists row,
       find (invoice_by_id invoice_id) (Invoices (committed s)) = Some row /\
       let invoice := loaded Invoices Invoice.InvoiceID s row in
       Invoice.PaymentStatus invoice <> Some "Paid" /\
       (forall d, paid_date = Some d ->
                  Invoice.InvoiceDate invoice <= d <= today) /\
       (forall i, In i (Invoices (committed s1)) ->
                  Invoice.InvoiceID i = invoice_id ->
                  Invoice.PaymentStatus i = Some "Paid") /\
       (Invoices (working s) = Invoices (committed s) ->
        forall calls today' payment_method' paid_date',
          let s2 := run calls s1 in
          exists r,
            record_payment today' invoice_id payment_method' paid_date' s2
            = (Raise (ValueError r), s2) /\
            (Text.blank payment_method' = false ->
             Text.longer_than payment_method' 50 = false ->
             (forall d, paid_date' = Some d -> d <= today') ->
             r = AlreadyPaid invoice_id)))
  /\
  (synced s -> store_ok (committed s) = true ->
   forall row,
     find (invoice_by_id invoice_id) (Invoices (committed s)) = Some row ->
     Invoice.PaymentStatus row = Some "Pending" ->
     0 < invoice_id ->
     Text.blank payment_method = false ->
     Text.longer_than payment_method 50 = false ->
     fits 30 (Text.strip payment_method) = true ->
     (forall d, paid_date = Some d -> Invoice.InvoiceDate row <= d <= today) ->
     is_ok (fst (call s)) = true).
Proof.
  intro call. split.
  - intros v s1 Hcall.
    destruct (record_payment_ok _ _ _ _ _ _ _ Hcall)
      as (row & Hfind & Hunpaid & Hdate & Hs1).
    exists row. split; [exact Hfind |]. intro invoice.
    split; [| split; [exact Hdate | split]].
    + intro H. apply status_is_true in H. fold invoice in Hunpaid. congruence.
    + rewrite Hs1. cbn [clean committed with_Invoices Invoices].
      intros i. apply paid_after_assign.
    + intros Hinv calls today' pm' pd' s2.
      assert (Hid : 0 < invoice_id).
      { unfold call, record_payment in Hcall. ok_inv; bool_facts; lia. }
      assert (Hpaid : paid_in invoice_id (committed s1)).
      { rewrite Hs1. cbn [clean committed]. apply paid_in_after_payment.
        exists row. rewrite Hinv. apply find_some in Hfind.
        destruct Hfind as [Hin Hk]. split; [exact Hin |].
        apply Z.eqb_eq, Hk. }
      assert (Hsync : Invoices (working s1) = Invoices (committed s1))
        by (rewrite Hs1; reflexivity).
      destruct (run_paid calls invoice_id s1 Hsync Hpaid) as [Hsync2 Hpaid2].
      fold s2 in Hsync2, Hpaid2.
      destruct (record_payment_on_paid today' invoice_id pm' pd' s2 Hsync2
                  Hpaid2) as (r & Hr & Hwhy).
      exists r. split; [exact Hr |]. intros. apply Hwhy; assumption.
  - intros Hsynced Hstore row Hfind Hpending Hid Hblank Hlen Hfit Hdate.
    unfold call, record_payment.
    rewrite bind_raise_if. destruct (Z.leb_spec invoice_id 0); [lia |].
    rewrite bind_raise_if, Hblank, bind_raise_if, Hlen, bind_raise_if.
    replace (match paid_date with Some d => today <? d | None => false end)
      with false
      by (destruct paid_date as [d |]; [| reflexivity];
          symmetry; apply Z.ltb_ge, Hdate; reflexivity).
    rewrite bind_query_first, Hfind. cbn [option_map].
    rewrite (loaded_of_synced Invoices Invoice.InvoiceID invoice_id);
      [| apply f_equal, Hsynced | exact Hfind].
    rewrite bind_raise_if, Hpending.
    cbn [status_is String.eqb Ascii.eqb Bool.eqb]. cbv iota.
    rewrite bind_raise_if.
    replace (match paid_date with
             | Some d => d <? Invoice.InvoiceDate row
             | None => false
             end) with false
      by (destruct paid_date as [d |]; [| reflexivity];
          symmetry; apply Z.ltb_ge, Hdate; reflexivity).
    unfold store_ok in Hstore. apply andb_prop in Hstore.
    destruct Hstore as [Hw Hu]. unfold synced in Hsynced.
    cbv [try_except bind modify db_commit]. cbn [working committed].
    rewrite widths_ok_set_payment, unique_ok_set_payment, Hsynced, Hu;
      [| rewrite Hsynced; exact Hw | reflexivity | exact Hfit].
    cbn [negb]. rewrite refreshed_run. reflexivity.
Qed.
Lemma record_payment_one_shot_witness :
  let later :=
    run [ (Sample.day,
           CreateInvoice 2 "INV-002" Sample.day (Sample.day + 30)
             (Finite 40)
             "Group class" None None);
          (Sample.day + 1, RecordPayment 2 "Card" None) ]
      (snd (record_payment Sample.day 1 "Credit Card" None Sample.start)) in
  exists r,
    record_payment (Sample.day + 1) 1 "Cash" None later
    = (Raise (ValueError r), later) /\
    r = AlreadyPaid 1.
Proof.
  intro later.
  destruct (record_payment_one_shot Sample.day 1 "Credit Card" None
              Sample.start) as [H _].
  destruct (H (Invoice.set_payment (Some "Paid") (Some "Credit Card")
                 (Some Sample.day) Sample.bill)
              (snd (record_payment Sample.day 1 "Credit Card" None
                      Sample.start)))
    as (row & _ & _ & _ & _ & Hlater).
  - vm_compute. reflexivity.
  - destruct (Hlater eq_refl
                [ (Sample.day,
                   CreateInvoice 2 "INV-002" Sample.day (Sample.day + 30)
             (Finite 40)
                     "Group class" None None);
                  (Sample.day + 1, RecordPayment 2 "Card" None) ]
                (Sample.day + 1) "Cash" None) as (r & Hcall & Hr).
    exists r. split; [exact Hcall |].
    apply Hr; try reflexivity. intros d Hd. discriminate Hd.
Defined.

(** * Further properties of the operations *)

(** ** A failed call never reaches the database *)

Lemma same_committed_refl s : same_committed s s.
Proof. reflexivity. Qed.

Lemma same_committed_trans a b c :
  same_committed a b -> same_committed b c -> same_committed a c.
Proof. unfold same_committed. congruence. Qed.

Lemma same_committed_modify (f : Tables -> Tables) :
  keeps same_committed (modify f).
Proof. intro s. reflexivity. Qed.

Lemma same_committed_preserves {A} (m : M A) :
  preserves m -> keeps same_committed m.
Proof. apply keeps_of_preserves, same_committed_refl. Qed.

Lemma same_committed_bind {A B} (m : M A) (k : A -> M B) :
  keeps same_committed m -> (forall a, keeps same_committed (k a)) ->
  keeps same_committed (bind m k).
Proof. apply keeps_bind, same_committed_trans. Qed.

Lemma same_committed_when_given {A} (o : option A) (k : A -> M unit) :
  (forall a, keeps same_committed (k a)) ->
  keeps same_committed (when_given o k).
Proof. apply keeps_when_given, same_committed_refl. Qed.

Lemma fails_clean_bind {A B} (m : M A) (k : A -> M B) :
  keeps same_committed m -> (forall a, fails_clean (k a)) ->
  fails_clean (bind m k).
Proof.
  intros Hm Hk s. unfold bind. specialize (Hm s).
  destruct (m s) as [[a | e] s1]; cbn [fst snd] in *.
  - intro Hf. rewrite (Hk a s1 Hf). exact Hm.
  - intros _. exact Hm.
Qed.

Lemma fails_clean_raise {A} (r : reason) : fails_clean (@raise A r).
Proof. intros s _. reflexivity. Qed.

Lemma fails_clean_of_atomic {A} (m : M A) : atomic m -> fails_clean m.
Proof.
  intros H s Hf. destruct (H s Hf) as [-> | ->]; reflexivity.
Qed.

Lemma fails_clean_outcome {A} (m : M A) : fails_clean m -> fails_clean (outcome m).
Proof.
  intros H s. unfold outcome. specialize (H s).
  destruct (m s) as [[a | e] s1]; cbn [fst snd is_ok] in *; exact H.
Qed.

Create HintDb committed discriminated.

#[export] Hint Resolve same_committed_bind same_committed_when_given
  same_committed_modify fails_clean_bind fails_clean_raise : committed.
#[export] Hint Extern 3 (keeps same_committed _) =>
  apply same_committed_preserves; solve [auto 10 with orm] : committed.
#[export] Hint Extern 2 (fails_clean (try_except _ _)) =>
  solve [apply fails_clean_of_atomic; atomic_block] : committed.
#[export] Hint Extern 2 =>
  match goal with
  | |- _ (if ?b then _ else _) => destruct b
  | |- _ (match ?x with _ => _ end) => destruct x
  end : committed.
#[export] Hint Extern 0 => progress cbv beta zeta : committed.

Lemma update_profile_fails_clean today id f l p a d g :
  fails_clean (update_profile today id f l p a d g).
Proof. unfold update_profile. auto 60 with committed. Qed.

(** X1. Whatever the operation and its input, a call that fails leaves
    the committed rows of every table as they were. *)
Theorem failed_call_never_writes (today : date) (op : Op) (s : OrmSession) :
  is_ok (fst (perform today op s)) = false ->
  committed (snd (perform today op s)) = committed s.
Proof.
  revert s. change (fails_clean (perform today op)).
  destruct (is_update_profile op) eqn:Hop.
  - destruct op; try discriminate. simpl.
    apply fails_clean_outcome, update_profile_fails_clean.
  - apply fails_clean_of_atomic, perform_atomic, Hop.
Qed.

Lemma failed_call_never_writes_witness :
  committed
    (snd (perform Sample.day
            (UpdateProfile 1 (Some "Alicia") (Some "   ") None None None None)
            Sample.start))
  = Sample.club.
Proof.
  apply (failed_call_never_writes Sample.day
           (UpdateProfile 1 (Some "Alicia") (Some "   ") None None None None)
           Sample.start).
  reflexivity.
Defined.

(** X2. Nothing but [ValueError] leaves an operation: a commit the
    database refuses is rolled back and reported as a [ValueError]. *)
Theorem database_errors_become_value_errors
    (today : date) (op : Op) (s : OrmSession) (e : exn) :
  fst (perform today op s) = Raise e -> exists r, e = ValueError r.
Proof. apply perform_value_errors. Qed.

Lemma database_errors_become_value_errors_witness :
  let call :=
    perform Sample.day
      (RegisterMember "Carl" "Young" "carl@example.com" None None
         (Some "+1 (555) 010-9999 ext. 12345") None "Active") in
  fst (call Sample.start) = Raise (ValueError (Failed "Registration")) /\
  exists r, ValueError (Failed "Registration") = ValueError r.
Proof.
  intro call. split; [vm_compute; reflexivity |].
  apply (database_errors_become_value_errors Sample.day
           (RegisterMember "Carl" "Young" "carl@example.com" None None
              (Some "+1 (555) 010-9999 ext. 12345") None "Active")
           Sample.start).
  vm_compute. reflexivity.
Defined.

(** X3. The trainer's operations only read: whatever their arguments and
    whether they succeed or fail, [set_availability], [view_schedule] and
    [lookup_member] leave the session, and so the database, as it was. *)
Theorem trainer_operations_only_read
    (today : date) (trainer_id : Z) (session_date : date)
    (start_time end_time : time) (from_date : option date)
    (search_term : string) (s : OrmSession) :
  snd (set_availability today trainer_id session_date start_time end_time s) = s
  /\ snd (view_schedule today trainer_id from_date s) = s
  /\ snd (Search.lookup_member search_term s) = s.
Proof.
  split; [| split].
  - apply set_availability_preserves.
  - apply view_schedule_preserves.
  - apply lookup_member_preserves.
Qed.

(** ** The tables an operation writes *)

Lemma perform_keeps_members (today : date) (op : Op) :
  writes_members op = false -> keeps (table_kept Members) (perform today op).
Proof.
  destruct op; simpl; intro Hop; try discriminate; apply table_kept_outcome;
    try read_only_operations; unfold_operations; auto 60 with tables.
Qed.

Lemma perform_keeps_sessions (today : date) (op : Op) :
  writes_sessions op = false -> keeps (table_kept Sessions) (perform today op).
Proof.
  destruct op; simpl; intro Hop; try discriminate; apply table_kept_outcome;
    try read_only_operations; unfold_operations; auto 60 with tables.
Qed.

Lemma perform_keeps_goals (today : date) (op : Op) :
  writes_goals op = false -> keeps (table_kept FitnessGoals) (perform today op).
Proof.
  destruct op; simpl; intro Hop; try discriminate; apply table_kept_outcome;
    try read_only_operations; unfold_operations; auto 60 with tables.
Qed.

Lemma perform_keeps_issues (today : date) (op : Op) :
  writes_issues op = false ->
  keeps (table_kept MaintenanceIssues) (perform today op).
Proof.
  destruct op; simpl; intro Hop; try discriminate; apply table_kept_outcome;
    try read_only_operations; unfold_operations; auto 60 with tables.
Qed.

Lemma perform_keeps_staff (today : date) (op : Op) :
  keeps (table_kept Trainers) (perform today op) /\
  keeps (table_kept Rooms) (perform today op) /\
  keeps (table_kept Admins) (perform today op).
Proof.
  repeat split;
    (destruct op; simpl; apply table_kept_outcome;
     try read_only_operations; unfold_operations; unfold schedule_checks;
     auto 60 with tables).
Qed.

(** X4. No operation writes the Trainer, Room or AdminStaff table, and
    each of the other tables is written only by its own operations:
    a table that holds no pending change before a call holds the same
    rows after it, unless the call is one of the operations that write
    that table. *)
Theorem operations_write_their_own_tables
    (today : date) (op : Op) (s : OrmSession) :
  let s' := snd (perform today op s) in
  table_kept Trainers s s' /\ table_kept Rooms s s' /\ table_kept Admins s s' /\
  (writes_members op = false -> table_kept Members s s') /\
  (writes_sessions op = false -> table_kept Sessions s s') /\
  (writes_goals op = false -> table_kept FitnessGoals s s') /\
  (is_log_health_metric op = false -> table_kept HealthMetrics s s') /\
  (writes_invoices op = false -> table_kept Invoices s s') /\
  (writes_issues op = false -> table_kept MaintenanceIssues s s').
Proof.
  intro s'. subst s'.
  destruct (perform_keeps_staff today op) as (Ht & Hr & Ha).
  split; [apply Ht |]. split; [apply Hr |]. split; [apply Ha |].
  split; [intro H; apply perform_keeps_members, H |].
  split; [intro H; apply perform_keeps_sessions, H |].
  split; [intro H; apply perform_keeps_goals, H |].
  split; [intro H; apply perform_keeps_metrics, H |].
  split; [intro H; apply perform_keeps_invoices, H |].
  intro H; apply perform_keeps_issues, H.
Qed.

(** ** Everything a successful booking checked *)

Lemma option_map_none {A B} (f : A -> B) (o : option A) :
  option_map f o = None -> o = None.
Proof. destruct o; [discriminate | reflexivity]. Qed.

Lemma is_some_map {A B} (f : A -> B) (o : option A) :
  is_some (option_map f o) = true -> exists x, o = Some x.
Proof. destruct o as [x |]; [eauto | discriminate]. Qed.

Lemma schedule_pt_session_passed today member_id trainer_id session_date
    start_time end_time room_id session_type duration_minutes max_capacity
    notes s v s1 :
  schedule_pt_session today member_id trainer_id session_date start_time
    end_time room_id session_type duration_minutes max_capacity notes s
  = (Ok v, s1) ->
  (0 < member_id /\ 0 < trainer_id /\ today <= session_date <= today + 365 /\
   time_ltb start_time end_time = true /\
   Text.one_of session_type session_types = true) /\
  (forall r, room_id = Some r ->
     0 < r /\
     (exists room,
        find (fun x => Room.RoomID x =? r) (Rooms (committed s)) = Some room /\
        (session_type = "Group Class" ->
         over_capacity max_capacity
           (Room.RoomCapacity (loaded Rooms Room.RoomID s room)) = None)) /\
     find (room_clash r session_date start_time end_time)
       (Sessions (committed s)) = None) /\
  (exists m, find (member_by_id member_id) (Members (committed s)) = Some m) /\
  (exists t, find (fun t => Trainer.TrainerID t =? trainer_id)
               (Trainers (committed s)) = Some t) /\
  find (trainer_clash trainer_id session_date start_time end_time)
    (Sessions (committed s)) = None /\
  find (member_clash member_id session_date start_time end_time)
    (Sessions (committed s)) = None.
Proof.
  unfold schedule_pt_session, schedule_checks. intro H.
  ok_inv;
    (apply try_except_ok in H; [| intros e0 s0; reflexivity]);
    ok_inv; cbn [working committed clean with_Sessions Sessions] in *.
  all: try clear H.
  all: unfold nonzero in *; bool_facts.
  all: try (exfalso; lia).
  all: repeat match goal with
              | C : option_map _ _ = None |- _ => apply option_map_none in C
              | C : is_some (option_map _ _) = true |- _ =>
                  apply is_some_map in C
              | C : option_map _ _ = Some _ |- _ =>
                  apply option_map_some in C; destruct C as (? & ? & <-)
              end.
  all: split; [repeat split; first [lia | assumption] |].
  all: split;
    [ intros r Hr;
      first
        [ discriminate Hr
        | injection Hr as <-;
          split; [assumption |]; split; [| assumption];
          eexists; split; [eassumption |]; intro Hty;
          first [ assumption
                | match goal with
                  | C : (_ =? "Group Class")%string = false |- _ =>
                      apply String.eqb_neq in C; contradiction
                  end ] ] |].
  all: repeat split; assumption.
Qed.

(** ** Everything a successful room assignment checked and wrote *)

Lemma room_is_false (room_id : Z) (p : PersonalTrainingSession.t) :
  room_is room_id p = false -> PersonalTrainingSession.RoomID p <> Some room_id.
Proof.
  unfold room_is. intros H E. rewrite E, Z.eqb_refl in H. discriminate.
Qed.

Lemma assign_room_booking_ok today session_id room_id s v s1 :
  assign_room_booking today session_id room_id s = (Ok v, s1) ->
  0 < session_id /\ 0 < room_id /\
  exists row room,
    find (session_by_id session_id) (Sessions (committed s)) = Some row /\
    find (fun r => Room.RoomID r =? room_id) (Rooms (committed s)) = Some room /\
    let session := loaded Sessions PersonalTrainingSession.SessionID s row in
    today <= PersonalTrainingSession.SessionDate session /\
    PersonalTrainingSession.RoomID session <> Some room_id /\
    (PersonalTrainingSession.SessionType session = Some "Group Class" ->
     over_capacity (PersonalTrainingSession.MaxCapacity session)
       (Room.RoomCapacity (loaded Rooms Room.RoomID s room)) = None) /\
    find (other_booking session_id room_id session) (Sessions (committed s))
    = None /\
    s1 = clean (with_Sessions
                  (assign PersonalTrainingSession.SessionID session_id
                     (PersonalTrainingSession.set_RoomID (Some room_id)))
                  (working s)) /\
    (Sessions (working s) = Sessions (committed s) ->
     session = row /\
     v = PersonalTrainingSession.set_RoomID (Some room_id) row).
Proof.
  unfold assign_room_booking. intro H. ok_inv.
  all: repeat match goal with
       | C : option_map _ (find _ _) = Some _ |- _ =>
           apply option_map_some in C; destruct C as (? & ? & <-)
       end.
  all: match goal with
       | Hf : find (session_by_id _) _ = Some ?row |- _ =>
           assert (Hk : PersonalTrainingSession.SessionID
                          (loaded Sessions PersonalTrainingSession.SessionID s row)
                        = session_id)
             by (rewrite loaded_key; apply find_some in Hf;
                 apply Z.eqb_eq, Hf);
           rewrite Hk in H
       end.
  all: (apply try_except_ok in H; [| intros e0 s0; reflexivity]);
    ok_inv; cbn [working committed clean with_Sessions Sessions] in *.
  all: bool_facts.
  all: split; [assumption |]; split; [assumption |].
  all: do 2 eexists; split; [eassumption |]; split; [eassumption |].
  all: cbv zeta; split; [assumption |];
    split; [apply room_is_false; assumption |].
  all: split;
    [ intro Hty;
      first [ assumption
            | match goal with
              | C : match _ with Some _ => _ | None => false end = false |- _ =>
                  rewrite Hty in C; discriminate C
              end ] |].
  all: split; [apply option_map_none in C5; exact C5 |].
  all: split; [reflexivity |].
  all: intro Hs;
    match goal with
    | Hf : find (session_by_id _) _ = Some ?row |- _ =>
        assert (Hl : loaded Sessions PersonalTrainingSession.SessionID s row = row)
          by (apply (loaded_of_synced Sessions PersonalTrainingSession.SessionID
                       session_id); assumption);
        split; [exact Hl |];
        rewrite find_assign by (intros []; reflexivity);
        rewrite Hs; unfold session_by_id in Hf; rewrite Hf;
        cbn [option_map];
        apply find_some in Hf; destruct Hf as [_ Hf]; rewrite Hf; reflexivity
    end.
Qed.

(** ** How a call changes the session table *)

Lemma NoDup_fresh_key {R} (key : R -> Z) (rows : list R) (v : R) :
  NoDup (map key rows) -> (forall p, In p rows -> key p < key v) ->
  NoDup (map key (insert v rows)).
Proof.
  intros Hnd Hfresh. unfold insert. rewrite map_app. simpl.
  apply NoDup_app; [exact Hnd | repeat constructor; simpl; tauto |].
  intros k Hk [<- | []]. apply in_map_iff in Hk.
  destruct Hk as (p & Hp & Hin). specialize (Hfresh p Hin). lia.
Qed.

Lemma map_key_assign {R} (key : R -> Z) (k : Z) (f : R -> R) (rows : list R) :
  (forall o, key (f o) = key o) ->
  map key (assign key k f rows) = map key rows.
Proof.
  intro Hkey. unfold assign. rewrite map_map. apply map_ext.
  intro o. destruct (key o =? k); [apply Hkey | reflexivity].
Qed.

Lemma perform_sessions (today : date) (op : Op) (s : OrmSession) :
  sessions_wf s ->
  let s' := snd (perform today op s) in
  sessions_wf s' /\
  sessions_step (Sessions (committed s)) (Sessions (committed s')).
Proof.
  intros [Hs Hnd] s'. unfold sessions_wf.
  assert (Hfail : is_update_profile op = false ->
                  is_ok (fst (perform today op s)) = false ->
                  (Sessions (working s') = Sessions (committed s') /\
                   NoDup (map PersonalTrainingSession.SessionID
                            (Sessions (committed s')))) /\
                  sessions_step (Sessions (committed s))
                    (Sessions (committed s'))).
  { intros Hop Hf.
    destruct (perform_atomic today op Hop s Hf) as [H | H];
      subst s'; rewrite H; cbn [clean committed working];
      (split; [split; auto | apply step_same; reflexivity]). }
  destruct (writes_sessions op) eqn:Hop.
  - destruct op; try discriminate; subst s'; simpl in *; unfold outcome in *.
    + destruct (schedule_pt_session _ _ _ _ _ _ _ _ _ _ _ s)
        as [[v | e] s1] eqn:E; cbn [fst snd is_ok] in *; [| auto].
      destruct (schedule_pt_session_ok _ _ _ _ _ _ _ _ _ _ _ _ _ _ E)
        as (_ & _ & _ & Hv & ->).
      destruct (schedule_pt_session_passed _ _ _ _ _ _ _ _ _ _ _ _ _ _ E)
        as (_ & Hroom & _ & _ & Htr & Hmem).
      cbn [clean committed working with_Sessions Sessions]. rewrite Hs.
      assert (Hfresh : forall p, In p (Sessions (committed s)) ->
                PersonalTrainingSession.SessionID p
                < PersonalTrainingSession.SessionID v).
      { intros p Hp. rewrite Hv, Hs.
        cbn [PersonalTrainingSession.SessionID].
        apply next_id_above, Hp. }
      split; [split; [reflexivity | apply NoDup_fresh_key; [exact Hnd | exact Hfresh]] |].
      apply (step_booked _ _ v); [reflexivity | exact Hfresh | | |];
        rewrite Hv;
        cbn [PersonalTrainingSession.TrainerID PersonalTrainingSession.MemberID
             PersonalTrainingSession.RoomID PersonalTrainingSession.SessionDate
             PersonalTrainingSession.StartTime PersonalTrainingSession.EndTime].
      * intros p Hp. apply (find_none _ _ Htr p Hp).
      * intros p Hp. apply (find_none _ _ Hmem p Hp).
      * intros r p Hr Hp. destruct (Hroom r Hr) as (_ & _ & Hfree).
        apply (find_none _ _ Hfree p Hp).
    + destruct (assign_room_booking _ _ _ s) as [[v | e] s1] eqn:E;
        cbn [fst snd is_ok] in *; [| auto].
      destruct (assign_room_booking_ok _ _ _ _ _ _ E)
        as (_ & _ & row & room & Hfind & _ & _ & _ & _ & Hfree & -> & Hrow).
      destruct (Hrow Hs) as [Hl _]. rewrite Hl in Hfree.
      cbn [clean committed working with_Sessions Sessions]. rewrite Hs.
      split.
      * split; [reflexivity |].
        rewrite map_key_assign by (intros []; reflexivity). exact Hnd.
      * apply (step_room _ _ session_id room_id row);
          [exact Hfind | reflexivity |].
        intros p Hp. apply (find_none _ _ Hfree p Hp).
  - destruct (perform_keeps_sessions today op Hop s Hs) as [Hc Hw].
    fold s' in Hc, Hw. split.
    + split; [congruence | rewrite Hc; exact Hnd].
    + apply step_same. exact Hc.
Qed.

(** ** No resource is booked twice at a time *)

Lemma overlapping_sym (a b : PersonalTrainingSession.t) :
  overlapping a b -> overlapping b a.
Proof. unfold overlapping. intros (Hd & H1 & H2). auto. Qed.

Lemma overlapping_clashes (p v : PersonalTrainingSession.t) :
  overlapping p v ->
  clashes (PersonalTrainingSession.SessionDate v)
    (PersonalTrainingSession.StartTime v) (PersonalTrainingSession.EndTime v) p
  = true.
Proof.
  unfold overlapping, clashes. intros (Hd & H1 & H2).
  rewrite Hd, Z.eqb_refl, H1, H2. reflexivity.
Qed.

Lemma overlapping_set_room (r r' : option Z) (a b : PersonalTrainingSession.t) :
  overlapping (PersonalTrainingSession.set_RoomID r a)
    (PersonalTrainingSession.set_RoomID r' b) -> overlapping a b.
Proof. destruct a, b. exact (fun H => H). Qed.

Lemma same_key_same_row {R} (key : R -> Z) (rows : list R) (a b : R) :
  NoDup (map key rows) -> In a rows -> In b rows -> key a = key b -> a = b.
Proof.
  induction rows as [| x rows IH]; simpl; [tauto |].
  intros Hnd Ha Hb Hk. inversion Hnd as [| ? ? Hx Hrest]; subst.
  destruct Ha as [<- | Ha], Hb as [<- | Hb].
  - reflexivity.
  - exfalso. apply Hx. rewrite Hk. apply in_map, Hb.
  - exfalso. apply Hx. rewrite <- Hk. apply in_map, Ha.
  - apply IH; assumption.
Qed.

(** The resources a room assignment leaves alone. *)
Lemma step_keeps_bookings
    (same : PersonalTrainingSession.t -> PersonalTrainingSession.t -> Prop)
    (clash : PersonalTrainingSession.t -> PersonalTrainingSession.t -> bool)
    (old new : list PersonalTrainingSession.t) :
  (forall a b, same a b -> same b a) ->
  (forall r r' a b,
     same (PersonalTrainingSession.set_RoomID r a)
       (PersonalTrainingSession.set_RoomID r' b) -> same a b) ->
  (forall p v, same p v -> overlapping p v -> clash v p = true) ->
  sessions_step old new ->
  (forall v, new = insert v old -> forall p, In p old -> clash v p = false) ->
  no_double_booking same old -> no_double_booking same new.
Proof.
  intros Hsym Hset Hclash Hstep Hfree Hold.
  destruct Hstep as [-> | v Hnew Hid _ _ _ | sid rid session _ Hnew _].
  - exact Hold.
  - specialize (Hfree v Hnew). subst new. unfold insert.
    intros a b Ha Hb Hne Hsame Hov.
    apply in_app_or in Ha. apply in_app_or in Hb.
    destruct Ha as [Ha | [<- | []]], Hb as [Hb | [<- | []]].
    + apply (Hold a b); assumption.
    + specialize (Hfree a Ha).
      rewrite (Hclash a v Hsame Hov) in Hfree. discriminate.
    + specialize (Hfree b Hb).
      rewrite (Hclash b v (Hsym _ _ Hsame) (overlapping_sym _ _ Hov)) in Hfree.
      discriminate.
    + contradiction.
  - subst new. intros a b Ha Hb Hne Hsame Hov.
    destruct (assign_in _ _ _ _ _ Ha) as (a0 & Ha0 & ->).
    destruct (assign_in _ _ _ _ _ Hb) as (b0 & Hb0 & ->).
    apply (Hold a0 b0 Ha0 Hb0).
    + intro E. apply Hne.
      destruct (_ =? sid), (_ =? sid); destruct a0, b0; exact E.
    + destruct (PersonalTrainingSession.SessionID a0 =? sid),
        (PersonalTrainingSession.SessionID b0 =? sid).
      * apply (Hset _ _ _ _ Hsame).
      * apply (Hset (Some rid) (PersonalTrainingSession.RoomID b0)).
        destruct b0. exact Hsame.
      * apply (Hset (PersonalTrainingSession.RoomID a0) (Some rid)).
        destruct a0. exact Hsame.
      * exact Hsame.
    + destruct (PersonalTrainingSession.SessionID a0 =? sid),
        (PersonalTrainingSession.SessionID b0 =? sid).
      * apply (overlapping_set_room (Some rid) (Some rid)), Hov.
      * apply (overlapping_set_room (Some rid)
                 (PersonalTrainingSession.RoomID b0)).
        destruct b0. exact Hov.
      * apply (overlapping_set_room (PersonalTrainingSession.RoomID a0)
                 (Some rid)).
        destruct a0. exact Hov.
      * exact Hov.
Qed.

Lemma insert_inj {R} (v w : R) (rows : list R) :
  insert v rows = insert w rows -> v = w.
Proof. unfold insert. intro H. apply app_inj_tail in H. apply H. Qed.

Lemma step_keeps_trainers (old new : list PersonalTrainingSession.t) :
  sessions_step old new ->
  no_double_booking same_trainer old -> no_double_booking same_trainer new.
Proof.
  intro Hstep.
  apply (step_keeps_bookings same_trainer
           (fun v => trainer_clash (PersonalTrainingSession.TrainerID v)
                       (PersonalTrainingSession.SessionDate v)
                       (PersonalTrainingSession.StartTime v)
                       (PersonalTrainingSession.EndTime v)));
    [ | | | exact Hstep |].
  - unfold same_trainer. auto.
  - unfold same_trainer. intros r r' [] []. auto.
  - unfold same_trainer, trainer_clash. intros p v Hsame Hov.
    rewrite Hsame, Z.eqb_refl, (overlapping_clashes p v Hov). reflexivity.
  - intros v Hv.
    destruct Hstep as [E | w Hw _ Htr _ _ | sid rid session _ Hw _].
    + exfalso. rewrite E in Hv. unfold insert in Hv.
      apply (f_equal (@length _)) in Hv. rewrite length_app in Hv.
      simpl in Hv. lia.
    + rewrite Hw in Hv. apply insert_inj in Hv. subst w. exact Htr.
    + exfalso. rewrite Hw in Hv. unfold insert, assign in Hv.
      apply (f_equal (@length _)) in Hv.
      rewrite length_app, length_map in Hv. simpl in Hv. lia.
Qed.

Lemma step_keeps_members (old new : list PersonalTrainingSession.t) :
  sessions_step old new ->
  no_double_booking same_member old -> no_double_booking same_member new.
Proof.
  intro Hstep.
  apply (step_keeps_bookings same_member
           (fun v => member_clash (PersonalTrainingSession.MemberID v)
                       (PersonalTrainingSession.SessionDate v)
                       (PersonalTrainingSession.StartTime v)
                       (PersonalTrainingSession.EndTime v)));
    [ | | | exact Hstep |].
  - unfold same_member. auto.
  - unfold same_member. intros r r' [] []. auto.
  - unfold same_member, member_clash. intros p v Hsame Hov.
    rewrite Hsame, Z.eqb_refl, (overlapping_clashes p v Hov). reflexivity.
  - intros v Hv.
    destruct Hstep as [E | w Hw _ _ Hmem _ | sid rid session _ Hw _].
    + exfalso. rewrite E in Hv. unfold insert in Hv.
      apply (f_equal (@length _)) in Hv. rewrite length_app in Hv.
      simpl in Hv. lia.
    + rewrite Hw in Hv. apply insert_inj in Hv. subst w. exact Hmem.
    + exfalso. rewrite Hw in Hv. unfold insert, assign in Hv.
      apply (f_equal (@length _)) in Hv.
      rewrite length_app, length_map in Hv. simpl in Hv. lia.
Qed.

Lemma step_keeps_rooms (old new : list PersonalTrainingSession.t) :
  NoDup (map PersonalTrainingSession.SessionID old) ->
  sessions_step old new ->
  no_double_booking same_room old -> no_double_booking same_room new.
Proof.
  intros Hnd Hstep Hold.
  destruct Hstep as [-> | v Hnew _ _ _ Hfree | sid rid session Hfind Hnew Hfree].
  - exact Hold.
  - subst new. unfold insert. intros a b Ha Hb Hne Hsame Hov.
    apply in_app_or in Ha. apply in_app_or in Hb.
    destruct Ha as [Ha | [<- | []]], Hb as [Hb | [<- | []]].
    + apply (Hold a b); assumption.
    + destruct Hsame as (r & Hra & Hrv).
      specialize (Hfree r a Hrv Ha). unfold room_clash, room_is in Hfree.
      rewrite Hra, Z.eqb_refl, (overlapping_clashes a v Hov) in Hfree.
      discriminate.
    + destruct Hsame as (r & Hrv & Hrb).
      specialize (Hfree r b Hrv Hb). unfold room_clash, room_is in Hfree.
      rewrite Hrb, Z.eqb_refl,
        (overlapping_clashes b v (overlapping_sym _ _ Hov)) in Hfree.
      discriminate.
    + contradiction.
  - assert (Hsession : forall o, In o old ->
              PersonalTrainingSession.SessionID o = sid -> o = session).
    { intros o Ho Hk. pose proof (find_some _ _ Hfind) as [Hin Hs].
      apply Z.eqb_eq in Hs.
      apply (same_key_same_row PersonalTrainingSession.SessionID old);
        [exact Hnd | exact Ho | exact Hin | congruence]. }
    assert (Hmoved : forall o p, In o old -> In p old ->
              PersonalTrainingSession.SessionID o = sid ->
              PersonalTrainingSession.SessionID p <> sid ->
              PersonalTrainingSession.RoomID p = Some rid ->
              overlapping o p -> False).
    { intros o p Ho Hp Hk Hpk Hroom Hov.
      rewrite (Hsession o Ho Hk) in Hov.
      specialize (Hfree p Hp). unfold other_booking, room_clash, room_is in Hfree.
      rewrite Hroom, Z.eqb_refl,
        (overlapping_clashes p session (overlapping_sym _ _ Hov)) in Hfree.
      apply Z.eqb_neq in Hpk. rewrite Hpk in Hfree. discriminate. }
    subst new. intros a b Ha Hb Hne Hsame Hov.
    destruct (assign_in _ _ _ _ _ Ha) as (a0 & Ha0 & ->).
    destruct (assign_in _ _ _ _ _ Hb) as (b0 & Hb0 & ->).
    destruct (Z.eqb_spec (PersonalTrainingSession.SessionID a0) sid) as [Ea | Ea],
      (Z.eqb_spec (PersonalTrainingSession.SessionID b0) sid) as [Eb | Eb].
    + apply Hne. destruct a0, b0. simpl in *. congruence.
    + destruct Hsame as (r & Hra & Hrb).
      assert (r = rid) by (destruct a0; simpl in Hra; congruence). subst r.
      apply (Hmoved a0 b0 Ha0 Hb0 Ea Eb Hrb).
      apply (overlapping_set_room (Some rid) (PersonalTrainingSession.RoomID b0)).
      destruct b0. exact Hov.
    + destruct Hsame as (r & Hra & Hrb).
      assert (r = rid) by (destruct b0; simpl in Hrb; congruence). subst r.
      apply (Hmoved b0 a0 Hb0 Ha0 Eb Ea Hra).
      apply (overlapping_set_room (Some rid) (PersonalTrainingSession.RoomID a0)).
      destruct a0. apply overlapping_sym. exact Hov.
    + apply (Hold a0 b0); assumption.
Qed.

(** Along a run the session table stays well formed and keeps whatever
    every step keeps. *)
Lemma run_sessions (P : list PersonalTrainingSession.t -> Prop) :
  (forall old new,
     NoDup (map PersonalTrainingSession.SessionID old) ->
     sessions_step old new -> P old -> P new) ->
  forall (calls : list (date * Op)) (s : OrmSession),
    sessions_wf s -> P (Sessions (committed s)) ->
    sessions_wf (run calls s) /\ P (Sessions (committed (run calls s))).
Proof.
  intros Hstep calls. induction calls as [| [today op] calls IH];
    intros s Hwf HP; [simpl; auto |].
  cbn [run]. destruct (perform_sessions today op s Hwf) as [Hwf' Hs].
  apply IH; [exact Hwf' |].
  apply (Hstep (Sessions (committed s))); [apply Hwf | exact Hs | exact HP].
Qed.

(** X5. No trainer is ever double-booked: if no two sessions of one
    trainer overlap before a run of operations, none do after it. *)
Theorem no_trainer_double_booking (calls : list (date * Op)) (s : OrmSession) :
  sessions_wf s ->
  no_double_booking same_trainer (Sessions (committed s)) ->
  no_double_booking same_trainer (Sessions (committed (run calls s))).
Proof.
  intros Hwf H.
  apply (run_sessions (no_double_booking same_trainer)); try assumption.
  intros old new _. apply step_keeps_trainers.
Qed.

(** X6. No room is ever double-booked: if no two sessions in one room
    overlap before a run of operations, none do after it, whether rooms
    are given at booking or assigned later. *)
Theorem no_room_double_booking (calls : list (date * Op)) (s : OrmSession) :
  sessions_wf s ->
  no_double_booking same_room (Sessions (committed s)) ->
  no_double_booking same_room (Sessions (committed (run calls s))).
Proof.
  intros Hwf H.
  apply (run_sessions (no_double_booking same_room)); try assumption.
  apply step_keeps_rooms.
Qed.

(** X7. No member is ever double-booked: if no two sessions of one member
    overlap before a run of operations, none do after it. *)
Theorem no_member_double_booking (calls : list (date * Op)) (s : OrmSession) :
  sessions_wf s ->
  no_double_booking same_member (Sessions (committed s)) ->
  no_double_booking same_member (Sessions (committed (run calls s))).
Proof.
  intros Hwf H.
  apply (run_sessions (no_double_booking same_member)); try assumption.
  intros old new _. apply step_keeps_members.
Qed.

Lemma sample_sessions_wf : sessions_wf Sample.start.
Proof. split; [reflexivity | repeat constructor; simpl; tauto]. Qed.

Lemma sample_no_double_booking
    (same : PersonalTrainingSession.t -> PersonalTrainingSession.t -> Prop) :
  no_double_booking same (Sessions (committed Sample.start)).
Proof. intros a b [<- | []] [<- | []] Hne. contradiction. Qed.

Lemma no_trainer_double_booking_witness :
  map PersonalTrainingSession.TrainerID
    (Sessions (committed (run Scenario.bookings Sample.start))) = [1; 1; 2] /\
  no_double_booking same_trainer
    (Sessions (committed (run Scenario.bookings Sample.start))).
Proof.
  split; [vm_compute; reflexivity |].
  apply (no_trainer_double_booking Scenario.bookings Sample.start).
  - apply sample_sessions_wf.
  - apply sample_no_double_booking.
Defined.

Lemma no_room_double_booking_witness :
  map PersonalTrainingSession.RoomID
    (Sessions (committed (run Scenario.bookings Sample.start)))
  = [Some 1; Some 1; Some 2] /\
  no_double_booking same_room
    (Sessions (committed (run Scenario.bookings Sample.start))).
Proof.
  split; [vm_compute; reflexivity |].
  apply (no_room_double_booking Scenario.bookings Sample.start).
  - apply sample_sessions_wf.
  - apply sample_no_double_booking.
Defined.

Lemma no_member_double_booking_witness :
  map PersonalTrainingSession.MemberID
    (Sessions (committed (run Scenario.bookings Sample.start))) = [1; 1; 2] /\
  no_double_booking same_member
    (Sessions (committed (run Scenario.bookings Sample.start))).
Proof.
  split; [vm_compute; reflexivity |].
  apply (no_member_double_booking Scenario.bookings Sample.start).
  - apply sample_sessions_wf.
  - apply sample_no_double_booking.
Defined.

(** ** What a booked session looks like *)

Lemma over_capacity_none (want have : option Z) :
  over_capacity want have = None ->
  forall w h, want = Some w -> have = Some h -> w = 0 \/ h = 0 \/ w <= h.
Proof.
  unfold over_capacity. intros H w h -> ->.
  destruct (Z.eqb_spec w 0); [auto |].
  destruct (Z.eqb_spec h 0); [auto |].
  destruct (Z.ltb_spec h w); [discriminate | auto].
Qed.

Lemma one_of_session_types (ty : string) :
  Text.one_of ty session_types = true ->
  ty = "Personal Training" \/ ty = "Group Class".
Proof.
  unfold Text.one_of, session_types. simpl.
  rewrite !orb_true_iff, !String.eqb_eq. intros [H | [H | H]]; auto.
  discriminate.
Qed.

(** X8. A session that [schedule_pt_session] books is at most a year
    ahead and not in the past, starts before it ends, is of one of the two
    types, has nobody enrolled, belongs to a member and a trainer on
    record, gets an id no session had, and, when a room is named, the room
    is on record and a group class does not exceed its capacity unless the
    room's capacity is missing or zero. *)
Theorem booked_session_is_valid
    (today : date) (member_id trainer_id : Z) (session_date : date)
    (start_time end_time : time) (room_id : option Z) (session_type : string)
    (duration_minutes max_capacity : option Z) (notes : option string)
    (s s1 : OrmSession) (v : PersonalTrainingSession.t) :
  schedule_pt_session today member_id trainer_id session_date start_time
    end_time room_id session_type duration_minutes max_capacity notes s
  = (Ok v, s1) ->
  Rooms (working s) = Rooms (committed s) ->
  Sessions (working s) = Sessions (committed s) ->
  (today <= PersonalTrainingSession.SessionDate v <= today + 365 /\
   time_ltb (PersonalTrainingSession.StartTime v)
     (PersonalTrainingSession.EndTime v) = true /\
   (PersonalTrainingSession.SessionType v = Some "Personal Training" \/
    PersonalTrainingSession.SessionType v = Some "Group Class") /\
   PersonalTrainingSession.CurrentEnrollment v = Some 0) /\
  (exists m, In m (Members (committed s)) /\
             Member.MemberID m = PersonalTrainingSession.MemberID v) /\
  (exists t, In t (Trainers (committed s)) /\
             Trainer.TrainerID t = PersonalTrainingSession.TrainerID v) /\
  (forall r, PersonalTrainingSession.RoomID v = Some r ->
     exists room,
       In room (Rooms (committed s)) /\ Room.RoomID room = r /\
       (PersonalTrainingSession.SessionType v = Some "Group Class" ->
        forall cap have,
          PersonalTrainingSession.MaxCapacity v = Some cap ->
          Room.RoomCapacity room = Some have ->
          have = 0 \/ cap <= have)) /\
  (forall p, In p (Sessions (committed s)) ->
     PersonalTrainingSession.SessionID p <> PersonalTrainingSession.SessionID v) /\
  Sessions (committed s1) = (Sessions (committed s) ++ [v])%list.
Proof.
  intros H Hrooms Hsessions.
  destruct (schedule_pt_session_ok _ _ _ _ _ _ _ _ _ _ _ _ _ _ H)
    as (_ & Hcap & _ & Hv & ->).
  destruct (schedule_pt_session_passed _ _ _ _ _ _ _ _ _ _ _ _ _ _ H)
    as ((_ & _ & Hdate & Htime & Hty) & Hroom & (m & Hm) & (t & Ht) & _ & _).
  subst v.
  cbn [PersonalTrainingSession.SessionDate PersonalTrainingSession.StartTime
       PersonalTrainingSession.EndTime PersonalTrainingSession.SessionType
       PersonalTrainingSession.CurrentEnrollment
       PersonalTrainingSession.MemberID PersonalTrainingSession.TrainerID
       PersonalTrainingSession.RoomID PersonalTrainingSession.MaxCapacity].
  split; [| split; [| split; [| split; [| split]]]].
  - repeat split; try lia; try assumption.
    destruct (one_of_session_types _ Hty) as [-> | ->]; auto.
  - exists m. apply find_some in Hm. destruct Hm as [Hin Hk].
    split; [exact Hin | apply Z.eqb_eq, Hk].
  - exists t. apply find_some in Ht. destruct Ht as [Hin Hk].
    split; [exact Hin | apply Z.eqb_eq, Hk].
  - intros r Hr. destruct (Hroom r Hr) as (_ & (room & Hfind & Hfits) & _).
    exists room. pose proof (find_some _ _ Hfind) as [Hin Hk].
    split; [exact Hin |]. split; [apply Z.eqb_eq, Hk |].
    intros [= Hgroup] cap have Hc Hh. specialize (Hfits Hgroup).
    rewrite (loaded_of_synced Rooms Room.RoomID r) in Hfits;
      [| exact Hrooms | exact Hfind].
    destruct (Hcap Hgroup) as (c & Hc' & Hpos).
    destruct (over_capacity_none _ _ Hfits cap have Hc Hh) as [E | [E | E]];
      [| auto | auto].
    rewrite Hc in Hc'. injection Hc' as <-. lia.
  - intros p Hp. cbn [PersonalTrainingSession.SessionID].
    rewrite Hsessions.
    pose proof (next_id_above PersonalTrainingSession.SessionID _ _ Hp). lia.
  - cbn [clean committed with_Sessions Sessions]. unfold insert.
    rewrite Hsessions. reflexivity.
Qed.

Lemma booked_session_is_valid_witness :
  exists v s1,
    schedule_pt_session Sample.day 2 2 (Sample.day + 2) (Sample.at_ 18 0)
      (Sample.at_ 19 0) (Some 2) "Group Class" None (Some 12) None
      Sample.start = (Ok v, s1) /\
    Sessions (committed s1) = [Sample.morning; v].
Proof.
  destruct (schedule_pt_session Sample.day 2 2 (Sample.day + 2)
              (Sample.at_ 18 0) (Sample.at_ 19 0) (Some 2) "Group Class" None
              (Some 12) None Sample.start) as [[v | e] s1] eqn:E;
    [| vm_compute in E; discriminate E].
  exists v, s1. split; [reflexivity |].
  apply (booked_session_is_valid _ _ _ _ _ _ _ _ _ _ _ _ _ _ E);
    reflexivity.
Defined.

(** ** The order of the conflict checks *)

Lemma schedule_checks_run today m t d st en r ty cap s u :
  fst (schedule_checks today m t d st en r ty cap s) = Ok u ->
  schedule_checks today m t d st en r ty cap s = (Ok tt, s).
Proof.
  pose proof (schedule_checks_preserves today m t d st en r ty cap s) as Hs.
  destruct (schedule_checks today m t d st en r ty cap s) as [[[] | e] s1];
    simpl in *; intro H; [subst; reflexivity | discriminate].
Qed.

Lemma schedule_checks_room today m t d st en r ty cap s u s1 z :
  schedule_checks today m t d st en r ty cap s = (Ok u, s1) ->
  r = Some z -> 0 < z.
Proof.
  unfold schedule_checks. intros H ->.
  apply bind_ok in H. destruct H as (? & ? & _ & H).
  apply bind_ok in H. destruct H as (? & ? & _ & H).
  apply bind_ok in H. destruct H as (? & ? & E & _).
  simpl in E. apply raise_if_ok in E. destruct E as [E _].
  apply Z.leb_gt in E. exact E.
Qed.

(** X9. Once its arguments and the records they name pass their checks
    and the trainer is free, [schedule_pt_session] refuses a room that has
    an overlapping session with a room conflict naming such a session; and
    when the room is free too, or none is named, it refuses a member who
    has an overlapping session with a member conflict naming it.  Either
    way nothing is written. *)
Theorem room_and_member_conflicts
    (today : date) (member_id trainer_id : Z) (session_date : date)
    (start_time end_time : time) (room_id : option Z) (session_type : string)
    (duration_minutes max_capacity : option Z) (notes : option string)
    (s : OrmSession) :
  let call := schedule_pt_session today member_id trainer_id session_date
                start_time end_time room_id session_type duration_minutes
                max_capacity notes in
  fst (schedule_checks today member_id trainer_id session_date start_time
         end_time room_id session_type max_capacity s) = Ok tt ->
  find (trainer_clash trainer_id session_date start_time end_time)
    (Sessions (committed s)) = None ->
  (forall r c,
     room_id = Some r -> In c (Sessions (committed s)) ->
     room_clash r session_date start_time end_time c = true ->
     exists hit from to,
       In hit (Sessions (committed s)) /\
       room_clash r session_date start_time end_time hit = true /\
       call s = (Raise (ValueError
                   (RoomConflict (PersonalTrainingSession.SessionID hit)
                      from to)), s))
  /\
  ((forall r, room_id = Some r ->
      find (room_clash r session_date start_time end_time)
        (Sessions (committed s)) = None) ->
   forall c,
     In c (Sessions (committed s)) ->
     member_clash member_id session_date start_time end_time c = true ->
     exists hit,
       In hit (Sessions (committed s)) /\
       member_clash member_id session_date start_time end_time hit = true /\
       call s = (Raise (ValueError
                   (MemberConflict (PersonalTrainingSession.SessionID hit))),
                 s)).
Proof.
  intros call Hchecks Htrainer.
  pose proof (schedule_checks_run _ _ _ _ _ _ _ _ _ _ _ Hchecks) as Hrun.
  assert (Hpos : forall r, room_id = Some r -> nonzero room_id = true).
  { intros r Hr.
    pose proof (schedule_checks_room _ _ _ _ _ _ _ _ _ _ _ _ r Hrun Hr).
    subst room_id. unfold nonzero.
    destruct (Z.eqb_spec r 0); [lia | reflexivity]. }
  unfold call, schedule_pt_session.
  rewrite bind_unfold, Hrun, bind_query_first, Htrainer.
  cbn [option_map when_given]. rewrite bind_unfold. cbn [ret].
  split.
  - intros r c Hr Hin Hclash.
    rewrite (Hpos r Hr). subst room_id. cbn [when_given].
    destruct (find_hit _ _ c Hin Hclash) as (hit & Hfind & Hhit & Hp).
    rewrite bind_unfold, bind_query_first, Hfind. cbn [option_map when_given].
    exists hit. do 2 eexists. split; [exact Hhit |]. split; [exact Hp |].
    rewrite loaded_key. reflexivity.
  - intros Hfree c Hin Hclash.
    assert (Hroom : (if nonzero room_id
                     then when_given room_id (fun rid =>
                            conflicting_room <-
                              query_first Sessions
                                PersonalTrainingSession.SessionID
                                (room_clash rid session_date start_time
                                   end_time) ;;
                            when_given conflicting_room (fun c =>
                              raise (RoomConflict
                                       (PersonalTrainingSession.SessionID c)
                                       (PersonalTrainingSession.StartTime c)
                                       (PersonalTrainingSession.EndTime c))))
                     else ret tt) s = (Ok tt, s)).
    { destruct room_id as [r |]; [| reflexivity].
      rewrite (Hpos r eq_refl). cbn [when_given].
      rewrite bind_query_first, (Hfree r eq_refl). reflexivity. }
    rewrite bind_unfold, Hroom.
    destruct (find_hit _ _ c Hin Hclash) as (hit & Hfind & Hhit & Hp).
    rewrite bind_query_first, Hfind. cbn [option_map when_given].
    exists hit. split; [exact Hhit |]. split; [exact Hp |].
    rewrite loaded_key. reflexivity.
Qed.

Lemma room_and_member_conflicts_witness :
  exists hit from to,
    In hit (Sessions (committed Sample.start)) /\
    room_clash 1 (Sample.day + 1) (Sample.at_ 10 30) (Sample.at_ 11 30) hit
    = true /\
    schedule_pt_session Sample.day 2 2 (Sample.day + 1) (Sample.at_ 10 30)
      (Sample.at_ 11 30) (Some 1) "Personal Training" None None None
      Sample.start
    = (Raise (ValueError
                (RoomConflict (PersonalTrainingSession.SessionID hit) from to)),
       Sample.start).
Proof.
  destruct (room_and_member_conflicts Sample.day 2 2 (Sample.day + 1)
              (Sample.at_ 10 30) (Sample.at_ 11 30) (Some 1)
              "Personal Training" None None None Sample.start)
    as [Hroom _].
  - reflexivity.
  - reflexivity.
  - apply (Hroom 1 Sample.morning).
    + reflexivity.
    + simpl. auto.
    + reflexivity.
Defined.

(** ** Availability and booking use the same test *)

Lemma schedule_never_trainer_conflict today member_id trainer_id session_date
    start_time end_time room_id session_type duration_minutes max_capacity
    notes s :
  find (trainer_clash trainer_id session_date start_time end_time)
    (Sessions (committed s)) = None ->
  forall id from to,
    fst (schedule_pt_session today member_id trainer_id session_date
           start_time end_time room_id session_type duration_minutes
           max_capacity notes s)
    <> Raise (ValueError (TrainerConflict id from to)).
Proof.
  intros Hnone id from to Hcall.
  unfold schedule_pt_session in Hcall. rewrite bind_unfold in Hcall.
  pose proof (schedule_checks_preserves today member_id trainer_id
                session_date start_time end_time room_id session_type
                max_capacity s) as Hsame.
  pose proof (schedule_checks_no_conflict today member_id trainer_id
                session_date start_time end_time room_id session_type
                max_capacity s) as Hclean.
  destruct (schedule_checks _ _ _ _ _ _ _ _ _ s) as [[[] | e] s1];
    simpl in Hsame, Hclean; subst s1.
  - rewrite bind_unfold, query_first_run in Hcall.
    rewrite Hnone in Hcall. cbv beta iota in Hcall.
    simpl option_map in Hcall. cbv beta iota in Hcall.
    change (when_given None ?k) with (ret tt) in Hcall.
    match type of Hcall with
    | fst (?m s) = _ =>
        assert (Hn : never is_trainer_conflict m) by auto 40 with orm
    end.
    apply Hn in Hcall. discriminate.
  - simpl in Hcall. inversion Hcall; subst.
    specialize (Hclean _ eq_refl). discriminate.
Qed.

Lemma set_availability_ok today trainer_id session_date start_time end_time
    s a s1 :
  set_availability today trainer_id session_date start_time end_time s
  = (Ok a, s1) ->
  a = mk_availability trainer_id session_date start_time end_time true /\
  today <= session_date <= today + 365 /\
  15 * 60000000 <= time_diff start_time end_time <= 1440 * 60000000 /\
  (exists t, find (fun t => Trainer.TrainerID t =? trainer_id)
               (Trainers (committed s)) = Some t) /\
  find (trainer_clash trainer_id session_date start_time end_time)
    (Sessions (committed s)) = None.
Proof.
  unfold set_availability. intro H. ok_inv. bool_facts.
  repeat match goal with
         | C : option_map _ _ = None |- _ => apply option_map_none in C
         | C : is_some (option_map _ _) = true |- _ => apply is_some_map in C
         end.
  repeat split; try lia; assumption.
Qed.

Lemma set_availability_slot_conflict today trainer_id session_date start_time
    end_time s id from to :
  fst (set_availability today trainer_id session_date start_time end_time s)
  = Raise (ValueError (SlotConflict id from to)) ->
  exists c,
    find (trainer_clash trainer_id session_date start_time end_time)
      (Sessions (committed s)) = Some c /\
    id = PersonalTrainingSession.SessionID c /\
    from = PersonalTrainingSession.StartTime
             (loaded Sessions PersonalTrainingSession.SessionID s c) /\
    to = PersonalTrainingSession.EndTime
           (loaded Sessions PersonalTrainingSession.SessionID s c).
Proof.
  unfold set_availability.
  repeat (rewrite bind_raise_if;
          match goal with
          | |- context [if ?b then _ else _] => destruct b
          end; [simpl; discriminate |]).
  rewrite bind_query_first, bind_raise_if.
  match goal with
  | |- context [if ?b then _ else _] => destruct b
  end; [simpl; discriminate |].
  rewrite bind_query_first.
  destruct (find (trainer_clash _ _ _ _) _) as [c |];
    cbn [option_map when_given]; [| simpl; discriminate].
  simpl. intros [= <- <- <-]. exists c. rewrite loaded_key. auto.
Qed.

(** X10. [set_availability] and [schedule_pt_session] agree on when a
    trainer is free: a slot that [set_availability] accepts never gives a
    trainer conflict when it is booked for that trainer, and a slot it
    refuses because of a session is refused by the booking, once the
    booking's other checks pass, with a trainer conflict naming the same
    session. *)
Theorem availability_agrees_with_booking
    (today : date) (trainer_id : Z) (session_date : date)
    (start_time end_time : time) (s : OrmSession)
    (member_id : Z) (room_id : option Z) (session_type : string)
    (duration_minutes max_capacity : option Z) (notes : option string) :
  let slot := set_availability today trainer_id session_date start_time
                end_time in
  let book := schedule_pt_session today member_id trainer_id session_date
                start_time end_time room_id session_type duration_minutes
                max_capacity notes in
  (is_ok (fst (slot s)) = true ->
   forall id from to,
     fst (book s) <> Raise (ValueError (TrainerConflict id from to)))
  /\
  (forall id from to,
     fst (slot s) = Raise (ValueError (SlotConflict id from to)) ->
     fst (schedule_checks today member_id trainer_id session_date start_time
            end_time room_id session_type max_capacity s) = Ok tt ->
     book s = (Raise (ValueError (TrainerConflict id from to)), s)).
Proof.
  intros slot book. split.
  - intro Hok. apply schedule_never_trainer_conflict.
    unfold slot in Hok.
    destruct (set_availability _ _ _ _ _ s) as [[a | e] s1] eqn:E;
      [| discriminate].
    apply (set_availability_ok _ _ _ _ _ _ _ _ E).
  - intros id from to Hslot Hchecks.
    destruct (set_availability_slot_conflict _ _ _ _ _ _ _ _ _ Hslot)
      as (c & Hfind & -> & -> & ->).
    unfold book, schedule_pt_session.
    rewrite bind_unfold, (schedule_checks_run _ _ _ _ _ _ _ _ _ _ _ Hchecks).
    rewrite bind_query_first, Hfind. cbn [option_map when_given].
    rewrite loaded_key. reflexivity.
Qed.

Lemma availability_agrees_with_booking_witness :
  set_availability Sample.day 1 (Sample.day + 1) (Sample.at_ 10 30)
    (Sample.at_ 12 0) Sample.start
  = (Raise (ValueError (SlotConflict 1 (Sample.at_ 10 0) (Sample.at_ 11 0))),
     Sample.start) /\
  schedule_pt_session Sample.day 2 1 (Sample.day + 1) (Sample.at_ 10 30)
    (Sample.at_ 12 0) None "Personal Training" None None None Sample.start
  = (Raise (ValueError (TrainerConflict 1 (Sample.at_ 10 0) (Sample.at_ 11 0))),
     Sample.start).
Proof.
  split; [vm_compute; reflexivity |].
  destruct (availability_agrees_with_booking Sample.day 1 (Sample.day + 1)
              (Sample.at_ 10 30) (Sample.at_ 12 0) Sample.start 2 None
              "Personal Training" None None None) as [_ H].
  apply H; vm_compute; reflexivity.
Defined.

(** ** The trainer's schedule *)

Lemma schedule_leb_le (a b : PersonalTrainingSession.t) :
  schedule_leb a b = true <-> schedule_le a b.
Proof.
  unfold schedule_leb, schedule_le.
  rewrite orb_true_iff, andb_true_iff, Z.ltb_lt, Z.eqb_eq. reflexivity.
Qed.

Lemma schedule_le_total (a b : PersonalTrainingSession.t) :
  schedule_leb a b = false -> schedule_le b a.
Proof.
  unfold schedule_leb, schedule_le, time_leb. intro H.
  apply orb_false_iff in H. destruct H as [H1 H2].
  apply Z.ltb_ge in H1. apply andb_false_iff in H2.
  destruct H2 as [H2 | H2].
  - apply Z.eqb_neq in H2. left. lia.
  - apply Z.leb_gt in H2.
    destruct (Z.eq_dec (PersonalTrainingSession.SessionDate b)
                (PersonalTrainingSession.SessionDate a)) as [E | E].
    + right. split; [exact E | apply Z.leb_le; lia].
    + left. lia.
Qed.

Lemma schedule_le_trans (a b c : PersonalTrainingSession.t) :
  schedule_le a b -> schedule_le b c -> schedule_le a c.
Proof.
  unfold schedule_le, time_leb.
  intros [H1 | [H1 H1']] [H2 | [H2 H2']]; try (left; lia).
  right. split; [lia |]. apply Z.leb_le in H1', H2'. apply Z.leb_le. lia.
Qed.

Lemma place_permutation (x : PersonalTrainingSession.t) l :
  Permutation (place x l) (x :: l).
Proof.
  induction l as [| y l IH]; simpl; [reflexivity |].
  destruct (schedule_leb x y); [reflexivity |].
  rewrite IH. apply perm_swap.
Qed.

Lemma ordered_permutation l : Permutation (ordered l) l.
Proof.
  unfold ordered. induction l as [| x l IH]; simpl; [reflexivity |].
  rewrite place_permutation. constructor. exact IH.
Qed.

Lemma place_sorted (x : PersonalTrainingSession.t) l :
  StronglySorted schedule_le l -> StronglySorted schedule_le (place x l).
Proof.
  induction l as [| y l IH]; simpl; intro Hs.
  - repeat constructor.
  - inversion Hs as [| ? ? Hl Hy]; subst.
    destruct (schedule_leb x y) eqn:E.
    + apply schedule_leb_le in E. constructor; [exact Hs |].
      constructor; [exact E |].
      rewrite Forall_forall in *. intros z Hz.
      apply (schedule_le_trans x y z E), Hy, Hz.
    + apply schedule_le_total in E. constructor; [apply IH, Hl |].
      apply (Permutation_Forall (Permutation_sym (place_permutation x l))).
      constructor; assumption.
Qed.

Lemma ordered_sorted l : StronglySorted schedule_le (ordered l).
Proof.
  unfold ordered. induction l as [| x l IH]; simpl; [constructor |].
  apply place_sorted, IH.
Qed.

Lemma loaded_row {R} (tbl : Tables -> list R) (key : R -> Z) s (row : R) :
  tbl (working s) = tbl (committed s) ->
  NoDup (map key (tbl (committed s))) ->
  In row (tbl (committed s)) ->
  loaded tbl key s row = row.
Proof.
  intros Hs Hnd Hin. unfold loaded. rewrite Hs.
  destruct (find _ _) as [o |] eqn:E; [| reflexivity].
  apply find_some in E. destruct E as [Ho Hk]. apply Z.eqb_eq in Hk.
  apply (same_key_same_row key (tbl (committed s))); assumption.
Qed.

Lemma map_loaded {R} (tbl : Tables -> list R) (key : R -> Z) s (rows : list R) :
  tbl (working s) = tbl (committed s) ->
  NoDup (map key (tbl (committed s))) ->
  (forall r, In r rows -> In r (tbl (committed s))) ->
  map (loaded tbl key s) rows = rows.
Proof.
  intros Hs Hnd Hin. rewrite <- (map_id rows) at 2. apply map_ext_in.
  intros r Hr. apply loaded_row; auto.
Qed.

Lemma NoDup_map_filter {R} (key : R -> Z) (p : R -> bool) (rows : list R) :
  NoDup (map key rows) -> NoDup (map key (filter p rows)).
Proof.
  induction rows as [| x rows IH]; simpl; intro Hnd; [constructor |].
  inversion Hnd as [| ? ? Hx Hrest]; subst.
  destruct (p x); simpl; [| apply IH, Hrest].
  constructor; [| apply IH, Hrest].
  intro Hin. apply Hx. apply in_map_iff in Hin.
  destruct Hin as (y & Hy & Hin). apply filter_In in Hin.
  rewrite <- Hy. apply in_map, Hin.
Qed.

Lemma view_schedule_ok today trainer_id from_date s l s1 :
  view_schedule today trainer_id from_date s = (Ok l, s1) ->
  0 < trainer_id /\
  (exists t, find (fun t => Trainer.TrainerID t =? trainer_id)
               (Trainers (committed s)) = Some t) /\
  l = map (loaded Sessions PersonalTrainingSession.SessionID s)
        (ordered
           (filter
              (fun p =>
                 (PersonalTrainingSession.TrainerID p =? trainer_id) &&
                 (match from_date with Some d => d | None => today end
                  <=? PersonalTrainingSession.SessionDate p))
              (Sessions (committed s)))).
Proof.
  unfold view_schedule. intro H. ok_inv; bool_facts.
  all: match goal with
       | C : is_some (option_map _ _) = true |- _ => apply is_some_map in C
       end.
  all: unfold query_ordered in H; injection H as <- _.
  all: repeat split; assumption.
Qed.

(** X11. The schedule [view_schedule] returns is in order of date and,
    within a date, of start time; it holds each session of the trainer
    from the given date on (from today when none is given) and nothing
    else, each once. *)
Theorem view_schedule_sorted_and_complete
    (today : date) (trainer_id : Z) (from_date : option date)
    (s s1 : OrmSession) (l : list PersonalTrainingSession.t) :
  view_schedule today trainer_id from_date s = (Ok l, s1) ->
  sessions_wf s ->
  StronglySorted schedule_le l /\
  (forall p,
     In p l <->
     In p (Sessions (committed s)) /\
     PersonalTrainingSession.TrainerID p = trainer_id /\
     match from_date with Some d => d | None => today end
     <= PersonalTrainingSession.SessionDate p) /\
  NoDup (map PersonalTrainingSession.SessionID l).
Proof.
  intros H [Hs Hnd].
  destruct (view_schedule_ok _ _ _ _ _ _ H) as (_ & _ & ->).
  set (p := fun p => (PersonalTrainingSession.TrainerID p =? trainer_id) &&
                     (match from_date with Some d => d | None => today end
                      <=? PersonalTrainingSession.SessionDate p)).
  assert (Hperm : Permutation (ordered (filter p (Sessions (committed s))))
                    (filter p (Sessions (committed s))))
    by apply ordered_permutation.
  rewrite map_loaded; [| exact Hs | exact Hnd |].
  - split; [apply ordered_sorted |]. split.
    + intro x. rewrite (Permutation_in' (eq_refl x) Hperm), filter_In.
      unfold p. rewrite andb_true_iff, Z.eqb_eq, Z.leb_le. reflexivity.
    + apply (Permutation_NoDup (Permutation_map _ (Permutation_sym Hperm))).
      apply NoDup_map_filter, Hnd.
  - intros r Hr. apply (Permutation_in _ Hperm) in Hr.
    apply filter_In in Hr. apply Hr.
Qed.

Lemma view_schedule_sorted_and_complete_witness :
  exists l,
    view_schedule Sample.day 1 None (run Scenario.bookings Sample.start)
    = (Ok l, run Scenario.bookings Sample.start) /\
    map PersonalTrainingSession.SessionID l = [1; 2] /\
    StronglySorted schedule_le l.
Proof.
  destruct (view_schedule Sample.day 1 None
              (run Scenario.bookings Sample.start)) as [[l | e] s1] eqn:E;
    [| vm_compute in E; discriminate E].
  exists l.
  assert (Hs : s1 = run Scenario.bookings Sample.start)
    by (vm_compute in E; injection E as _ <-; vm_compute; reflexivity).
  rewrite Hs in *. split; [reflexivity |].
  split; [vm_compute in E; injection E as <-; reflexivity |].
  destruct (view_schedule_sorted_and_complete _ _ _ _ _ _ E
              (proj1 (run_sessions (fun _ => True) (fun _ _ _ _ _ => I)
                        Scenario.bookings Sample.start sample_sessions_wf I)))
    as (Hsorted & _ & _).
  exact Hsorted.
Defined.

(** X12. A session that has just been booked is on its trainer's
    schedule: [view_schedule] for that trainer, from any date up to the
    session's, succeeds and lists it. *)
Theorem booked_session_is_on_schedule
    (today : date) (member_id trainer_id : Z) (session_date : date)
    (start_time end_time : time) (room_id : option Z) (session_type : string)
    (duration_minutes max_capacity : option Z) (notes : option string)
    (s s1 : OrmSession) (v : PersonalTrainingSession.t)
    (today' : date) (from_date : option date) :
  schedule_pt_session today member_id trainer_id session_date start_time
    end_time room_id session_type duration_minutes max_capacity notes s
  = (Ok v, s1) ->
  sessions_wf s ->
  Trainers (working s) = Trainers (committed s) ->
  match from_date with
  | Some d => date_1900 <= d /\ d - today' <= 3650 /\ d <= session_date
  | None => today' <= session_date
  end ->
  exists l, view_schedule today' trainer_id from_date s1 = (Ok l, s1) /\ In v l.
Proof.
  intros H Hwf Htrainers Hfrom.
  pose proof (perform_sessions today
                (SchedulePtSession member_id trainer_id session_date
                   start_time end_time room_id session_type duration_minutes
                   max_capacity notes) s Hwf) as [[Hs1 Hnd1] _].
  simpl in Hs1, Hnd1. unfold outcome in Hs1, Hnd1. rewrite H in Hs1, Hnd1.
  cbn [snd] in Hs1, Hnd1.
  destruct (schedule_pt_session_passed _ _ _ _ _ _ _ _ _ _ _ _ _ _ H)
    as ((_ & Hpos & _) & _ & _ & (t & Ht) & _).
  destruct (schedule_pt_session_ok _ _ _ _ _ _ _ _ _ _ _ _ _ _ H)
    as (_ & _ & _ & Hv & Hs).
  assert (Hin : In v (Sessions (committed s1))).
  { rewrite Hs. cbn [clean committed with_Sessions Sessions]. unfold insert.
    apply in_or_app. right. simpl. auto. }
  assert (Htr : find (fun t => Trainer.TrainerID t =? trainer_id)
                  (Trainers (committed s1)) = Some t).
  { rewrite Hs. cbn [clean committed with_Sessions Trainers].
    rewrite Htrainers. exact Ht. }
  unfold view_schedule. rewrite bind_raise_if.
  destruct (Z.leb_spec trainer_id 0); [lia |].
  assert (Hdates : when_given from_date (fun d =>
                     raise_if (d <? date_1900) (TooFarInPast "Date") ;;
                     raise_if (3650 <? d - today') (TooFarInFuture "Date")) s1
                   = (Ok tt, s1)).
  { destruct from_date as [d |]; [| reflexivity]. cbn [when_given].
    rewrite bind_raise_if.
    destruct (Z.ltb_spec d date_1900); [lia |].
    unfold raise_if. destruct (Z.ltb_spec 3650 (d - today')); [lia |].
    reflexivity. }
  rewrite bind_unfold, Hdates, bind_query_first, Htr. cbn [option_map].
  rewrite bind_raise_if. cbn [is_some negb].
  unfold query_ordered. eexists. split; [reflexivity |].
  apply in_map_iff. exists v. split.
  - apply loaded_row; assumption.
  - apply (Permutation_in _ (Permutation_sym (ordered_permutation _))).
    apply filter_In. split; [exact Hin |].
    rewrite Hv.
    cbn [PersonalTrainingSession.TrainerID PersonalTrainingSession.SessionDate].
    rewrite Z.eqb_refl. apply Z.leb_le.
    destruct from_date; lia.
Qed.

Lemma booked_session_is_on_schedule_witness :
  exists v s1 l,
    schedule_pt_session Sample.day 2 1 (Sample.day + 3) (Sample.at_ 9 0)
      (Sample.at_ 10 0) None "Personal Training" None None None Sample.start
    = (Ok v, s1) /\
    view_schedule (Sample.day + 1) 1 (Some (Sample.day + 2)) s1 = (Ok l, s1) /\
    In v l.
Proof.
  destruct (schedule_pt_session Sample.day 2 1 (Sample.day + 3)
              (Sample.at_ 9 0) (Sample.at_ 10 0) None "Personal Training" None
              None None Sample.start) as [[v | e] s1] eqn:E;
    [| vm_compute in E; discriminate E].
  destruct (booked_session_is_on_schedule _ _ _ _ _ _ _ _ _ _ _ _ _ _
              (Sample.day + 1) (Some (Sample.day + 2)) E)
    as (l & Hl & Hin).
  - apply sample_sessions_wf.
  - reflexivity.
  - vm_compute. repeat split; discriminate.
  - exists v, s1, l. auto.
Defined.

(** ** Text *)

Lemma lower_char_idem (c : ascii) :
  Text.lower_char (Text.lower_char c) = Text.lower_char c.
Proof. destruct c as [[] [] [] [] [] [] [] []]; reflexivity. Qed.

Lemma is_space_lower (c : ascii) :
  Text.is_space (Text.lower_char c) = Text.is_space c.
Proof. destruct c as [[] [] [] [] [] [] [] []]; reflexivity. Qed.

Lemma lower_app (a b : string) :
  Text.lower (a ++ b) = (Text.lower a ++ Text.lower b)%string.
Proof.
  unfold Text.lower. induction a as [| c a IH]; simpl; [reflexivity |].
  rewrite IH. reflexivity.
Qed.

Lemma lower_idem (s : string) : Text.lower (Text.lower s) = Text.lower s.
Proof.
  unfold Text.lower. induction s as [| c s IH]; simpl; [reflexivity |].
  rewrite lower_char_idem, IH. reflexivity.
Qed.

Lemma lower_length (s : string) : String.length (Text.lower s) = String.length s.
Proof.
  unfold Text.lower. induction s as [| c s IH]; simpl; [reflexivity |].
  rewrite IH. reflexivity.
Qed.

Lemma lower_empty (s : string) :
  String.eqb (Text.lower s) "" = String.eqb s "".
Proof. destruct s; reflexivity. Qed.

Lemma lstrip_lower (s : string) :
  Text.lstrip (Text.lower s) = Text.lower (Text.lstrip s).
Proof.
  unfold Text.lower. induction s as [| c s IH]; simpl; [reflexivity |].
  rewrite is_space_lower. destruct (Text.is_space c); [exact IH | reflexivity].
Qed.

Lemma rstrip_lower (s : string) :
  Text.rstrip (Text.lower s) = Text.lower (Text.rstrip s).
Proof.
  unfold Text.lower. induction s as [| c s IH]; simpl; [reflexivity |].
  rewrite IH, is_space_lower.
  destruct (Text.rstrip s); simpl; [destruct (Text.is_space c) |]; reflexivity.
Qed.

Lemma strip_lower (s : string) :
  Text.strip (Text.lower s) = Text.lower (Text.strip s).
Proof. unfold Text.strip. rewrite lstrip_lower, rstrip_lower. reflexivity. Qed.

Lemma blank_lower (s : string) : Text.blank (Text.lower s) = Text.blank s.
Proof.
  unfold Text.blank. rewrite strip_lower, !lower_empty. reflexivity.
Qed.

Lemma longer_than_lower (s : string) (n : nat) :
  Text.longer_than (Text.lower s) n = Text.longer_than s n.
Proof. unfold Text.longer_than. rewrite lower_length. reflexivity. Qed.

(** ** The search ignores case *)

Lemma eqb_lower_mark (x c : ascii) :
  Text.has_char c ";-/*%" = true ->
  Ascii.eqb (Text.lower_char x) c = Ascii.eqb x c.
Proof.
  cbn [Text.has_char]. rewrite !orb_true_iff, !Ascii.eqb_eq.
  intros [<- | [<- | [<- | [<- | [<- | H]]]]]; [| | | | | discriminate];
    destruct x as [[] [] [] [] [] [] [] []]; reflexivity.
Qed.

Lemma drop_char_lower (c : ascii) (s : string) :
  Text.has_char c ";-/*%" = true ->
  Search.drop_char c (Text.lower s) = Text.lower (Search.drop_char c s).
Proof.
  intro Hc. unfold Text.lower. induction s as [| x s IH]; simpl; [reflexivity |].
  rewrite (eqb_lower_mark x c Hc).
  destruct (Ascii.eqb x c); simpl; rewrite IH; reflexivity.
Qed.

Lemma drop_pair_lower (a b : ascii) (s : string) :
  Text.has_char a ";-/*%" = true -> Text.has_char b ";-/*%" = true ->
  Search.drop_pair a b (Text.lower s) = Text.lower (Search.drop_pair a b s).
Proof.
  intros Ha Hb. unfold Text.lower.
  assert (H : forall n s, (String.length s <= n)%nat ->
                Search.drop_pair a b (Text.map_chars Text.lower_char s)
                = Text.map_chars Text.lower_char (Search.drop_pair a b s)).
  { induction n as [| n IH]; intros [| x [| y r]] Hn; simpl in *;
      try reflexivity; try lia.
    rewrite (eqb_lower_mark x a Ha), (eqb_lower_mark y b Hb).
    destruct (Ascii.eqb x a && Ascii.eqb y b).
    - apply IH. lia.
    - simpl. f_equal. apply (IH (String y r)). simpl. lia. }
  apply (H (String.length s)). lia.
Qed.

Lemma words_lower (s cur : string) :
  Search.words (Text.lower s) (Text.lower cur)
  = map Text.lower (Search.words s cur).
Proof.
  revert cur. induction s as [| c s IH]; intro cur; simpl.
  - rewrite lower_empty. destruct (String.eqb cur ""); reflexivity.
  - rewrite is_space_lower, lower_empty.
    destruct (Text.is_space c).
    + destruct (String.eqb cur ""); simpl; rewrite <- (IH ""); reflexivity.
    + rewrite <- IH, lower_app. reflexivity.
Qed.

Lemma wrap_lower (s : string) :
  Text.lower (Search.wrap s) = Search.wrap (Text.lower s).
Proof. unfold Search.wrap. rewrite !lower_app. reflexivity. Qed.

Lemma ilike_lower (text pattern : string) :
  Search.ilike text (Search.wrap (Text.lower pattern))
  = Search.ilike text (Search.wrap pattern).
Proof.
  unfold Search.ilike. rewrite !wrap_lower, lower_idem. reflexivity.
Qed.

Lemma hd_lower (l : list string) :
  hd "" (map Text.lower l) = Text.lower (hd "" l).
Proof. destruct l; reflexivity. Qed.

Lemma last_lower (l : list string) :
  last (map Text.lower l) "" = Text.lower (last l "").
Proof.
  induction l as [| x [| y l] IH]; try reflexivity.
  exact IH.
Qed.

Lemma name_filter_lower (c : string) (m : Member.t) :
  Search.name_filter (Text.lower c) m = Search.name_filter c m.
Proof.
  unfold Search.name_filter.
  change (Search.words (Text.lower c) "")
    with (Search.words (Text.lower c) (Text.lower "")).
  rewrite words_lower, length_map, hd_lower, last_lower, !ilike_lower.
  reflexivity.
Qed.

Lemma clean_term_lower (q : string) :
  Search.drop_pair "*" "/" (Search.drop_pair "/" "*" (Search.drop_pair "-" "-"
    (Search.drop_char ";" (Text.strip (Text.lower q)))))
  = Text.lower
      (Search.drop_pair "*" "/" (Search.drop_pair "/" "*"
         (Search.drop_pair "-" "-" (Search.drop_char ";" (Text.strip q))))).
Proof.
  rewrite strip_lower, drop_char_lower, !drop_pair_lower; reflexivity.
Qed.

Lemma lookup_member_lower (q : string) (s : OrmSession) :
  Search.lookup_member (Text.lower q) s = Search.lookup_member q s.
Proof.
  unfold Search.lookup_member.
  rewrite blank_lower, longer_than_lower, clean_term_lower.
  cbv [bind query_ordered].
  destruct (raise_if (Text.blank q) _ s) as [[u | e] s1]; [| reflexivity].
  destruct (raise_if (Text.longer_than q 100) _ s1) as [[u' | e] s2];
    [| reflexivity].
  rewrite (filter_ext _ _ (name_filter_lower _)). reflexivity.
Qed.

(** X13. [lookup_member] ignores the letter case of the search term:
    two terms that differ only in case give the same result on every
    session. *)
Theorem lookup_member_ignores_case (q q' : string) (s : OrmSession) :
  Text.lower q = Text.lower q' ->
  Search.lookup_member q s = Search.lookup_member q' s.
Proof.
  intro H. rewrite <- (lookup_member_lower q), <- (lookup_member_lower q'), H.
  reflexivity.
Qed.

Lemma lookup_member_ignores_case_witness :
  Search.lookup_member "aLiCe" Sample.start
  = Search.lookup_member "ALICE" Sample.start /\
  map (fun h => Member.MemberID (Search.member h))
    (match fst (Search.lookup_member "ALICE" Sample.start) with
     | Ok hits => hits
     | Raise _ => []
     end) = [1].
Proof.
  split; [| vm_compute; reflexivity].
  apply (lookup_member_ignores_case "aLiCe" "ALICE" Sample.start).
  reflexivity.
Defined.

(** ** The latest goal and metric of a hit *)

Lemma latest_spec {R} (key : R -> option date) (rows : list R) :
  match Search.latest key rows with
  | None => rows = []
  | Some r =>
      In r rows /\
      forall b, key r = Some b ->
        forall r', In r' rows -> exists a, key r' = Some a /\ a <= b
  end.
Proof.
  induction rows as [| x rest IH]; simpl; [reflexivity |].
  destruct (Search.latest key rest) as [best |].
  - destruct IH as [Hin Hmax].
    destruct (key x) as [a |] eqn:Ex.
    + destruct (key best) as [b |] eqn:Eb.
      * destruct (Z.leb_spec b a).
        -- split; [auto |]. intros b' Hb' r' [<- | Hr'].
           ++ exists a. split; [exact Ex |]. rewrite Ex in Hb'.
              injection Hb' as <-. lia.
           ++ destruct (Hmax b eq_refl r' Hr') as (a' & Ha' & Hle).
              exists a'. split; [exact Ha' |]. rewrite Ex in Hb'.
              injection Hb' as <-. lia.
        -- split; [auto |]. intros b' Hb' r' [<- | Hr'].
           ++ exists a. split; [exact Ex |]. rewrite Eb in Hb'.
              injection Hb' as <-. lia.
           ++ rewrite Eb in Hb'. apply (Hmax b' Hb' r' Hr').
      * split; [auto |]. intros b' Hb'. rewrite Eb in Hb'. discriminate.
    + split; [auto |]. intros b' Hb'. rewrite Ex in Hb'. discriminate.
  - subst rest. split; [auto |]. intros b Hb r' [<- | []]. exists b.
    split; [exact Hb | lia].
Qed.

Lemma lookup_member_ok (q : string) (s s1 : OrmSession) (hits : list Search.hit) :
  Search.lookup_member q s = (Ok hits, s1) ->
  exists c,
    hits =
    map (fun m =>
           Search.mk_hit m
             (option_map (loaded FitnessGoals FitnessGoal.GoalID s)
                (Search.latest FitnessGoal.SetDate
                   (filter (fun g => FitnessGoal.MemberID g
                                     =? Member.MemberID m)
                      (FitnessGoals (committed s)))))
             (option_map (loaded HealthMetrics HealthMetric.HealthMetricID s)
                (Search.latest (fun h => Some (HealthMetric.RecordedDate h))
                   (filter (fun h => HealthMetric.MemberID h
                                     =? Member.MemberID m)
                      (HealthMetrics (committed s))))))
      (map (loaded Members Member.MemberID s)
         (firstn 100 (filter (Search.name_filter c) (Members (committed s))))) /\
    c = Search.drop_pair "*" "/" (Search.drop_pair "/" "*"
          (Search.drop_pair "-" "-" (Search.drop_char ";" (Text.strip q)))) /\
    Text.blank q = false /\ Text.longer_than q 100 = false.
Proof.
  unfold Search.lookup_member. intro H.
  apply bind_ok in H. destruct H as (? & ? & E1 & H).
  apply raise_if_ok in E1. destruct E1 as [E1 ->].
  apply bind_ok in H. destruct H as (? & ? & E2 & H).
  apply raise_if_ok in E2. destruct E2 as [E2 ->].
  apply bind_ok in H. destruct H as (members & ? & E3 & H).
  unfold query_ordered in E3. injection E3 as <- <-.
  injection H as <- _.
  eexists. split; [reflexivity |]. split; [reflexivity |]. split; assumption.
Qed.

(** X14. Every hit of [lookup_member] carries the member's latest health
    metric and latest goal: the metric is one of the member's rows and no
    row of the member has a later recorded date; a hit has no metric only
    when the member has none; and likewise for the goal and its set date.
    At most 100 hits are returned. *)
Theorem lookup_member_latest
    (q : string) (s s1 : OrmSession) (hits : list Search.hit)
    (h : Search.hit) :
  Search.lookup_member q s = (Ok hits, s1) -> In h hits ->
  let id := Member.MemberID (Search.member h) in
  (length hits <= 100)%nat /\
  match Search.latest_metric h with
  | Some x =>
      exists row, In row (HealthMetrics (committed s)) /\
        HealthMetric.HealthMetricID x = HealthMetric.HealthMetricID row /\
        HealthMetric.MemberID row = id /\
        forall r, In r (HealthMetrics (committed s)) ->
                  HealthMetric.MemberID r = id ->
                  HealthMetric.RecordedDate r <= HealthMetric.RecordedDate row
  | None =>
      forall r, In r (HealthMetrics (committed s)) ->
                HealthMetric.MemberID r <> id
  end /\
  match Search.latest_goal h with
  | Some x =>
      exists row, In row (FitnessGoals (committed s)) /\
        FitnessGoal.GoalID x = FitnessGoal.GoalID row /\
        FitnessGoal.MemberID row = id /\
        forall b, FitnessGoal.SetDate row = Some b ->
          forall r, In r (FitnessGoals (committed s)) ->
                    FitnessGoal.MemberID r = id ->
                    exists a, FitnessGoal.SetDate r = Some a /\ a <= b
  | None =>
      forall r, In r (FitnessGoals (committed s)) ->
                FitnessGoal.MemberID r <> id
  end.
Proof.
  intros H Hin id.
  destruct (lookup_member_ok _ _ _ _ H) as (c & -> & _).
  split.
  { rewrite !length_map. apply firstn_le_length. }
  apply in_map_iff in Hin. destruct Hin as (m & <- & _).
  cbn [Search.member Search.latest_metric Search.latest_goal] in *.
  subst id. split.
  - pose proof (latest_spec (fun h => Some (HealthMetric.RecordedDate h))
                  (filter (fun h => HealthMetric.MemberID h
                                    =? Member.MemberID m)
                     (HealthMetrics (committed s)))) as L.
    destruct (Search.latest _ _) as [row |]; cbn [option_map].
    + destruct L as [Hrow Hmax]. apply filter_In in Hrow.
      destruct Hrow as [Hrow Hk]. apply Z.eqb_eq in Hk.
      exists row. split; [exact Hrow |]. split; [apply loaded_key |].
      split; [exact Hk |]. intros r Hr Hrk.
      destruct (Hmax _ eq_refl r) as (a & [= <-] & Hle); [| exact Hle].
      apply filter_In. split; [exact Hr | apply Z.eqb_eq, Hrk].
    + intros r Hr Hk.
      assert (Hf : In r (filter (fun h => HealthMetric.MemberID h
                                          =? Member.MemberID m)
                           (HealthMetrics (committed s))))
        by (apply filter_In; split; [exact Hr | apply Z.eqb_eq, Hk]).
      rewrite L in Hf. exact Hf.
  - pose proof (latest_spec FitnessGoal.SetDate
                  (filter (fun g => FitnessGoal.MemberID g
                                    =? Member.MemberID m)
                     (FitnessGoals (committed s)))) as L.
    destruct (Search.latest _ _) as [row |]; cbn [option_map].
    + destruct L as [Hrow Hmax]. apply filter_In in Hrow.
      destruct Hrow as [Hrow Hk]. apply Z.eqb_eq in Hk.
      exists row. split; [exact Hrow |]. split; [apply loaded_key |].
      split; [exact Hk |]. intros b Hb r Hr Hrk.
      apply (Hmax b Hb r).
      apply filter_In. split; [exact Hr | apply Z.eqb_eq, Hrk].
    + intros r Hr Hk.
      assert (Hf : In r (filter (fun g => FitnessGoal.MemberID g
                                          =? Member.MemberID m)
                           (FitnessGoals (committed s))))
        by (apply filter_In; split; [exact Hr | apply Z.eqb_eq, Hk]).
      rewrite L in Hf. exact Hf.
Qed.

Lemma lookup_member_latest_witness :
  exists hits h s1,
    Search.lookup_member "ali" Measured.session = (Ok hits, s1) /\
    In h hits /\
    match Search.latest_metric h with
    | Some x =>
        exists row, In row (HealthMetrics (committed Measured.session)) /\
          HealthMetric.HealthMetricID x = HealthMetric.HealthMetricID row /\
          HealthMetric.RecordedDate row = Sample.day
    | None => False
    end.
Proof.
  destruct (Search.lookup_member "ali" Measured.session)
    as [[[| h hits] | e] s1] eqn:E;
    [vm_compute in E; discriminate E | | vm_compute in E; discriminate E].
  exists (h :: hits), h, s1. split; [reflexivity |].
  split; [left; reflexivity |].
  destruct (lookup_member_latest _ _ _ _ h E (or_introl eq_refl))
    as (_ & Hmetric & _).
  assert (Hh : Search.latest_metric h
               = Some (HealthMetric.mk 2 1 Sample.day None
                         (Some (Finite 65)) None (Some 61) None))
    by (vm_compute in E; injection E as <- _ _; reflexivity).
  rewrite Hh in *.
  destruct Hmetric as (row & Hrow & Hid & Hmember & Hmax).
  exists row. split; [exact Hrow |]. split; [exact Hid |].
  assert (Hrows : HealthMetrics (committed Measured.session)
                  = [ HealthMetric.mk 1 1 (Sample.day - 2) None
                        (Some (Finite 66)) None None None;
                      HealthMetric.mk 2 1 Sample.day None (Some (Finite 65))
                        None (Some 61) None ])
    by (vm_compute; reflexivity).
  rewrite Hrows in Hrow. simpl in Hrow, Hid.
  destruct Hrow as [<- | [<- | []]]; [discriminate Hid | reflexivity].
Defined.

(** ** What the search pattern matches *)

Lemma like_percent (p s : string) :
  Search.like (String "%" p) s
  = Search.like p s ||
    match s with
    | EmptyString => false
    | String _ r => Search.like (String "%" p) r
    end.
Proof. destruct s; reflexivity. Qed.

Lemma like_any (s : string) : Search.like "%" s = true.
Proof.
  induction s as [| a s IH]; rewrite like_percent; [reflexivity |].
  rewrite IH. apply orb_true_r.
Qed.

Lemma like_plain (c : ascii) (p s : string) :
  Text.has_char c "%_\" = false ->
  Search.like (String c p) s
  = match s with
    | EmptyString => false
    | String a r => Ascii.eqb a c && Search.like p r
    end.
Proof.
  cbn [Text.has_char]. rewrite !orb_false_iff. intros (H1 & H2 & H3 & _).
  rewrite Ascii.eqb_sym in H1, H2, H3.
  cbn [Search.like]. rewrite H1, H2, H3. reflexivity.
Qed.

Lemma like_plain_prefix (c p s : string) :
  all_chars (fun a => negb (Text.has_char a "%_\")) c = true ->
  Search.like (c ++ p) s = true <->
  exists r, s = (c ++ r)%string /\ Search.like p r = true.
Proof.
  revert s. induction c as [| a c IH]; intros s Hc.
  - simpl. split; [intro H; exists s; auto | intros (r & -> & H); exact H].
  - cbn [all_chars] in Hc. apply andb_prop in Hc. destruct Hc as [Ha Hc].
    apply negb_true_iff in Ha.
    change (String a c ++ p)%string with (String a (c ++ p)).
    rewrite (like_plain a _ s Ha). destruct s as [| b s].
    + split; [discriminate | intros (r & Hr & _); discriminate].
    + rewrite andb_true_iff, Ascii.eqb_eq, (IH s Hc). split.
      * intros (-> & r & -> & H). exists r. auto.
      * intros (r & [= -> ->] & H). split; [reflexivity | exists r; auto].
Qed.

Lemma like_percent_iff (p s : string) :
  Search.like (String "%" p) s = true <->
  exists pre r, s = (pre ++ r)%string /\ Search.like p r = true.
Proof.
  induction s as [| a s IH]; rewrite like_percent, orb_true_iff.
  - split.
    + intros [H | H]; [exists "", ""; auto | discriminate].
    + intros (pre & r & Hs & H). left.
      destruct pre; [simpl in Hs; subst r; exact H | discriminate].
  - rewrite IH. split.
    + intros [H | (pre & r & -> & H)].
      * exists "", (String a s). auto.
      * exists (String a pre), r. auto.
    + intros ([| b pre] & r & Hs & H).
      * left. simpl in Hs. subst r. exact H.
      * right. injection Hs as -> ->. exists pre, r. auto.
Qed.

Lemma like_wrap (c s : string) :
  all_chars (fun a => negb (Text.has_char a "%_\")) c = true ->
  Search.like (Search.wrap c) s = true <->
  exists pre post, s = (pre ++ c ++ post)%string.
Proof.
  intro Hc. unfold Search.wrap.
  change ("%" ++ c ++ "%")%string with (String "%" (c ++ "%")).
  rewrite like_percent_iff. split.
  - intros (pre & r & -> & H). apply (like_plain_prefix c "%" r Hc) in H.
    destruct H as (post & -> & _). exists pre, post. reflexivity.
  - intros (pre & post & ->). exists pre, (c ++ post)%string.
    split; [reflexivity |]. apply (like_plain_prefix c "%" _ Hc).
    exists post. split; [reflexivity | apply like_any].
Qed.

Lemma all_chars_weaken (p p' : ascii -> bool) (s : string) :
  (forall c, p c = true -> p' c = true) ->
  all_chars p s = true -> all_chars p' s = true.
Proof.
  intro Hp. induction s as [| c s IH]; simpl; [reflexivity |].
  intro H. apply andb_prop in H. destruct H as [Hc Hs].
  rewrite (Hp c Hc), (IH Hs). reflexivity.
Qed.

Lemma plain_char_lower (c : ascii) :
  plain_char c = true -> plain_char (Text.lower_char c) = true.
Proof. destruct c as [[] [] [] [] [] [] [] []]; intro H; exact H. Qed.

Lemma all_plain_lower (s : string) :
  all_chars plain_char s = true -> all_chars plain_char (Text.lower s) = true.
Proof.
  unfold Text.lower. induction s as [| c s IH]; simpl; [reflexivity |].
  intro H. apply andb_prop in H. destruct H as [Hc Hs].
  rewrite (plain_char_lower c Hc), (IH Hs). reflexivity.
Qed.

Lemma plain_not_space (c : ascii) : plain_char c = true -> Text.is_space c = false.
Proof.
  unfold plain_char. intro H. apply andb_prop in H. destruct H as [H _].
  apply negb_true_iff, H.
Qed.

Lemma plain_not_mark (c m : ascii) :
  plain_char c = true -> Text.has_char m "%_\;-/*" = true ->
  Ascii.eqb c m = false.
Proof.
  unfold plain_char. intros H Hm. apply andb_prop in H. destruct H as [_ H].
  apply negb_true_iff in H. revert H Hm. cbn [Text.has_char].
  rewrite !orb_false_iff, !orb_true_iff, !Ascii.eqb_eq.
  intros (H1 & H2 & H3 & H4 & H5 & H6 & H7 & _)
    [<- | [<- | [<- | [<- | [<- | [<- | [<- | H]]]]]]];
    try discriminate; rewrite Ascii.eqb_sym; assumption.
Qed.

Lemma rstrip_plain (s : string) :
  all_chars plain_char s = true -> Text.rstrip s = s.
Proof.
  induction s as [| c s IH]; simpl; [reflexivity |].
  intro H. apply andb_prop in H. destruct H as [Hc Hs].
  rewrite (IH Hs), (plain_not_space c Hc). destruct s; reflexivity.
Qed.

Lemma strip_plain (s : string) :
  all_chars plain_char s = true -> Text.strip s = s.
Proof.
  intro H. unfold Text.strip.
  replace (Text.lstrip s) with s; [apply rstrip_plain, H |].
  destruct s as [| c s]; [reflexivity |]. simpl in *.
  apply andb_prop in H. destruct H as [Hc _].
  rewrite (plain_not_space c Hc). reflexivity.
Qed.

Lemma drop_char_plain (m : ascii) (s : string) :
  Text.has_char m "%_\;-/*" = true ->
  all_chars plain_char s = true -> Search.drop_char m s = s.
Proof.
  intro Hm. induction s as [| c s IH]; simpl; [reflexivity |].
  intro H. apply andb_prop in H. destruct H as [Hc Hs].
  rewrite (plain_not_mark c m Hc Hm), (IH Hs). reflexivity.
Qed.

Lemma drop_pair_plain (a b : ascii) (s : string) :
  Text.has_char a "%_\;-/*" = true ->
  all_chars plain_char s = true -> Search.drop_pair a b s = s.
Proof.
  intro Ha. induction s as [| c s IH]; [reflexivity |].
  intro H. cbn [all_chars] in H. apply andb_prop in H. destruct H as [Hc Hs].
  cbn [Search.drop_pair]. destruct s as [| d s]; [reflexivity |].
  rewrite (plain_not_mark c a Hc Ha). cbn [andb]. rewrite (IH Hs).
  reflexivity.
Qed.

Lemma words_plain (s cur : string) :
  all_chars plain_char s = true -> (cur ++ s)%string <> "" ->
  Search.words s cur = [(cur ++ s)%string].
Proof.
  revert cur. induction s as [| c s IH]; intros cur H Hne; simpl.
  - assert (E : (cur ++ "")%string = cur)
      by (clear; induction cur as [| a cur IH]; simpl; [| rewrite IH];
          reflexivity).
    rewrite E in *. destruct (String.eqb_spec cur ""); [contradiction |].
    reflexivity.
  - simpl in H. apply andb_prop in H. destruct H as [Hc Hs].
    rewrite (plain_not_space c Hc).
    assert (E : ((cur ++ String c "") ++ s)%string = (cur ++ String c s)%string)
      by (clear; induction cur as [| a cur IH]; simpl; [| rewrite IH];
          reflexivity).
    rewrite (IH _ Hs); rewrite E; [reflexivity | exact Hne].
Qed.

Lemma ilike_wrap_plain (text q : string) :
  all_chars plain_char q = true ->
  Search.ilike text (Search.wrap q) = true <-> name_contains q text.
Proof.
  intro Hq. unfold Search.ilike, name_contains. rewrite wrap_lower.
  apply like_wrap. apply (all_chars_weaken plain_char); [| apply all_plain_lower, Hq].
  intros c Hc. apply negb_true_iff. cbn [Text.has_char].
  rewrite !orb_false_iff, !(Ascii.eqb_sym _ c),
    !(plain_not_mark c) by (exact Hc || reflexivity).
  auto.
Qed.

Lemma name_filter_plain (q : string) (m : Member.t) :
  all_chars plain_char q = true -> q <> "" ->
  Search.name_filter q m = true <->
  name_contains q (Member.FirstName m) \/ name_contains q (Member.LastName m).
Proof.
  intros Hq Hne. unfold Search.name_filter.
  rewrite (words_plain q "" Hq Hne). cbn [List.length Nat.leb].
  rewrite orb_true_iff, !(ilike_wrap_plain _ q Hq). reflexivity.
Qed.

Lemma in_firstn {R} (n : nat) (l : list R) (x : R) :
  In x (firstn n l) -> In x l.
Proof.
  intro H. rewrite <- (firstn_skipn n l). apply in_or_app. auto.
Qed.

(** X15. For a search term made of one plain word (no white space, no
    [%], [_], backslash, [;], [-], [/] or [*]) of at most 100 characters,
    [lookup_member] succeeds, and its hits are members whose first or last
    name contains the term, letter case ignored; when the club has at most
    100 members, every such member is among the hits. *)
Theorem lookup_member_by_word (q : string) (s : OrmSession) :
  all_chars plain_char q = true -> q <> "" ->
  (String.length q <= 100)%nat ->
  exists hits,
    Search.lookup_member q s = (Ok hits, s) /\
    (forall h, In h hits ->
       exists row,
         In row (Members (committed s)) /\
         Search.member h = loaded Members Member.MemberID s row /\
         (name_contains q (Member.FirstName row) \/
          name_contains q (Member.LastName row))) /\
    ((List.length (Members (committed s)) <= 100)%nat ->
     forall row,
       In row (Members (committed s)) ->
       name_contains q (Member.FirstName row) \/
       name_contains q (Member.LastName row) ->
       exists h, In h hits /\
                 Search.member h = loaded Members Member.MemberID s row).
Proof.
  intros Hq Hne Hlen.
  destruct (Search.lookup_member q s) as [[hits | e] s1] eqn:E.
  - pose proof (lookup_member_preserves q s) as Hs. rewrite E in Hs.
    simpl in Hs. subst s1.
    destruct (lookup_member_ok _ _ _ _ E) as (c & Hhits & Hc & _).
    rewrite (strip_plain q Hq), (drop_char_plain ";" q eq_refl Hq),
      !(drop_pair_plain _ _ q) in Hc by (reflexivity || exact Hq).
    subst c. exists hits. split; [reflexivity |]. split.
    + intros h Hh. rewrite Hhits in Hh. apply in_map_iff in Hh.
      destruct Hh as (m & <- & Hm). apply in_map_iff in Hm.
      destruct Hm as (row & <- & Hrow). apply in_firstn in Hrow.
      apply filter_In in Hrow. destruct Hrow as [Hrow Hmatch].
      exists row. split; [exact Hrow |]. split; [reflexivity |].
      apply (name_filter_plain q row Hq Hne), Hmatch.
    + intros Hsmall row Hrow Hmatch.
      assert (Hin : In (loaded Members Member.MemberID s row)
                      (map Search.member hits)).
      { rewrite Hhits, map_map. cbn [Search.member]. rewrite map_id.
        apply in_map. rewrite firstn_all2.
        - apply filter_In. split; [exact Hrow |].
          apply (name_filter_plain q row Hq Hne), Hmatch.
        - etransitivity; [apply filter_length_le | exact Hsmall]. }
      apply in_map_iff in Hin. destruct Hin as (h & Hm & Hh).
      exists h. auto.
  - exfalso. revert E. unfold Search.lookup_member.
    rewrite bind_raise_if.
    replace (Text.blank q) with false.
    + rewrite bind_raise_if. unfold Text.longer_than.
      destruct (Nat.ltb_spec 100 (String.length q)); [lia |].
      cbv [bind query_ordered]. discriminate.
    + unfold Text.blank. rewrite (strip_plain q Hq).
      destruct (String.eqb_spec q ""); [contradiction | reflexivity].
Qed.

Lemma lookup_member_by_word_witness :
  exists hits,
    Search.lookup_member "SON" Sample.start = (Ok hits, Sample.start) /\
    map (fun h => Member.LastName (Search.member h)) hits = ["Johnson"].
Proof.
  destruct (lookup_member_by_word "SON" Sample.start)
    as (hits & Hcall & _); [reflexivity | discriminate | simpl; lia |].
  exists hits. split; [exact Hcall |].
  vm_compute in Hcall. injection Hcall as <-. reflexivity.
Defined.

(** ** What a successful registration checked and stored *)

Lemma register_member_passed today f l e d g p a st s m s1 :
  register_member today f l e d g p a st s = (Ok m, s1) ->
  m = Member.mk (next_id Member.MemberID (Members (working s)))
        (Text.strip f) (Text.strip l) d (upper_or_none g)
        (Text.lower (Text.strip e)) (Text.strip_or_none p)
        (Text.strip_or_none a) (Some today) (Some st) /\
  s1 = clean (with_Members (insert m) (working s)) /\
  (Text.blank f = false /\ Text.blank l = false /\
   Text.longer_than f 50 = false /\ Text.longer_than l 50 = false /\
   Text.longer_than e 100 = false /\
   Text.has_char "@" e = true /\
   Text.has_char "." (Text.after_last "@" e) = true) /\
  (forall d0, d = Some d0 ->
     d0 <= today /\ 13 <= (today - d0) / 365 <= 120) /\
  bad_gender g = false /\
  Text.one_of st membership_statuses = true /\
  unique_ok (with_Members (insert m) (working s)) = true /\
  widths_ok (with_Members (insert m) (working s)) = true.
Proof.
  unfold register_member. intro H.
  ok_inv;
    (apply try_except_ok in H; [| intros e0 s0; destruct e0; reflexivity]);
    ok_inv; cbn [working committed clean with_Members Members] in *.
  all: rewrite find_inserted by reflexivity.
  all: bool_facts.
  all: split; [reflexivity |]; split; [reflexivity |].
  all: split; [repeat split; assumption |].
  all: split;
    [ intros d1 Hd; first [discriminate Hd | injection Hd as <-; lia] |].
  all: repeat split; assumption.
Qed.

Lemma lstrip_length (s : string) :
  (String.length (Text.lstrip s) <= String.length s)%nat.
Proof.
  induction s as [| c s IH]; simpl; [lia |].
  destruct (Text.is_space c); simpl; lia.
Qed.

Lemma rstrip_length (s : string) :
  (String.length (Text.rstrip s) <= String.length s)%nat.
Proof.
  induction s as [| c s IH]; simpl; [lia |].
  destruct (Text.rstrip s); [destruct (Text.is_space c) |]; simpl in *; lia.
Qed.

Lemma strip_length (s : string) :
  (String.length (Text.strip s) <= String.length s)%nat.
Proof.
  unfold Text.strip.
  pose proof (rstrip_length (Text.lstrip s)). pose proof (lstrip_length s). lia.
Qed.

Lemma not_blank (s : string) : Text.blank s = false -> Text.strip s <> "".
Proof.
  unfold Text.blank. intro H. apply orb_false_iff in H. destruct H as [_ H].
  apply String.eqb_neq, H.
Qed.

Lemma upper_empty (s : string) : Text.upper s = "" -> s = "".
Proof. destruct s; [reflexivity | discriminate]. Qed.

Lemma stored_gender (g : option string) :
  bad_gender g = false ->
  upper_or_none g = None \/ upper_or_none g = Some "M" \/
  upper_or_none g = Some "F" \/ upper_or_none g = Some "O".
Proof.
  destruct g as [g |]; [| auto]. unfold bad_gender, upper_or_none.
  destruct (String.eqb_spec g "") as [E | E]; [auto |].
  cbn [negb andb]. intro H. apply negb_false_iff in H.
  unfold Text.one_of in H. cbn [existsb] in H.
  rewrite !orb_true_iff, !String.eqb_eq in H.
  destruct H as [H | [H | [H | [H | H]]]]; try (rewrite H; auto).
  - apply upper_empty in H. contradiction.
  - discriminate.
Qed.

Lemma distinct_fresh (l : list string) (x : string) :
  distinct (l ++ [x]) = true -> ~ In x l.
Proof.
  intros H Hin. rewrite (distinct_repeat l x Hin) in H. discriminate.
Qed.

(** X16. A member [register_member] creates is stored normalised: names
    trimmed, not empty and at most 50 characters; the email trimmed and
    lower-cased, with an [@] and a dot after the last [@] in what was
    typed; the gender absent or one of M, F, O in upper case; the join
    date today; and the status one of the four admitted.  The member gets
    an id and an email no member had, is appended to the table, and is
    found again under its id. *)
Theorem registered_member_is_normalised
    (today : date) (first_name last_name email : string)
    (date_of_birth : option date) (gender phone address : option string)
    (membership_status : string) (s s1 : OrmSession) (m : Member.t) :
  register_member today first_name last_name email date_of_birth gender phone
    address membership_status s = (Ok m, s1) ->
  Members (working s) = Members (committed s) ->
  (Member.FirstName m = Text.strip first_name /\ Member.FirstName m <> "" /\
   (String.length (Member.FirstName m) <= 50)%nat) /\
  (Member.LastName m = Text.strip last_name /\ Member.LastName m <> "" /\
   (String.length (Member.LastName m) <= 50)%nat) /\
  (Member.Email m = Text.lower (Text.strip email) /\
   Text.has_char "@" email = true /\
   Text.has_char "." (Text.after_last "@" email) = true) /\
  (Member.Gender m = None \/ Member.Gender m = Some "M" \/
   Member.Gender m = Some "F" \/ Member.Gender m = Some "O") /\
  (Member.JoinDate m = Some today /\
   Member.MembershipStatus m = Some membership_status /\
   In membership_status membership_statuses) /\
  (forall p, In p (Members (committed s)) ->
     Member.MemberID p <> Member.MemberID m /\
     Member.Email p <> Member.Email m) /\
  Members (committed s1) = (Members (committed s) ++ [m])%list /\
  find (member_by_id (Member.MemberID m)) (Members (committed s1)) = Some m.
Proof.
  intros H Hs.
  destruct (register_member_passed _ _ _ _ _ _ _ _ _ _ _ _ H)
    as (Hm & -> & (Hf & Hl & Hflen & Hllen & _ & Hat & Hdot) & _ & Hg & Hst
        & Hu & _).
  assert (Hid : Member.MemberID m
                = next_id Member.MemberID (Members (working s)))
    by (rewrite Hm; reflexivity).
  split; [| split; [| split; [| split; [| split; [| split; [| split]]]]]].
  - rewrite Hm. cbn [Member.FirstName]. split; [reflexivity |].
    split; [apply not_blank, Hf |].
    pose proof (strip_length first_name). unfold Text.longer_than in Hflen.
    apply Nat.ltb_ge in Hflen. lia.
  - rewrite Hm. cbn [Member.LastName]. split; [reflexivity |].
    split; [apply not_blank, Hl |].
    pose proof (strip_length last_name). unfold Text.longer_than in Hllen.
    apply Nat.ltb_ge in Hllen. lia.
  - rewrite Hm. cbn [Member.Email]. auto.
  - rewrite Hm. cbn [Member.Gender]. apply stored_gender, Hg.
  - rewrite Hm. cbn [Member.JoinDate Member.MembershipStatus].
    split; [reflexivity |]. split; [reflexivity |].
    unfold Text.one_of in Hst. apply existsb_exists in Hst.
    destruct Hst as (x & Hx & Heq). apply String.eqb_eq in Heq.
    subst x. exact Hx.
  - intros p Hp. split.
    + rewrite Hid, Hs.
      pose proof (next_id_above Member.MemberID _ _ Hp). lia.
    + unfold unique_ok in Hu. apply andb_prop in Hu. destruct Hu as [Hu _].
      cbn [with_Members Members] in Hu. unfold insert in Hu.
      rewrite map_app in Hu. cbn [map] in Hu. apply distinct_fresh in Hu.
      intro E. apply Hu. rewrite <- E, Hs. apply in_map, Hp.
  - cbn [clean committed with_Members Members]. unfold insert.
    rewrite Hs. reflexivity.
  - cbn [clean committed with_Members Members]. unfold member_by_id.
    apply find_inserted. exact Hid.
Qed.

Lemma registered_member_is_normalised_witness :
  exists m s1,
    register_member Sample.day "  Carla " "de Souza" " Carla.S@Example.ORG "
      (Some (Sample.day - 7000)) (Some "f") (Some "555-0101") None "Active"
      Sample.start = (Ok m, s1) /\
    Member.Email m = "carla.s@example.org" /\
    Member.FirstName m = "Carla" /\
    Members (committed s1) = [Sample.alice; Sample.bob; m].
Proof.
  destruct (register_member Sample.day "  Carla " "de Souza"
              " Carla.S@Example.ORG " (Some (Sample.day - 7000)) (Some "f")
              (Some "555-0101") None "Active" Sample.start)
    as [[m | e] s1] eqn:E; [| vm_compute in E; discriminate E].
  exists m, s1. split; [reflexivity |].
  destruct (registered_member_is_normalised _ _ _ _ _ _ _ _ _ _ _ _ E eq_refl)
    as ((Hf & _) & _ & (He & _) & _ & _ & _ & Hrows & _).
  split; [rewrite He; vm_compute; reflexivity |].
  split; [rewrite Hf; vm_compute; reflexivity | exact Hrows].
Defined.

(** ** What a successful profile update checked and wrote *)

Lemma with_Members_twice (f g : list Member.t -> list Member.t) (t : Tables) :
  with_Members g (with_Members f t) = with_Members (fun r => g (f r)) t.
Proof. reflexivity. Qed.

Lemma with_Members_ext (f g : list Member.t -> list Member.t) (t : Tables) :
  f (Members t) = g (Members t) -> with_Members f t = with_Members g t.
Proof. unfold with_Members. intros ->. reflexivity. Qed.

Lemma assign_twice {R} (key : R -> Z) (k : Z) (f g : R -> R) (rows : list R) :
  (forall o, key (f o) = key o) ->
  assign key k g (assign key k f rows) = assign key k (fun o => g (f o)) rows.
Proof.
  intro Hkey. unfold assign. rewrite map_map. apply map_ext. intro o.
  destruct (key o =? k) eqn:E; [rewrite Hkey, E | rewrite E]; reflexivity.
Qed.

Lemma assign_ext {R} (key : R -> Z) (k : Z) (f g : R -> R) (rows : list R) :
  (forall o, f o = g o) -> assign key k f rows = assign key k g rows.
Proof.
  intro H. unfold assign. apply map_ext. intro o. rewrite H. reflexivity.
Qed.

Lemma update_profile_ok today id f l p a dob g s v s1 :
  update_profile today id f l p a dob g s = (Ok v, s1) ->
  exists row,
    find (member_by_id id) (Members (committed s)) = Some row /\
    0 < id /\
    (forall d0, dob = Some d0 ->
       d0 <= today /\ 13 <= (today - d0) / 365 <= 120) /\
    (forall x, f = Some x -> Text.strip x <> "") /\
    (forall x, l = Some x -> Text.strip x <> "") /\
    s1 = clean (with_Members
                  (assign Member.MemberID id (updated_profile f l p a dob g))
                  (working s)) /\
    (Members (working s) = Members (committed s) ->
     v = updated_profile f l p a dob g row).
Proof.
  unfold update_profile. intro H. ok_inv.
  all: match goal with
       | C : option_map _ (find _ _) = Some _ |- _ =>
           apply option_map_some in C; destruct C as (row & Hfind & <-)
       end.
  all: try match goal with
           | C : _ && _ = false |- _ => discriminate C
           end.
  all: assert (Hk : Member.MemberID (loaded Members Member.MemberID s row) = id)
         by (rewrite loaded_key; apply find_some in Hfind;
             apply Z.eqb_eq, Hfind).
  all: rewrite Hk in H.
  all: (apply try_except_ok in H; [| intros; reflexivity]);
    ok_inv; cbn [working committed] in *.
  all: bool_facts.
  all: exists row; split; [exact Hfind |]; split; [assumption |].
  all: split;
    [ intros d1 Hd; first [discriminate Hd | injection Hd as <-; lia] |].
  all: do 2 (split;
    [ intros x Hx;
      first [ discriminate Hx
            | injection Hx as <-; apply String.eqb_neq; assumption ] |]).
  all: split;
    [ apply f_equal; repeat rewrite with_Members_twice;
      apply with_Members_ext;
      repeat rewrite (assign_twice Member.MemberID id)
        by (intros []; reflexivity);
      apply assign_ext; intros []; reflexivity
    | intro Hs;
      cbn [clean committed with_Members Members];
      repeat rewrite (assign_twice Member.MemberID id)
        by (intros []; reflexivity);
      rewrite ?find_assign by (intros []; reflexivity);
      rewrite Hs; unfold member_by_id in Hfind; rewrite ?Hfind;
      cbn [option_map];
      rewrite ?(loaded_of_synced Members Member.MemberID id s row Hs Hfind);
      apply find_some in Hfind; destruct Hfind as [_ Hfind];
      rewrite ?Hfind; destruct row; reflexivity ].
Qed.

(** X17. The age rule of [register_member] and [update_profile] counts
    years of 365 days: a date of birth is accepted exactly from 4745 days
    (13 times 365) to 44164 days (121 times 365, less one) before today;
    outside that range both operations raise [ValueError]. *)
Theorem birth_date_limits
    (today d0 : date) (first_name last_name email : string)
    (gender phone address : option string) (membership_status : string)
    (member_id : Z) (first_name' last_name' phone' address' gender'
                     : option string) (s : OrmSession) :
  let register := register_member today first_name last_name email (Some d0)
                    gender phone address membership_status in
  let update := update_profile today member_id first_name' last_name' phone'
                  address' (Some d0) gender' in
  (is_ok (fst (register s)) = true \/ is_ok (fst (update s)) = true ->
   4745 <= today - d0 <= 44164)
  /\
  (today - d0 < 4745 \/ 44164 < today - d0 ->
   (exists r, fst (register s) = Raise (ValueError r)) /\
   (exists r, fst (update s) = Raise (ValueError r))).
Proof.
  intros register update.
  assert (Hr : is_ok (fst (register s)) = true -> 4745 <= today - d0 <= 44164).
  { unfold register.
    destruct (register_member _ _ _ _ _ _ _ _ _ s) as [[m | e] s1] eqn:E;
      [intros _ | discriminate].
    destruct (register_member_passed _ _ _ _ _ _ _ _ _ _ _ _ E)
      as (_ & _ & _ & Hd & _).
    destruct (Hd d0 eq_refl) as [_ Hage].
    pose proof (Z.div_mod (today - d0) 365).
    pose proof (Z.mod_pos_bound (today - d0) 365). lia. }
  assert (Hu : is_ok (fst (update s)) = true -> 4745 <= today - d0 <= 44164).
  { unfold update.
    destruct (update_profile _ _ _ _ _ _ _ _ s) as [[v | e] s1] eqn:E;
      [intros _ | discriminate].
    destruct (update_profile_ok _ _ _ _ _ _ _ _ _ _ _ E)
      as (row & _ & _ & Hd & _).
    destruct (Hd d0 eq_refl) as [_ Hage].
    pose proof (Z.div_mod (today - d0) 365).
    pose proof (Z.mod_pos_bound (today - d0) 365). lia. }
  split; [intros [H | H]; auto |].
  intro Hout. split.
  - pose proof (perform_value_errors today
                  (RegisterMember first_name last_name email (Some d0) gender
                     phone address membership_status) s) as Hv.
    simpl in Hv. unfold outcome in Hv. fold register in Hv.
    destruct (register s) as [[m | e] s1]; cbn [fst is_ok] in *.
    + specialize (Hr eq_refl). lia.
    + destruct (Hv e eq_refl) as [r ->]. eauto.
  - pose proof (perform_value_errors today
                  (UpdateProfile member_id first_name' last_name' phone'
                     address' (Some d0) gender') s) as Hv.
    simpl in Hv. unfold outcome in Hv. fold update in Hv.
    destruct (update s) as [[m | e] s1]; cbn [fst is_ok] in *.
    + specialize (Hu eq_refl). lia.
    + destruct (Hv e eq_refl) as [r ->]. eauto.
Qed.

Lemma birth_date_limits_witness :
  fst (register_member Sample.day "Dan" "Young" "dan@example.com"
         (Some (Sample.day - 4744)) None None None "Active" Sample.start)
  = Raise (ValueError TooYoung) /\
  (exists r,
     fst (update_profile Sample.day 1 None None None None
            (Some (Sample.day - 4744)) None Sample.start)
     = Raise (ValueError r)) /\
  is_ok (fst (register_member Sample.day "Dan" "Young" "dan@example.com"
                (Some (Sample.day - 4745)) None None None "Active"
                Sample.start)) = true.
Proof.
  split; [vm_compute; reflexivity |].
  split; [| vm_compute; reflexivity].
  destruct (birth_date_limits Sample.day (Sample.day - 4744) "Dan" "Young"
              "dan@example.com" None None None "Active" 1 None None None None
              None Sample.start) as [_ H].
  apply H. left. lia.
Defined.

(** ** What [update_profile] never touches *)

Lemma identities_modify (id : Z) (f : Member.t -> Member.t) :
  (forall o, member_identity (f o) = member_identity o) ->
  keeps (table_kept identities)
    (modify (with_Members (assign Member.MemberID id f))).
Proof.
  intro Hf. apply table_kept_modify. intro t.
  unfold identities, with_Members, assign. cbn [Members].
  rewrite map_map. apply map_ext. intro o.
  destruct (Member.MemberID o =? id); [apply Hf | reflexivity].
Qed.

#[export] Hint Extern 1 (keeps (table_kept identities) (modify _)) =>
  apply identities_modify; intros []; reflexivity : tables.

Lemma update_profile_keeps_identities today id f l p a dob g :
  keeps (table_kept identities) (update_profile today id f l p a dob g).
Proof. unfold update_profile. auto 60 with tables. Qed.

(** ** Registering the same address twice *)

(** Every operation but [register_member] leaves the members' ids,
    addresses, join dates and statuses. *)
Lemma perform_keeps_identities (today : date) (op : Op) :
  is_register_member op = false ->
  keeps (table_kept identities) (perform today op).
Proof.
  destruct op; simpl; intro Hop; try discriminate; apply table_kept_outcome;
    try read_only_operations; unfold_operations; auto 60 with tables.
Qed.

Lemma emails_of_identities (t : Tables) :
  emails t = map (fun i => snd (fst (fst i))) (identities t).
Proof.
  unfold emails, identities. rewrite map_map. apply map_ext.
  intros []. reflexivity.
Qed.

(** A call of [register_member] whose address, trimmed and lower-cased,
    is among those the session holds. *)
Lemma register_member_on_emailed today f l e d g p a st s :
  In (Text.lower (Text.strip e)) (emails (working s)) ->
  exists r,
    fst (register_member today f l e d g p a st s) = Raise (ValueError r) /\
    (snd (register_member today f l e d g p a st s) = s \/
     snd (register_member today f l e d g p a st s) = clean (committed s)).
Proof.
  intro Hin.
  pose proof (perform_value_errors today (RegisterMember f l e d g p a st) s)
    as Hv.
  pose proof (perform_atomic today (RegisterMember f l e d g p a st) eq_refl s)
    as Ha.
  simpl in Hv, Ha. unfold outcome in Hv, Ha.
  destruct (register_member today f l e d g p a st s) as [[m | x] s1] eqn:E.
  - exfalso.
    destruct (register_member_ok _ _ _ _ _ _ _ _ _ _ _ _ E)
      as (row & Hemail & _ & _ & Hu).
    unfold unique_ok in Hu. apply andb_prop in Hu. destruct Hu as [Hu _].
    cbn [with_Members Members] in Hu. unfold insert in Hu.
    rewrite map_app in Hu. cbn [map] in Hu. rewrite Hemail in Hu.
    rewrite distinct_repeat in Hu; [discriminate | exact Hin].
  - cbn [fst snd] in *. destruct (Hv x eq_refl) as [r ->].
    exists r. split; [reflexivity | apply Ha; reflexivity].
Qed.

(** One call of the loop keeps an address on record, in the database and
    in the session. *)
Lemma perform_emailed (today : date) (op : Op) (e : string) (s : OrmSession) :
  identities (working s) = identities (committed s) ->
  In e (emails (committed s)) ->
  let s' := snd (perform today op s) in
  identities (working s') = identities (committed s') /\
  In e (emails (committed s')).
Proof.
  intros Hs Hin s'.
  assert (Hw : In e (emails (working s)))
    by (rewrite emails_of_identities, Hs, <- emails_of_identities; exact Hin).
  destruct (is_register_member op) eqn:Hop.
  - destruct op; try discriminate. subst s'. simpl. unfold outcome.
    pose proof (perform_atomic today
                  (RegisterMember first_name last_name email date_of_birth
                     gender phone address membership_status) eq_refl s)
      as Ha.
    simpl in Ha. unfold outcome in Ha.
    destruct (register_member _ _ _ _ _ _ _ _ _ s) as [[m | x] s1] eqn:E;
      cbn [fst snd is_ok] in *.
    + destruct (register_member_ok _ _ _ _ _ _ _ _ _ _ _ _ E)
        as (row & _ & _ & -> & _).
      cbn [clean committed working]. split; [reflexivity |].
      unfold emails in *. cbn [with_Members Members]. unfold insert.
      rewrite map_app. apply in_or_app. left. exact Hw.
    + destruct (Ha eq_refl) as [-> | ->]; cbn [clean committed working]; auto.
  - destruct (perform_keeps_identities today op Hop s Hs) as [Hc Hwk].
    subst s'. split; [congruence |].
    rewrite emails_of_identities, Hc, <- emails_of_identities. exact Hin.
Qed.

Lemma run_emailed (calls : list (date * Op)) (e : string) (s : OrmSession) :
  identities (working s) = identities (committed s) ->
  In e (emails (committed s)) ->
  identities (working (run calls s)) = identities (committed (run calls s)) /\
  In e (emails (committed (run calls s))).
Proof.
  revert s. induction calls as [| [today op] calls IH]; intros s Hs Hin;
    [simpl; auto |].
  cbn [run]. destruct (perform_emailed today op e s Hs Hin) as [Hs' Hin'].
  apply IH; assumption.
Qed.

(** C2. A successful [register_member] stores the member under the email
    trimmed and lower-cased.  From then on, straight away or after any
    run of operations on the session, a call of [register_member] whose
    email is the same once trimmed and lower-cased raises [ValueError] and
    adds no member: the Member rows are the same after it as before,
    whatever the letter case of the two addresses and whatever the other
    arguments of the call. *)
Theorem register_member_same_email_twice
    (today : date) (first_name last_name email : string)
    (date_of_birth : option date) (gender phone address : option string)
    (membership_status : string) (s s1 : OrmSession) (m : Member.t)
    (calls : list (date * Op))
    (today' : date) (first_name' last_name' email' : string)
    (date_of_birth' : option date) (gender' phone' address' : option string)
    (membership_status' : string) :
  register_member today first_name last_name email date_of_birth gender phone
    address membership_status s = (Ok m, s1) ->
  Text.lower (Text.strip email') = Text.lower (Text.strip email) ->
  (Member.Email m = Text.lower (Text.strip email) /\
   In m (Members (committed s1))) /\
  (exists r,
     fst (register_member today' first_name' last_name' email' date_of_birth'
            gender' phone' address' membership_status' (run calls s1))
     = Raise (ValueError r) /\
     Members
       (committed
          (snd (register_member today' first_name' last_name' email'
                  date_of_birth' gender' phone' address' membership_status'
                  (run calls s1))))
     = Members (committed (run calls s1))).
Proof.
  intros Hfirst Hsame.
  destruct (register_member_passed _ _ _ _ _ _ _ _ _ _ _ _ Hfirst)
    as (Hm & -> & _).
  assert (Hmail : Member.Email m = Text.lower (Text.strip email))
    by (rewrite Hm; reflexivity).
  set (s1 := clean (with_Members (insert m) (working s))).
  assert (Hin : In (Text.lower (Text.strip email')) (emails (committed s1))).
  { unfold s1, emails. cbn [clean committed with_Members Members].
    unfold insert. rewrite map_app. apply in_or_app. right.
    rewrite Hsame, <- Hmail. left. reflexivity. }
  split.
  - split; [exact Hmail |].
    unfold s1. cbn [clean committed with_Members Members]. unfold insert.
    apply in_or_app. right. left. reflexivity.
  - destruct (run_emailed calls _ s1 eq_refl Hin) as [Hs' Hin'].
    assert (Hw : In (Text.lower (Text.strip email'))
                   (emails (working (run calls s1))))
      by (rewrite emails_of_identities, Hs', <- emails_of_identities;
          exact Hin').
    destruct (register_member_on_emailed today' first_name' last_name' email'
                date_of_birth' gender' phone' address' membership_status'
                (run calls s1) Hw) as (r & Hr & Hs).
    exists r. split; [exact Hr |].
    destruct Hs as [-> | ->]; reflexivity.
Qed.

Lemma register_member_same_email_twice_witness :
  let first :=
    register_member Sample.day "Alice" "Jones" "alice.johnson@example.com "
      None None None None "Active" (clean empty_tables) in
  let later :=
    run [ (Sample.day, UpdateProfile 1 (Some "Alicia") (Some "   ") None None
                         None None);
          (Sample.day + 1,
           RegisterMember "Bob" "Smith" "bob.smith@example.com" None None None
             None "Active") ] (snd first) in
  exists r,
    fst (register_member (Sample.day + 2) "Carl" "Young"
           "  Alice.Johnson@Example.COM" None None None None "Active" later)
    = Raise (ValueError r) /\
    length (Members (committed later)) = 2%nat /\
    Members
      (committed
         (snd (register_member (Sample.day + 2) "Carl" "Young"
                 "  Alice.Johnson@Example.COM" None None None None "Active"
                 later)))
    = Members (committed later).
Proof.
  intros first later.
  destruct first as [[m | x] s1] eqn:E; [| vm_compute in E; discriminate E].
  destruct (register_member_same_email_twice Sample.day "Alice" "Jones"
              "alice.johnson@example.com " None None None None "Active"
              (clean empty_tables) s1 m
              [ (Sample.day, UpdateProfile 1 (Some "Alicia") (Some "   ") None
                               None None None);
                (Sample.day + 1,
                 RegisterMember "Bob" "Smith" "bob.smith@example.com" None None
                   None None "Active") ]
              (Sample.day + 2) "Carl" "Young" "  Alice.Johnson@Example.COM"
              None None None None "Active" E)
    as (_ & r & Hr & Hkeep); [vm_compute; reflexivity |].
  exists r. split; [exact Hr |]. split; [| exact Hkeep].
  vm_compute in E. injection E as <- <-. vm_compute. reflexivity.
Defined.

(** X18. [update_profile] never changes who the members are: whatever
    its arguments, and whether it succeeds or fails, the members have the
    same ids, emails, join dates and membership statuses after the call
    as before, each as many times, in the database and in the session
    (nothing is said of the order of the rows). *)
Theorem update_profile_keeps_identity
    (today : date) (member_id : Z)
    (first_name last_name phone address : option string)
    (date_of_birth : option date) (gender : option string) (s : OrmSession) :
  identities (working s) = identities (committed s) ->
  let s' := snd (update_profile today member_id first_name last_name phone
                   address date_of_birth gender s) in
  Permutation (identities (committed s')) (identities (committed s)) /\
  Permutation (identities (working s')) (identities (working s)).
Proof.
  intros Hs s'.
  destruct (update_profile_keeps_identities today member_id first_name
              last_name phone address date_of_birth gender s Hs) as [Hc Hw].
  subst s'. rewrite Hc, Hw. split; apply Permutation_refl.
Qed.

Lemma update_profile_keeps_identity_witness :
  Permutation
    (identities
       (working
          (snd (update_profile Sample.day 1 (Some "Alicia") (Some "   ") None
                  None None None Sample.start))))
    [ (1, "alice.johnson@example.com", Some (Sample.day - 30), Some "Active");
      (2, "bob.smith@example.com", Some (Sample.day - 20), Some "Active") ].
Proof.
  destruct (update_profile_keeps_identity Sample.day 1 (Some "Alicia")
              (Some "   ") None None None None Sample.start eq_refl)
    as [_ H].
  exact H.
Defined.

(** X19. A successful [update_profile] replaces exactly the fields it
    was given on the member with that id, trimmed (an empty phone,
    address or gender clears the field, a gender is upper-cased), keeps
    the member's other fields and every other member, and returns the
    updated member. *)
Theorem update_profile_sets_fields
    (today : date) (member_id : Z)
    (first_name last_name phone address : option string)
    (date_of_birth : option date) (gender : option string)
    (s s1 : OrmSession) (v : Member.t) :
  update_profile today member_id first_name last_name phone address
    date_of_birth gender s = (Ok v, s1) ->
  Members (working s) = Members (committed s) ->
  exists row,
    find (member_by_id member_id) (Members (committed s)) = Some row /\
    v = updated_profile first_name last_name phone address date_of_birth
          gender row /\
    Members (committed s1)
    = map (fun o => if Member.MemberID o =? member_id
                    then updated_profile first_name last_name phone address
                           date_of_birth gender o
                    else o)
        (Members (committed s)) /\
    (forall x, first_name = Some x ->
       Member.FirstName v = Text.strip x /\ Member.FirstName v <> "") /\
    (forall x, last_name = Some x ->
       Member.LastName v = Text.strip x /\ Member.LastName v <> "") /\
    (phone = Some "" -> Member.Phone v = None) /\
    (address = Some "" -> Member.Address v = None) /\
    (gender = Some "" -> Member.Gender v = None).
Proof.
  intros H Hs.
  destruct (update_profile_ok _ _ _ _ _ _ _ _ _ _ _ H)
    as (row & Hfind & _ & _ & Hfirst & Hlast & Hs1 & Hv).
  specialize (Hv Hs). exists row. split; [exact Hfind |].
  split; [exact Hv |]. split.
  { rewrite Hs1. cbn [clean committed with_Members Members]. rewrite Hs.
    reflexivity. }
  rewrite Hv.
  cbn [updated_profile Member.FirstName Member.LastName Member.Phone
       Member.Address Member.Gender].
  split; [intros x Hx; rewrite Hx; split; [reflexivity | apply Hfirst, Hx] |].
  split; [intros x Hx; rewrite Hx; split; [reflexivity | apply Hlast, Hx] |].
  repeat split; intros ->; reflexivity.
Qed.

Lemma update_profile_sets_fields_witness :
  exists v s1,
    update_profile Sample.day 1 (Some " Alicia ") None (Some "") None None
      (Some "o") Sample.start = (Ok v, s1) /\
    v = Member.mk 1 "Alicia" "Johnson" None (Some "O")
          "alice.johnson@example.com" None None (Some (Sample.day - 30))
          (Some "Active") /\
    Members (committed s1) = [v; Sample.bob].
Proof.
  destruct (update_profile Sample.day 1 (Some " Alicia ") None (Some "") None
              None (Some "o") Sample.start) as [[v | e] s1] eqn:E;
    [| vm_compute in E; discriminate E].
  exists v, s1. split; [reflexivity |].
  destruct (update_profile_sets_fields _ _ _ _ _ _ _ _ _ _ _ E eq_refl)
    as (row & Hfind & Hv & Hrows & _).
  injection Hfind as <-.
  split; [rewrite Hv; vm_compute; reflexivity |].
  rewrite Hrows, Hv. vm_compute. reflexivity.
Defined.

(** ** Measurements and goals within their ranges *)

Lemma Qle_bool_false (a b : Q) : Qle_bool a b = false -> (b < a)%Q.
Proof.
  intro H. apply Qnot_le_lt. intro Hle. apply Qle_bool_iff in Hle.
  rewrite Hle in H. discriminate.
Qed.

(** The two comparisons of a range check, when neither raises. *)
Lemma float_between (x : float) (lo hi : Q) :
  float_leb x (Finite lo) = false -> float_gtb x (Finite hi) = false ->
  nan_or (fun q => (lo < q)%Q /\ (q <= hi)%Q) x.
Proof.
  destruct x as [q | [] |]; cbn; try discriminate; [| auto].
  intros H1 H2. split; [apply Qle_bool_false, H1 |].
  apply negb_false_iff in H2. apply Qle_bool_iff, H2.
Qed.

Lemma float_within (x : float) (lo hi : Q) :
  float_ltb x (Finite lo) = false -> float_gtb x (Finite hi) = false ->
  nan_or (fun q => (lo <= q)%Q /\ (q <= hi)%Q) x.
Proof.
  destruct x as [q | [] |]; cbn; try discriminate; [| auto].
  intros H1 H2. apply negb_false_iff in H1, H2.
  split; apply Qle_bool_iff; assumption.
Qed.

(** Rounding to the nearest, ties away from zero, stays below [k] only
    below [k - 1/2]. *)
Lemma nearest_away_lt (n d k : Z) :
  0 <= n -> 0 < d -> nearest false n d < k -> 2 * n < (2 * k - 1) * d.
Proof.
  intros Hn Hd. unfold nearest. cbn [andb].
  pose proof (Z.div_mod n d ltac:(lia)) as E.
  pose proof (Z.mod_pos_bound n d Hd) as Hr.
  destruct (2 * (n mod d) <? d) eqn:C; bool_facts;
    [| destruct (d <? 2 * (n mod d))]; intro H; nia.
Qed.

(** A positive value that a [Numeric(5, 2)] column accepts is below
    999.995. *)
Lemma numeric_5_2_accepts (q : Q) :
  (0 < q)%Q -> numeric_fits 3 (Some (numeric2 (Finite q))) = true ->
  (q < 999995 # 1000)%Q.
Proof.
  intros Hq H. cbn [numeric2 numeric_fits] in H.
  apply negb_true_iff, Qle_bool_false in H.
  rewrite Qred_correct in H.
  destruct q as [n d]. unfold Qlt in Hq. cbn in Hq.
  assert (Hn : 0 < n) by lia.
  unfold rounded in H. cbn [Qmult Qnum Qden inject_Z] in H.
  rewrite Pos.mul_1_r in H.
  replace (Z.sgn (n * 100)) with 1 in H by (symmetry; apply Z.sgn_pos; lia).
  rewrite Z.mul_1_l, (Z.abs_eq (n * 100)) in H by lia.
  set (r := nearest false (n * 100) (Z.pos d)) in *.
  assert (Hr0 : 0 <= r).
  { unfold r, nearest. cbn [andb].
    pose proof (Z.div_pos (n * 100) (Z.pos d) ltac:(lia) ltac:(lia)).
    repeat destruct (_ <? _); lia. }
  rewrite Qabs_pos in H by (unfold Qle; cbn; lia).
  unfold Qlt in H. cbn in H.
  assert (Hlt : r < 100000) by lia.
  apply nearest_away_lt in Hlt; [| lia | lia].
  unfold Qlt. cbn. lia.
Qed.

(** A weight the checks and the column let through. *)
Lemma stored_weight_range (x : float) :
  float_leb x (Finite 0) = false -> float_gtb x (Finite 1000) = false ->
  numeric_fits 3 (Some (numeric2 x)) = true ->
  nan_or (fun q => (0 < q)%Q /\ (q < 999995 # 1000)%Q) x.
Proof.
  intros H1 H2 H3. pose proof (float_between x 0 1000 H1 H2) as H.
  destruct x as [q | [] |]; cbn in *; auto.
  split; [apply H | apply numeric_5_2_accepts; [apply H | exact H3]].
Qed.

(** The column checks of the row a call added, among the facts in the
    context. *)
Ltac added_row_fits fits :=
  match goal with
  | W : widths_ok _ = true |- _ =>
      unfold widths_ok in W; bool_facts;
      match goal with
      | F : forallb fits _ = true |- _ =>
          cbn [with_HealthMetrics HealthMetrics with_FitnessGoals FitnessGoals
               with_Invoices Invoices] in F;
          apply forallb_inserted in F; unfold fits in F;
          cbn [HealthMetric.Height HealthMetric.Weight
               HealthMetric.BodyFatPercentage HealthMetric.RestingHeartRate
               FitnessGoal.GoalType FitnessGoal.GoalStatus
               FitnessGoal.TargetBodyWeight FitnessGoal.TargetBodyFatPercentage
               option_map] in F;
          bool_facts
      end
  end.

(** A range of a value that was given, from the checks it passed. *)
Ltac range_facts :=
  let x := fresh "x" in
  let Hx := fresh "Hx" in
  intros x Hx;
  first
    [ discriminate Hx
    | injection Hx as <-;
      first [ apply stored_weight_range; assumption
            | apply float_between; assumption
            | apply float_within; assumption
            | lia ] ].

(** X20. A measurement [log_health_metric] accepts is dated within the
    last 36500 days and not after today, carries at least one of the four
    values and belongs to a member on record.  A heart rate is from 30 to
    200.  A height, weight or body fat is within its range or is NaN,
    which no comparison of the range checks rejects: a height above 0 up
    to 300, a body fat from 0 to 100, a weight above 0 and below 999.995,
    the values from there to 1000 passing the check but not fitting the
    column. *)
Theorem health_metric_is_in_range
    (today : date) (member_id : Z) (recorded_date : date)
    (height weight body_fat_percentage : option float)
    (resting_heart_rate : option Z) (notes : option string)
    (s s1 : OrmSession) (v : HealthMetric.t) :
  log_health_metric today member_id recorded_date height weight
    body_fat_percentage resting_heart_rate notes s = (Ok v, s1) ->
  today - 36500 <= recorded_date <= today /\
  (height <> None \/ weight <> None \/ body_fat_percentage <> None \/
   resting_heart_rate <> None) /\
  (forall h, height = Some h ->
     nan_or (fun q => (0 < q)%Q /\ (q <= 300)%Q) h) /\
  (forall w, weight = Some w ->
     nan_or (fun q => (0 < q)%Q /\ (q < 999995 # 1000)%Q) w) /\
  (forall f, body_fat_percentage = Some f ->
     nan_or (fun q => (0 <= q)%Q /\ (q <= 100)%Q) f) /\
  (forall r, resting_heart_rate = Some r -> 30 <= r <= 200) /\
  exists m, In m (Members (committed s)) /\ Member.MemberID m = member_id.
Proof.
  unfold log_health_metric. intro H.
  ok_inv;
    (apply try_except_ok in H; [| intros; reflexivity]);
    ok_inv; cbn [working committed clean with_HealthMetrics HealthMetrics] in *.
  all: try match goal with
           | C : _ && _ = false |- _ => discriminate C
           end.
  all: bool_facts.
  all: added_row_fits metric_fits.
  all: match goal with
       | C : is_some (option_map _ _) = true |- _ =>
           apply is_some_map in C; destruct C as (m & Hm);
           apply find_some in Hm; destruct Hm as [Hin Hk];
           apply Z.eqb_eq in Hk
       end.
  all: split; [lia |].
  all: split;
    [ first [ left; discriminate
            | right; left; discriminate
            | right; right; left; discriminate
            | right; right; right; discriminate ] |].
  all: split; [range_facts |].
  all: split; [range_facts |].
  all: split; [range_facts |].
  all: split; [range_facts |].
  all: exists m; split; assumption.
Qed.

Lemma health_metric_is_in_range_witness :
  exists v s1,
    log_health_metric Sample.day 2 (Sample.day - 1) (Some NaN)
      (Some (Finite (161 # 2))) None (Some 58) (Some " after a run ")
      Sample.start = (Ok v, s1) /\
    HealthMetric.Height v = Some NaN /\
    ((0 < 161 # 2)%Q /\ (161 # 2 < 999995 # 1000)%Q) /\ 30 <= 58 <= 200.
Proof.
  destruct (log_health_metric Sample.day 2 (Sample.day - 1) (Some NaN)
              (Some (Finite (161 # 2))) None (Some 58) (Some " after a run ")
              Sample.start) as [[v | e] s1] eqn:E;
    [| vm_compute in E; discriminate E].
  exists v, s1. split; [reflexivity |].
  destruct (health_metric_is_in_range _ _ _ _ _ _ _ _ _ _ _ E)
    as (_ & _ & _ & Hw & _ & Hr & _).
  split; [vm_compute in E; injection E as <- _; reflexivity |].
  split; [apply (Hw (Finite (161 # 2)) eq_refl) | apply (Hr 58 eq_refl)].
Defined.

Lemma one_of_in (x : string) (xs : list string) :
  Text.one_of x xs = true -> In x xs.
Proof.
  unfold Text.one_of. intro H. apply existsb_exists in H.
  destruct H as (y & Hy & Heq). apply String.eqb_eq in Heq. subst y. exact Hy.
Qed.

(** X21. A goal [add_fitness_goal] creates names at least one target.  A
    target weight or body fat is within its range or is NaN, which no
    comparison of the range checks rejects: a target weight above 0 and
    below 999.995 (the values from there to 1000 pass the check but do not
    fit the column), a target body fat from 0 to 100.  A target date is
    from today to 3650 days ahead; the goal's type is the trimmed,
    non-empty text given, its status one of the four on the list, its set
    date today, its member on record.  It is appended to the table under
    a new id. *)
Theorem fitness_goal_is_valid
    (today : date) (member_id : Z) (goal_type : string)
    (target_body_weight target_body_fat : option float)
    (target_date : option date) (goal_status : string) (notes : option string)
    (s s1 : OrmSession) (v : FitnessGoal.t) :
  add_fitness_goal today member_id goal_type target_body_weight
    target_body_fat target_date goal_status notes s = (Ok v, s1) ->
  (target_body_weight <> None \/ target_body_fat <> None) /\
  (forall w, target_body_weight = Some w ->
     nan_or (fun q => (0 < q)%Q /\ (q < 999995 # 1000)%Q) w) /\
  (forall f, target_body_fat = Some f ->
     nan_or (fun q => (0 <= q)%Q /\ (q <= 100)%Q) f) /\
  (forall d, target_date = Some d -> today <= d <= today + 3650) /\
  (exists m, In m (Members (committed s)) /\ Member.MemberID m = member_id) /\
  (FitnessGoal.MemberID v = member_id /\
   FitnessGoal.GoalType v = Text.strip goal_type /\
   FitnessGoal.GoalType v <> "" /\
   FitnessGoal.SetDate v = Some today /\
   FitnessGoal.GoalStatus v = Some goal_status /\
   In goal_status goal_statuses) /\
  (forall g, In g (FitnessGoals (working s)) ->
             FitnessGoal.GoalID g < FitnessGoal.GoalID v) /\
  FitnessGoals (committed s1) = (FitnessGoals (working s) ++ [v])%list.
Proof.
  unfold add_fitness_goal. intro H.
  ok_inv;
    (apply try_except_ok in H; [| intros; reflexivity]);
    ok_inv; cbn [working committed clean with_FitnessGoals FitnessGoals] in *.
  all: try match goal with
           | C : _ && _ = false |- _ => discriminate C
           end.
  all: rewrite find_inserted by reflexivity.
  all: bool_facts.
  all: added_row_fits goal_fits.
  all: match goal with
       | C : is_some (option_map _ _) = true |- _ =>
           apply is_some_map in C; destruct C as (m & Hm);
           apply find_some in Hm; destruct Hm as [Hin Hk];
           apply Z.eqb_eq in Hk
       end.
  all: split; [first [left; discriminate | right; discriminate] |].
  all: split; [range_facts |].
  all: split; [range_facts |].
  all: split; [range_facts |].
  all: split; [exists m; split; assumption |].
  all: cbn [FitnessGoal.MemberID FitnessGoal.GoalType FitnessGoal.SetDate
            FitnessGoal.GoalStatus FitnessGoal.GoalID].
  all: split;
    [ repeat split;
      first [ apply not_blank; assumption | apply one_of_in; assumption ] |].
  all: split; [intros g0 Hg; apply next_id_above, Hg | reflexivity].
Qed.

Lemma fitness_goal_is_valid_witness :
  exists v s1,
    add_fitness_goal Sample.day 2 " Endurance " (Some NaN) (Some (Finite 18))
      (Some (Sample.day + 120)) "Active" None Sample.start = (Ok v, s1) /\
    FitnessGoal.GoalType v = "Endurance" /\
    FitnessGoal.TargetBodyWeight v = Some NaN /\
    FitnessGoals (committed s1) = [v].
Proof.
  destruct (add_fitness_goal Sample.day 2 " Endurance " (Some NaN)
              (Some (Finite 18)) (Some (Sample.day + 120)) "Active" None
              Sample.start)
    as [[v | e] s1] eqn:E; [| vm_compute in E; discriminate E].
  exists v, s1. split; [reflexivity |].
  destruct (fitness_goal_is_valid _ _ _ _ _ _ _ _ _ _ _ E)
    as (_ & _ & _ & _ & _ & (_ & Hty & _) & _ & Hrows).
  split; [rewrite Hty; vm_compute; reflexivity |].
  split; [vm_compute in E; injection E as <- _; reflexivity | exact Hrows].
Defined.

(** ** Assigning a room to a session *)

Lemma other_booking_overlapping (session_id room_id : Z)
    (session p : PersonalTrainingSession.t) :
  other_booking session_id room_id session p = true <->
  PersonalTrainingSession.RoomID p = Some room_id /\
  overlapping p session /\
  PersonalTrainingSession.SessionID p <> session_id.
Proof.
  unfold other_booking, room_clash, room_is, clashes, overlapping.
  rewrite !andb_true_iff, negb_true_iff, Z.eqb_eq, Z.eqb_neq. split.
  - intros ((Hr & (Hd & H1) & H2) & Hne).
    destruct (PersonalTrainingSession.RoomID p) as [r |]; [| discriminate].
    apply Z.eqb_eq in Hr. subst r. auto.
  - intros (Hr & (Hd & H1 & H2) & Hne). rewrite Hr, Z.eqb_refl. auto.
Qed.

(** X22. A successful [assign_room_booking] found the session, not in
    the past, and the room, which was not yet the session's room and in
    which no other session overlaps it; a group class fits the room's
    capacity unless that capacity is missing or zero.  It changes the room
    of that session and nothing else in the table, and returns the
    session with its new room. *)
Theorem assigned_room_is_recorded
    (today : date) (session_id room_id : Z) (s s1 : OrmSession)
    (v : PersonalTrainingSession.t) :
  assign_room_booking today session_id room_id s = (Ok v, s1) ->
  Sessions (working s) = Sessions (committed s) ->
  Rooms (working s) = Rooms (committed s) ->
  exists row room,
    find (session_by_id session_id) (Sessions (committed s)) = Some row /\
    (In room (Rooms (committed s)) /\ Room.RoomID room = room_id) /\
    today <= PersonalTrainingSession.SessionDate row /\
    PersonalTrainingSession.RoomID row <> Some room_id /\
    (forall p, In p (Sessions (committed s)) ->
       PersonalTrainingSession.SessionID p <> session_id ->
       PersonalTrainingSession.RoomID p = Some room_id ->
       ~ overlapping p row) /\
    (PersonalTrainingSession.SessionType row = Some "Group Class" ->
     forall cap have,
       PersonalTrainingSession.MaxCapacity row = Some cap ->
       Room.RoomCapacity room = Some have ->
       cap = 0 \/ have = 0 \/ cap <= have) /\
    v = PersonalTrainingSession.set_RoomID (Some room_id) row /\
    Sessions (committed s1)
    = map (fun p => if PersonalTrainingSession.SessionID p =? session_id
                    then PersonalTrainingSession.set_RoomID (Some room_id) p
                    else p)
        (Sessions (committed s)).
Proof.
  intros H Hs Hrooms.
  destruct (assign_room_booking_ok _ _ _ _ _ _ H)
    as (_ & _ & row & room & Hfind & Hroom & Hdate & Hnot & Hcap & Hfree
        & -> & Hrow).
  destruct (Hrow Hs) as [Hl ->]. rewrite Hl in *.
  rewrite (loaded_of_synced Rooms Room.RoomID room_id s room Hrooms Hroom)
    in Hcap.
  exists row, room. split; [exact Hfind |].
  pose proof (find_some _ _ Hroom) as [Hin Hk]. apply Z.eqb_eq in Hk.
  split; [split; assumption |]. split; [exact Hdate |].
  split; [exact Hnot |]. split.
  - intros p Hp Hne Hr Hov.
    pose proof (find_none _ _ Hfree p Hp) as Hp'.
    assert (Ht : other_booking session_id room_id row p = true)
      by (apply other_booking_overlapping; auto).
    rewrite Ht in Hp'. discriminate.
  - split.
    + intros Hty cap have Hc Hh.
      apply (over_capacity_none _ _ (Hcap Hty) cap have Hc Hh).
    + split; [reflexivity |].
      cbn [clean committed with_Sessions Sessions]. rewrite Hs. reflexivity.
Qed.

Lemma assigned_room_is_recorded_witness :
  exists v s1,
    assign_room_booking Sample.day 1 2 Sample.start = (Ok v, s1) /\
    v = PersonalTrainingSession.set_RoomID (Some 2) Sample.morning /\
    Sessions (committed s1) = [v].
Proof.
  destruct (assign_room_booking Sample.day 1 2 Sample.start)
    as [[v | e] s1] eqn:E; [| vm_compute in E; discriminate E].
  exists v, s1. split; [reflexivity |].
  destruct (assigned_room_is_recorded _ _ _ _ _ _ E eq_refl eq_refl)
    as (row & room & Hfind & _ & _ & _ & _ & _ & Hv & Hrows).
  injection Hfind as <-. split; [exact Hv |].
  rewrite Hrows, Hv. reflexivity.
Defined.

Lemma assign_room_booked today session_id room_id s id at_ on :
  fst (assign_room_booking today session_id room_id s)
  = Raise (ValueError (RoomBooked id at_ on)) ->
  exists row hit,
    find (session_by_id session_id) (Sessions (committed s)) = Some row /\
    In hit (Sessions (committed s)) /\
    (PersonalTrainingSession.SessionID hit = id /\
     PersonalTrainingSession.StartTime
       (loaded Sessions PersonalTrainingSession.SessionID s hit) = at_ /\
     PersonalTrainingSession.SessionDate
       (loaded Sessions PersonalTrainingSession.SessionID s hit) = on) /\
    other_booking session_id room_id
      (loaded Sessions PersonalTrainingSession.SessionID s row) hit = true.
Proof.
  unfold assign_room_booking.
  do 2 (rewrite bind_raise_if;
        match goal with
        | |- context [if ?b then _ else _] => destruct b
        end; [simpl; discriminate |]).
  rewrite bind_query_first.
  destruct (find (session_by_id session_id) _) as [row |] eqn:Hfind;
    cbn [option_map]; [| simpl; discriminate].
  rewrite bind_raise_if.
  match goal with
  | |- context [if ?b then _ else _] => destruct b
  end; [simpl; discriminate |].
  rewrite bind_query_first.
  destruct (find _ (Rooms (committed s))) as [room |];
    cbn [option_map]; [| simpl; discriminate].
  rewrite bind_raise_if.
  match goal with
  | |- context [if ?b then _ else _] => destruct b
  end; [simpl; discriminate |].
  rewrite bind_unfold.
  destruct (PersonalTrainingSession.SessionType _) as [ty |];
    [destruct (String.eqb ty "Group Class");
     [destruct (over_capacity _ _) as [[want have] |];
      [simpl; discriminate |] |] |].
  all: cbv beta iota zeta delta [ret]; rewrite bind_query_first.
  all: destruct (find (other_booking _ _ _) _) as [hit |] eqn:Hhit;
    cbn [option_map when_given];
    [ simpl; intros [= <- <- <-]; exists row, hit;
      pose proof (find_some _ _ Hhit) as [Hin Hp];
      rewrite loaded_key; auto 10
    | rewrite bind_unfold; cbv beta iota zeta delta [ret];
      match goal with
      | |- fst (?m _) = _ -> _ =>
          assert (Hn : never (fun r => match r with
                                       | RoomBooked _ _ _ => true
                                       | _ => false
                                       end) m) by auto 20 with orm;
          intro E; apply Hn in E; discriminate E
      end ].
Qed.

(** X23. A room conflict that [assign_room_booking] reports is real: the
    session, start time and date it names are those of a session on
    record, other than the one being placed, that is booked in the
    requested room and overlaps the session being placed. *)
Theorem room_conflict_is_real
    (today : date) (session_id room_id : Z) (s : OrmSession)
    (id : Z) (at_ : time) (on : date) :
  fst (assign_room_booking today session_id room_id s)
  = Raise (ValueError (RoomBooked id at_ on)) ->
  sessions_wf s ->
  exists row hit,
    find (session_by_id session_id) (Sessions (committed s)) = Some row /\
    In hit (Sessions (committed s)) /\
    PersonalTrainingSession.SessionID hit = id /\
    PersonalTrainingSession.StartTime hit = at_ /\
    PersonalTrainingSession.SessionDate hit = on /\
    id <> session_id /\
    PersonalTrainingSession.RoomID hit = Some room_id /\
    overlapping hit row.
Proof.
  intros H [Hs Hnd].
  destruct (assign_room_booked _ _ _ _ _ _ _ H)
    as (row & hit & Hfind & Hin & (Hid & Hat & Hon) & Hother).
  rewrite (loaded_row Sessions PersonalTrainingSession.SessionID s hit
             Hs Hnd Hin) in Hat, Hon.
  rewrite (loaded_of_synced Sessions PersonalTrainingSession.SessionID
             session_id s row Hs Hfind) in Hother.
  apply other_booking_overlapping in Hother.
  destruct Hother as (Hr & Hov & Hne).
  exists row, hit. rewrite <- Hid. auto 10.
Qed.

Lemma room_conflict_is_real_witness :
  exists row hit,
    find (session_by_id 3) (Sessions (committed Scenario.two_booked))
    = Some row /\
    In hit (Sessions (committed Scenario.two_booked)) /\
    PersonalTrainingSession.SessionID hit = 2 /\
    PersonalTrainingSession.StartTime hit = Sample.at_ 10 0 /\
    PersonalTrainingSession.SessionDate hit = Sample.day + 2 /\
    2 <> 3 /\
    PersonalTrainingSession.RoomID hit = Some 1 /\
    overlapping hit row.
Proof.
  assert (E : fst (assign_room_booking (Sample.day + 1) 3 1
                     Scenario.two_booked)
              = Raise (ValueError (RoomBooked 2 (Sample.at_ 10 0)
                                     (Sample.day + 2))))
    by (vm_compute; reflexivity).
  exact (room_conflict_is_real _ _ _ _ _ _ _ E
           (proj1 (run_sessions (fun _ => True) (fun _ _ _ _ _ => I) _
                     Sample.start sample_sessions_wf I))).
Defined.

(** ** Maintenance issues *)

Lemma assign_same {R} (key : R -> Z) (k : Z) (f : R -> R) (rows : list R) :
  (forall o, f o = o) -> assign key k f rows = rows.
Proof.
  intro H. unfold assign. rewrite <- (map_id rows) at 2. apply map_ext.
  intro o. rewrite H. destruct (key o =? k); reflexivity.
Qed.

(** The rows a successful [update_maintenance_status] committed, and the
    issue it returned. *)
Lemma update_maintenance_status_writes today issue_id status repair
    resolution notes s v s1 :
  update_maintenance_status today issue_id status repair resolution notes s
  = (Ok v, s1) ->
  exists row W,
    find (fun i => MaintenanceIssue.IssueID i =? issue_id)
      (MaintenanceIssues (committed s)) = Some row /\
    s1 = clean W /\
    MaintenanceIssues W
    = assign MaintenanceIssue.IssueID issue_id
        (updated_issue status repair resolution notes)
        (MaintenanceIssues (working s)) /\
    (MaintenanceIssues (working s) = MaintenanceIssues (committed s) ->
     v = updated_issue status repair resolution notes row).
Proof.
  unfold update_maintenance_status. intro H. ok_inv.
  all: match goal with
       | C : option_map _ (find _ _) = Some _ |- _ =>
           apply option_map_some in C; destruct C as (row & Hfind & <-)
       end.
  all: assert (Hk : MaintenanceIssue.IssueID
                      (loaded MaintenanceIssues MaintenanceIssue.IssueID s row)
                    = issue_id)
         by (rewrite loaded_key; apply find_some in Hfind;
             apply Z.eqb_eq, Hfind).
  all: rewrite Hk in H.
  all: (apply try_except_ok in H; [| intros e0 s0; reflexivity]);
    ok_inv; cbn [working committed] in *.
  all: exists row; eexists; split; [exact Hfind |]; split; [reflexivity |].
  all: cbn [clean committed MaintenanceIssues with_MaintenanceIssues].
  all: unfold updated_issue;
    repeat match goal with
           | E : Text.truthy _ = _ |- _ => rewrite E; clear E
           end.
  all: repeat rewrite (assign_twice MaintenanceIssue.IssueID issue_id)
         by (intros []; reflexivity).
  all: split;
    [ first [ apply assign_ext; intros []; reflexivity
            | symmetry; apply assign_same; intros []; reflexivity ]
    | intro Hs;
      rewrite ?find_assign by (intros []; reflexivity);
      rewrite Hs, Hfind; cbn [option_map];
      rewrite ?(loaded_of_synced MaintenanceIssues MaintenanceIssue.IssueID
                  issue_id s row Hs Hfind);
      apply find_some in Hfind; destruct Hfind as [_ Hfind];
      rewrite ?Hfind; destruct row; reflexivity ].
Qed.

(** X24. A successful [update_maintenance_status] replaces exactly the
    fields it was given on the issue with that id (an empty status or
    empty notes count as not given, notes are trimmed), never the issue's
    room, reporter, description, equipment, reported date or priority,
    keeps every other issue, and returns the updated issue.  An assigned
    repair date it accepts is not before the reported date and at most 364
    days after today. *)
Theorem maintenance_update_sets_fields
    (today : date) (issue_id : Z) (status : option string)
    (assigned_repair_date resolution_date : option date)
    (resolution_notes : option string) (s s1 : OrmSession)
    (v : MaintenanceIssue.t) :
  update_maintenance_status today issue_id status assigned_repair_date
    resolution_date resolution_notes s = (Ok v, s1) ->
  MaintenanceIssues (working s) = MaintenanceIssues (committed s) ->
  exists row,
    find (fun i => MaintenanceIssue.IssueID i =? issue_id)
      (MaintenanceIssues (committed s)) = Some row /\
    (forall d, assigned_repair_date = Some d ->
       MaintenanceIssue.ReportedDate row <= d <= today + 364) /\
    v = updated_issue status assigned_repair_date resolution_date
          resolution_notes row /\
    MaintenanceIssues (committed s1)
    = map (fun i => if MaintenanceIssue.IssueID i =? issue_id
                    then updated_issue status assigned_repair_date
                           resolution_date resolution_notes i
                    else i)
        (MaintenanceIssues (committed s)).
Proof.
  intros H Hs.
  destruct (update_maintenance_status_writes _ _ _ _ _ _ _ _ _ H)
    as (row & W & Hfind & -> & HW & Hv).
  destruct (update_maintenance_status_ok _ _ _ _ _ _ _ _ _ H)
    as (row' & Hfind' & _ & Hrepair & _).
  rewrite Hfind in Hfind'. injection Hfind' as <-.
  rewrite (loaded_of_synced MaintenanceIssues MaintenanceIssue.IssueID
             issue_id s row Hs Hfind) in Hrepair.
  exists row. split; [exact Hfind |]. split; [exact Hrepair |].
  split; [exact (Hv Hs) |].
  cbn [clean committed]. rewrite HW, Hs. reflexivity.
Qed.

Lemma maintenance_update_sets_fields_witness :
  exists v s1,
    update_maintenance_status Sample.day 1 (Some "Resolved")
      (Some (Sample.day + 3)) None (Some " belt replaced ") Sample.start
    = (Ok v, s1) /\
    v = MaintenanceIssue.mk 1 1 1 "Treadmill not working properly"
          (Some "Treadmill #3") (Sample.day - 5) (Some "High")
          (Some "Resolved") (Some (Sample.day + 3)) None
          (Some "belt replaced") /\
    MaintenanceIssues (committed s1) = [v; Sample.bulb].
Proof.
  destruct (update_maintenance_status Sample.day 1 (Some "Resolved")
              (Some (Sample.day + 3)) None (Some " belt replaced ")
              Sample.start) as [[v | e] s1] eqn:E;
    [| vm_compute in E; discriminate E].
  exists v, s1. split; [reflexivity |].
  destruct (maintenance_update_sets_fields _ _ _ _ _ _ _ _ _ E eq_refl)
    as (row & Hfind & _ & Hv & Hrows).
  injection Hfind as <-.
  split; [rewrite Hv; vm_compute; reflexivity |].
  rewrite Hrows, Hv. vm_compute. reflexivity.
Defined.

(** What a successful [log_maintenance_issue] wrote. *)
Lemma log_maintenance_issue_ok today room_id admin_id issue_description
    equipment_name priority reported_date s v s1 :
  log_maintenance_issue today room_id admin_id issue_description
    equipment_name priority reported_date s = (Ok v, s1) ->
  exists row,
    MaintenanceIssue.IssueID row
    = next_id MaintenanceIssue.IssueID (MaintenanceIssues (working s)) /\
    s1 = clean (with_MaintenanceIssues (insert row) (working s)).
Proof.
  unfold log_maintenance_issue. intro H.
  ok_inv;
    (apply try_except_ok in H; [| intros; reflexivity]);
    ok_inv; cbn [working] in *; eexists; (split; [| reflexivity]);
    reflexivity.
Qed.

(** X25. An issue [log_maintenance_issue] records is open: its status is
    Open and it has no repair date, resolution date or notes; its
    description is the trimmed, non-empty text given, its priority one of
    the four admitted, its reported date the one given or else today, and
    in either case within the last 3650 days and not after today; its room
    and its reporter are on record.  It is appended to the table under a
    new id. *)
Theorem logged_issue_is_open
    (today : date) (room_id admin_id : Z) (issue_description : string)
    (equipment_name : option string) (priority : string)
    (reported_date : option date) (s s1 : OrmSession)
    (v : MaintenanceIssue.t) :
  log_maintenance_issue today room_id admin_id issue_description
    equipment_name priority reported_date s = (Ok v, s1) ->
  (exists r, In r (Rooms (committed s)) /\ Room.RoomID r = room_id) /\
  (exists a, In a (Admins (committed s)) /\ AdminStaff.AdminID a = admin_id) /\
  (MaintenanceIssue.RoomID v = room_id /\
   MaintenanceIssue.AdminID v = admin_id /\
   MaintenanceIssue.IssueDescription v = Text.strip issue_description /\
   MaintenanceIssue.IssueDescription v <> "" /\
   MaintenanceIssue.Priority v = Some priority /\
   In priority priorities) /\
  (MaintenanceIssue.Status v = Some "Open" /\
   MaintenanceIssue.AssignedRepairDate v = None /\
   MaintenanceIssue.ResolutionDate v = None /\
   MaintenanceIssue.ResolutionNotes v = None) /\
  (MaintenanceIssue.ReportedDate v
   = match reported_date with Some d => d | None => today end /\
   today - 3650 <= MaintenanceIssue.ReportedDate v <= today) /\
  (forall i, In i (MaintenanceIssues (working s)) ->
             MaintenanceIssue.IssueID i < MaintenanceIssue.IssueID v) /\
  MaintenanceIssues (committed s1)
  = (MaintenanceIssues (working s) ++ [v])%list.
Proof.
  unfold log_maintenance_issue. intro H.
  ok_inv;
    (apply try_except_ok in H; [| intros; reflexivity]);
    ok_inv;
    cbn [working committed clean with_MaintenanceIssues MaintenanceIssues]
      in *.
  all: rewrite find_inserted by reflexivity.
  all: bool_facts.
  all: repeat match goal with
       | C : is_some (option_map _ _) = true |- _ =>
           apply is_some_map in C;
           let m := fresh "m" in
           let Hm := fresh "Hm" in
           let Hin := fresh "Hin" in
           let Hk := fresh "Hk" in
           destruct C as (m & Hm);
           apply find_some in Hm; destruct Hm as [Hin Hk];
           apply Z.eqb_eq in Hk
       end.
  all: split; [eexists; split; eassumption |].
  all: split; [eexists; split; eassumption |].
  all: cbn [MaintenanceIssue.RoomID MaintenanceIssue.AdminID
            MaintenanceIssue.IssueDescription MaintenanceIssue.Priority
            MaintenanceIssue.Status MaintenanceIssue.AssignedRepairDate
            MaintenanceIssue.ResolutionDate MaintenanceIssue.ResolutionNotes
            MaintenanceIssue.ReportedDate MaintenanceIssue.IssueID].
  all: split;
    [ repeat split;
      first [ apply not_blank; assumption | apply one_of_in; assumption ] |].
  all: split; [repeat split |].
  all: split; [split; [reflexivity | lia] |].
  all: split; [intros i0 Hi; apply next_id_above, Hi | reflexivity].
Qed.

Lemma logged_issue_is_open_witness :
  exists v s1,
    log_maintenance_issue Sample.day 2 1 " Mirror cracked " None "Low"
      (Some (Sample.day - 1)) Sample.start = (Ok v, s1) /\
    MaintenanceIssue.Status v = Some "Open" /\
    MaintenanceIssues (committed s1)
    = [Sample.treadmill; Sample.bulb; v].
Proof.
  destruct (log_maintenance_issue Sample.day 2 1 " Mirror cracked " None
              "Low" (Some (Sample.day - 1)) Sample.start)
    as [[v | e] s1] eqn:E; [| vm_compute in E; discriminate E].
  exists v, s1. split; [reflexivity |].
  destruct (logged_issue_is_open _ _ _ _ _ _ _ _ _ _ E)
    as (_ & _ & _ & (Hst & _) & _ & _ & Hrows).
  split; [exact Hst | exact Hrows].
Defined.

(** *** Settled issues *)

Section Settled.

Variable names : list string.

(** The statuses [names] are closed under the transitions
    [update_maintenance_status] admits. *)
Hypothesis guarded :
  forall old new : option string,
    status_in old names = true ->
    (status_is old "Closed" = true -> status_is new "Closed" = true) ->
    (status_is old "Resolved" = true ->
     status_in new ["Resolved"; "Closed"] = true) ->
    status_in new names = true.

Lemma settled_in_insert (id : Z) (t : Tables) (row : MaintenanceIssue.t) :
  MaintenanceIssue.IssueID row
  = next_id MaintenanceIssue.IssueID (MaintenanceIssues t) ->
  settled_in id names t ->
  settled_in id names (with_MaintenanceIssues (insert row) t).
Proof.
  intros Hrow [[i0 [Hin0 Hid0]] Hall].
  unfold settled_in, with_MaintenanceIssues, insert.
  cbn [MaintenanceIssues]. split.
  - exists i0. split; [apply in_or_app; auto | exact Hid0].
  - intros i Hin Hid. apply in_app_or in Hin. destruct Hin as [Hin | [<- | []]].
    + apply Hall; assumption.
    + pose proof (next_id_above MaintenanceIssue.IssueID _ _ Hin0). lia.
Qed.

Lemma settled_in_same_issues (id : Z) (t t' : Tables) :
  MaintenanceIssues t' = MaintenanceIssues t ->
  settled_in id names t -> settled_in id names t'.
Proof. unfold settled_in. intros ->. auto. Qed.

Lemma settled_in_update (id : Z) today issue_id status repair resolution
    notes s v s1 :
  update_maintenance_status today issue_id status repair resolution notes s
  = (Ok v, s1) ->
  MaintenanceIssues (working s) = MaintenanceIssues (committed s) ->
  settled_in id names (committed s) ->
  settled_in id names (committed s1).
Proof.
  intros H Hs [[i0 [Hin0 Hid0]] Hall].
  destruct (update_maintenance_status_writes _ _ _ _ _ _ _ _ _ H)
    as (row & W & Hfind & -> & HW & _).
  destruct (update_maintenance_status_ok _ _ _ _ _ _ _ _ _ H)
    as (row' & Hfind' & Hstatus & _).
  rewrite Hfind in Hfind'. injection Hfind' as <-.
  rewrite (loaded_of_synced MaintenanceIssues MaintenanceIssue.IssueID
             issue_id s row Hs Hfind) in Hstatus.
  pose proof (find_some _ _ Hfind) as [Hrow Hk]. apply Z.eqb_eq in Hk.
  assert (Hnew : forall i, In i (MaintenanceIssues (committed s)) ->
                   MaintenanceIssue.IssueID i = id ->
                   MaintenanceIssue.IssueID i = issue_id ->
                   status_in
                     (MaintenanceIssue.Status
                        (updated_issue status repair resolution notes i))
                     names = true).
  { intros i Hi Hid Hki. unfold updated_issue.
    cbn [MaintenanceIssue.Status].
    destruct (Text.truthy status) eqn:Ht; [| apply Hall; assumption].
    destruct (Hstatus eq_refl) as (_ & Hclosed & Hresolved).
    apply (guarded (MaintenanceIssue.Status row));
      [apply Hall; [exact Hrow | congruence] | exact Hclosed | exact Hresolved]. }
  unfold settled_in. cbn [clean committed]. rewrite HW, Hs. split.
  - exists (if MaintenanceIssue.IssueID i0 =? issue_id
            then updated_issue status repair resolution notes i0 else i0).
    split.
    + unfold assign. apply in_map_iff. exists i0. auto.
    + destruct (MaintenanceIssue.IssueID i0 =? issue_id); [| exact Hid0].
      destruct i0. exact Hid0.
  - intros i Hin Hid.
    destruct (assign_in _ _ _ _ _ Hin) as (o & Ho & ->).
    destruct (Z.eqb_spec (MaintenanceIssue.IssueID o) issue_id) as [E | E].
    + apply Hnew; [exact Ho | destruct o; exact Hid | exact E].
    + apply Hall; assumption.
Qed.

(** One call of the loop keeps the issue settled and the table without
    pending changes. *)
Lemma perform_settled (today : date) (op : Op) (id : Z) (s : OrmSession) :
  MaintenanceIssues (working s) = MaintenanceIssues (committed s) ->
  settled_in id names (committed s) ->
  let s' := snd (perform today op s) in
  MaintenanceIssues (working s') = MaintenanceIssues (committed s') /\
  settled_in id names (committed s').
Proof.
  intros Hs Hset s'.
  assert (Hw : settled_in id names (working s))
    by (apply (settled_in_same_issues id (committed s)); assumption).
  destruct (writes_issues op) eqn:Hop.
  - assert (Hfail : is_ok (fst (perform today op s)) = false ->
                    MaintenanceIssues (working s')
                    = MaintenanceIssues (committed s') /\
                    settled_in id names (committed s')).
    { intro Hf.
      destruct (perform_atomic today op) with (s := s) as [H | H];
        [destruct op; try discriminate; reflexivity | exact Hf | |];
        subst s'; rewrite H; cbn [clean committed working]; auto. }
    destruct op; try discriminate; subst s'; simpl in *; unfold outcome in *.
    + destruct (log_maintenance_issue _ _ _ _ _ _ _ s) as [[v | e] s1] eqn:E;
        cbn [fst snd is_ok] in *; [| auto].
      destruct (log_maintenance_issue_ok _ _ _ _ _ _ _ _ _ _ E)
        as (row & Hrow & ->).
      cbn [clean committed working]. split; [reflexivity |].
      apply settled_in_insert; assumption.
    + destruct (update_maintenance_status _ _ _ _ _ _ s)
        as [[v | e] s1] eqn:E; cbn [fst snd is_ok] in *; [| auto].
      split; [| apply (settled_in_update id _ _ _ _ _ _ _ _ _ E Hs Hset)].
      destruct (update_maintenance_status_writes _ _ _ _ _ _ _ _ _ E)
        as (row & W & _ & -> & _). reflexivity.
  - destruct (perform_keeps_issues today op Hop s Hs) as [Hc Hwk].
    subst s'. split; [congruence |].
    apply (settled_in_same_issues id (committed s)); assumption.
Qed.

Lemma run_settled (calls : list (date * Op)) (id : Z) (s : OrmSession) :
  MaintenanceIssues (working s) = MaintenanceIssues (committed s) ->
  settled_in id names (committed s) ->
  MaintenanceIssues (working (run calls s))
  = MaintenanceIssues (committed (run calls s)) /\
  settled_in id names (committed (run calls s)).
Proof.
  revert s. induction calls as [| [today op] calls IH]; intros s Hs Hset;
    [simpl; auto |].
  cbn [run]. destruct (perform_settled today op id s Hs Hset) as [Hs' Hset'].
  apply IH; assumption.
Qed.

End Settled.

Lemma status_in_closed (o : option string) :
  status_in o ["Closed"] = status_is o "Closed".
Proof.
  destruct o as [x |]; [| reflexivity].
  unfold status_in, status_is, Text.one_of. cbn [existsb].
  rewrite orb_false_r. reflexivity.
Qed.

(** X26. A settled maintenance issue stays settled: whatever operations
    are run, with whatever arguments, an issue that is Closed is still on
    record and Closed afterwards, and an issue that is Resolved or Closed
    is still on record and Resolved or Closed afterwards. *)
Theorem settled_issue_stays_settled
    (calls : list (date * Op)) (id : Z) (s : OrmSession) :
  MaintenanceIssues (working s) = MaintenanceIssues (committed s) ->
  (settled_in id ["Closed"] (committed s) ->
   settled_in id ["Closed"] (committed (run calls s))) /\
  (settled_in id ["Resolved"; "Closed"] (committed s) ->
   settled_in id ["Resolved"; "Closed"] (committed (run calls s))).
Proof.
  intro Hs. split; intro Hset.
  - apply run_settled; [| exact Hs | exact Hset].
    intros old new Hold Hclosed _. rewrite status_in_closed in *. auto.
  - apply run_settled; [| exact Hs | exact Hset].
    intros old new Hold Hclosed Hresolved.
    destruct old as [x |]; [| discriminate Hold].
    unfold status_in, Text.one_of in Hold. cbn [existsb] in Hold.
    rewrite orb_false_r in Hold. apply orb_true_iff in Hold.
    destruct Hold as [E | E]; apply String.eqb_eq in E; subst x.
    + apply Hresolved. reflexivity.
    + specialize (Hclosed eq_refl). rewrite <- status_in_closed in Hclosed.
      destruct new as [y |]; [| discriminate Hclosed].
      unfold status_in, Text.one_of in *. cbn [existsb] in *.
      rewrite orb_false_r in Hclosed. rewrite Hclosed.
      apply orb_true_r.
Qed.

Lemma settled_issue_stays_settled_witness :
  settled_in 2 ["Resolved"; "Closed"]
    (committed
       (run [ (Sample.day,
               UpdateMaintenanceStatus 2 (Some "Open") None None None);
              (Sample.day,
               LogMaintenanceIssue 2 1 "Mirror cracked" None "Low" None);
              (Sample.day + 1,
               UpdateMaintenanceStatus 2 (Some "Closed") None
                 (Some Sample.day) (Some "bulb replaced")) ]
          Sample.start)).
Proof.
  assert (H0 : settled_in 2 ["Resolved"; "Closed"] (committed Sample.start)).
  { split.
    - exists Sample.bulb. split; [right; left; reflexivity | reflexivity].
    - intros i [<- | [<- | []]] Hid; [discriminate Hid | reflexivity]. }
  exact (proj2 (settled_issue_stays_settled _ 2 Sample.start eq_refl) H0).
Defined.

(** ** Invoices *)

(** Every check a successful [create_invoice] passed, and the row it
    committed. *)
Lemma create_invoice_passed today payer_id invoice_number invoice_date
    due_date amount service_description session_id payment_method s v s1 :
  create_invoice today payer_id invoice_number invoice_date due_date amount
    service_description session_id payment_method s = (Ok v, s1) ->
  v = Invoice.mk (next_id Invoice.InvoiceID (Invoices (working s)))
        (Text.strip invoice_number) payer_id session_id invoice_date due_date
        (numeric2 (round2 amount)) (Text.strip_or_none payment_method)
        (Some "Pending") (Some (Text.strip service_description)) None /\
  s1 = clean (with_Invoices (insert v) (working s)) /\
  (Text.blank invoice_number = false /\
   Text.blank service_description = false) /\
  (today - 3650 <= invoice_date <= today /\
   invoice_date <= due_date <= invoice_date + 365) /\
  (float_leb amount (Finite 0) = false /\
   float_gtb amount (Finite 1000000) = false) /\
  (exists m, find (member_by_id payer_id) (Members (committed s)) = Some m) /\
  (forall sid, session_id = Some sid ->
     exists p,
       find (session_by_id sid) (Sessions (committed s)) = Some p /\
       PersonalTrainingSession.MemberID
         (loaded Sessions PersonalTrainingSession.SessionID s p) = payer_id) /\
  unique_ok (with_Invoices (insert v) (working s)) = true /\
  widths_ok (with_Invoices (insert v) (working s)) = true.
Proof.
  unfold create_invoice. intro H.
  ok_inv;
    (apply try_except_ok in H; [| intros e0 s0; destruct e0; reflexivity]);
    ok_inv; cbn [working committed clean with_Invoices Invoices] in *.
  all: rewrite find_inserted by reflexivity.
  all: bool_facts.
  all: split; [reflexivity |]; split; [reflexivity |].
  all: split; [split; assumption |].
  all: split; [lia |].
  all: split; [split; assumption |].
  all: split;
    [ match goal with
      | C : is_some (option_map _ (find (member_by_id _) _)) = true |- _ =>
          apply is_some_map in C; destruct C as (m & Hm); exists m; exact Hm
      end |].
  all: split; [| split; assumption].
  all: intros sid Hsid; first [discriminate Hsid | injection Hsid as <-].
  all: first
    [ match goal with
      | C : option_map _ (find (session_by_id _) _) = Some _ |- _ =>
          apply option_map_some in C; destruct C as (p & Hp & <-);
          exists p; split; [exact Hp | assumption]
      end
    | cbn [nonzero] in *; bool_facts; exfalso; lia ].
Qed.

Lemma fits_length (n : nat) (x : string) :
  fits n x = true -> (String.length x <= n)%nat.
Proof. unfold fits. apply Nat.leb_le. Qed.

(** X27. An invoice [create_invoice] issues is pending and unpaid, for
    the payer, session, dates and descriptions given; its number is the
    trimmed, non-empty text given, at most 20 characters long and carried
    by no other invoice, its description at most 200 characters and a
    payment method at most 30, the widths of the columns.  The invoice
    date is within the last 3650 days and not after today, the due date
    from the invoice date to 365 days after it.  The amount given is above
    0 and at most 1000000, or is NaN, which neither comparison of the
    amount check rejects; the invoice carries it rounded to two decimals,
    and carries NaN for NaN.  The payer is on record and a session, when
    named, is on record as the payer's.  The invoice is appended to the
    table under a new id. *)
Theorem created_invoice_is_pending
    (today : date) (payer_id : Z) (invoice_number : string)
    (invoice_date due_date : date) (amount : float)
    (service_description : string) (session_id : option Z)
    (payment_method : option string) (s s1 : OrmSession) (v : Invoice.t) :
  create_invoice today payer_id invoice_number invoice_date due_date amount
    service_description session_id payment_method s = (Ok v, s1) ->
  Sessions (working s) = Sessions (committed s) ->
  (exists m, In m (Members (committed s)) /\ Member.MemberID m = payer_id) /\
  (forall sid, session_id = Some sid ->
     exists p, In p (Sessions (committed s)) /\
               PersonalTrainingSession.SessionID p = sid /\
               PersonalTrainingSession.MemberID p = payer_id) /\
  (today - 3650 <= invoice_date <= today /\
   invoice_date <= due_date <= invoice_date + 365) /\
  (nan_or (fun q => (0 < q)%Q /\ (q <= 1000000)%Q) amount /\
   Invoice.Amount v = numeric2 (round2 amount) /\
   (amount = NaN -> Invoice.Amount v = NaN)) /\
  (Invoice.InvoiceNumber v = Text.strip invoice_number /\
   Invoice.InvoiceNumber v <> "" /\
   (String.length (Invoice.InvoiceNumber v) <= 20)%nat) /\
  (Invoice.ServiceDescription v = Some (Text.strip service_description) /\
   (String.length (Text.strip service_description) <= 200)%nat /\
   Invoice.PaymentMethod v = Text.strip_or_none payment_method /\
   forall m, Invoice.PaymentMethod v = Some m ->
             (String.length m <= 30)%nat) /\
  (Invoice.PayerID v = payer_id /\ Invoice.SessionID v = session_id /\
   Invoice.InvoiceDate v = invoice_date /\ Invoice.DueDate v = due_date /\
   Invoice.PaymentStatus v = Some "Pending" /\ Invoice.PaidDate v = None) /\
  (forall i, In i (Invoices (working s)) ->
     Invoice.InvoiceID i < Invoice.InvoiceID v /\
     Invoice.InvoiceNumber i <> Invoice.InvoiceNumber v) /\
  Invoices (committed s1) = (Invoices (working s) ++ [v])%list.
Proof.
  intros H Hs.
  destruct (create_invoice_passed _ _ _ _ _ _ _ _ _ _ _ _ H)
    as (Hv & -> & (Hnum & Hdesc) & Hdates & (Hpos & Hmax) & (m & Hm)
        & Hsession & Hu & Hw).
  assert (Hfits : invoice_fits v = true).
  { unfold widths_ok in Hw. bool_facts.
    match goal with
    | F : forallb invoice_fits _ = true |- _ =>
        cbn [with_Invoices Invoices] in F; unfold insert in F;
        rewrite forallb_app in F; apply andb_prop in F;
        destruct F as [_ F]; cbn [forallb] in F;
        apply andb_prop in F; apply F
    end. }
  unfold invoice_fits in Hfits. bool_facts.
  split.
  { apply find_some in Hm. destruct Hm as [Hin Hk]. apply Z.eqb_eq in Hk.
    exists m. split; assumption. }
  split.
  { intros sid Hsid. destruct (Hsession sid Hsid) as (p & Hp & Hmem).
    rewrite (loaded_of_synced Sessions PersonalTrainingSession.SessionID
               sid s p Hs Hp) in Hmem.
    apply find_some in Hp. destruct Hp as [Hin Hk]. apply Z.eqb_eq in Hk.
    exists p. auto. }
  split; [exact Hdates |].
  split.
  { split; [apply float_between; assumption |].
    split; [rewrite Hv; reflexivity |].
    intros ->. rewrite Hv. reflexivity. }
  split.
  { rewrite Hv. cbn [Invoice.InvoiceNumber]. split; [reflexivity |].
    split; [apply not_blank, Hnum |].
    apply fits_length.
    match goal with
    | F : fits 20 _ = true |- _ => rewrite Hv in F; exact F
    end. }
  split.
  { rewrite Hv. cbn [Invoice.ServiceDescription Invoice.PaymentMethod].
    split; [reflexivity |].
    split.
    - apply fits_length.
      match goal with
      | F : fits_opt 200 _ = true |- _ => rewrite Hv in F; exact F
      end.
    - split; [reflexivity |]. intros m0 Hm0. apply fits_length.
      match goal with
      | F : fits_opt 30 _ = true |- _ =>
          rewrite Hv in F; cbn [Invoice.PaymentMethod] in F;
          rewrite Hm0 in F; exact F
      end. }
  split; [rewrite Hv; repeat split |].
  split.
  { intros i Hi. split.
    - rewrite Hv. cbn [Invoice.InvoiceID].
      apply next_id_above, Hi.
    - unfold unique_ok in Hu. apply andb_prop in Hu. destruct Hu as [_ Hu].
      cbn [with_Invoices Invoices] in Hu. unfold insert in Hu.
      rewrite map_app in Hu. cbn [map] in Hu. apply distinct_fresh in Hu.
      intro E. apply Hu. rewrite <- E. apply in_map, Hi. }
  reflexivity.
Qed.

Lemma created_invoice_is_pending_witness :
  exists v s1,
    create_invoice Sample.day 1 " INV-002 " (Sample.day - 1)
      (Sample.day + 29) NaN "Personal Training Session" (Some 1) None
      Sample.start = (Ok v, s1) /\
    Invoice.InvoiceNumber v = "INV-002" /\
    Invoice.PaymentStatus v = Some "Pending" /\
    Invoice.Amount v = NaN /\
    Invoices (committed s1) = [Sample.bill; v].
Proof.
  destruct (create_invoice Sample.day 1 " INV-002 " (Sample.day - 1)
              (Sample.day + 29) NaN "Personal Training Session" (Some 1) None
              Sample.start) as [[v | e] s1] eqn:E;
    [| vm_compute in E; discriminate E].
  exists v, s1. split; [reflexivity |].
  destruct (created_invoice_is_pending _ _ _ _ _ _ _ _ _ _ _ _ E eq_refl)
    as (_ & _ & _ & (_ & _ & Hnan) & (Hn & _) & _ & (_ & _ & _ & _ & Hst & _)
        & _ & Hrows).
  split; [rewrite Hn; vm_compute; reflexivity |].
  split; [exact Hst |]. split; [exact (Hnan eq_refl) | exact Hrows].
Defined.

(** *** A number in use *)

Lemma numbered_in_same_invoices (number : string) (t t' : Tables) :
  Invoices t' = Invoices t -> numbered_in number t -> numbered_in number t'.
Proof. unfold numbered_in. intros ->. auto. Qed.

Lemma numbered_in_insert (number : string) (t : Tables) (row : Invoice.t) :
  numbered_in number t -> numbered_in number (with_Invoices (insert row) t).
Proof.
  intros (i & Hin & Hn). exists i. split; [| exact Hn].
  cbn [with_Invoices Invoices]. unfold insert. apply in_or_app. auto.
Qed.

Lemma numbered_in_set_payment (number : string) (t : Tables) (k : Z)
    (st m : option string) (p : option date) :
  numbered_in number t ->
  numbered_in number
    (with_Invoices (assign Invoice.InvoiceID k (Invoice.set_payment st m p)) t).
Proof.
  intros (i & Hin & Hn).
  exists (if Invoice.InvoiceID i =? k then Invoice.set_payment st m p i else i).
  split.
  - cbn [with_Invoices Invoices]. unfold assign. apply in_map_iff.
    exists i. auto.
  - destruct (Invoice.InvoiceID i =? k); [destruct i |]; exact Hn.
Qed.

(** One call of the loop keeps the number on record and the table without
    pending changes. *)
Lemma perform_numbered (today : date) (op : Op) (number : string)
    (s : OrmSession) :
  Invoices (working s) = Invoices (committed s) ->
  numbered_in number (committed s) ->
  let s' := snd (perform today op s) in
  Invoices (working s') = Invoices (committed s') /\
  numbered_in number (committed s').
Proof.
  intros Hs Hnum s'.
  assert (Hw : numbered_in number (working s))
    by (apply (numbered_in_same_invoices number (committed s)); assumption).
  destruct (writes_invoices op) eqn:Hop.
  - assert (Hfail : is_ok (fst (perform today op s)) = false ->
                    Invoices (working s') = Invoices (committed s') /\
                    numbered_in number (committed s')).
    { intro Hf.
      destruct (perform_atomic today op) with (s := s) as [H | H];
        [destruct op; try discriminate; reflexivity | exact Hf | |];
        subst s'; rewrite H; cbn [clean committed working]; auto. }
    destruct op; try discriminate; subst s'; simpl in *; unfold outcome in *.
    + destruct (create_invoice _ _ _ _ _ _ _ _ _ s) as [[v | e] s1] eqn:E;
        cbn [fst snd is_ok] in *; [| auto].
      destruct (create_invoice_ok _ _ _ _ _ _ _ _ _ _ _ _ E) as (row & _ & ->).
      cbn [clean committed working]. split; [reflexivity |].
      apply numbered_in_insert. exact Hw.
    + destruct (record_payment _ _ _ _ s) as [[v | e] s1] eqn:E;
        cbn [fst snd is_ok] in *; [| auto].
      destruct (record_payment_ok _ _ _ _ _ _ _ E) as (row & _ & _ & _ & ->).
      cbn [clean committed working]. split; [reflexivity |].
      apply numbered_in_set_payment. exact Hw.
  - destruct (perform_keeps_invoices today op Hop s Hs) as [Hc Hwk].
    subst s'. split; [congruence |].
    apply (numbered_in_same_invoices number (committed s)); assumption.
Qed.

Lemma run_numbered (calls : list (date * Op)) (number : string)
    (s : OrmSession) :
  Invoices (working s) = Invoices (committed s) ->
  numbered_in number (committed s) ->
  Invoices (working (run calls s)) = Invoices (committed (run calls s)) /\
  numbered_in number (committed (run calls s)).
Proof.
  revert s. induction calls as [| [today op] calls IH]; intros s Hs Hnum;
    [simpl; auto |].
  cbn [run]. destruct (perform_numbered today op number s Hs Hnum)
    as [Hs' Hnum'].
  apply IH; assumption.
Qed.

(** A call of [create_invoice] with a number that is on record. *)
Lemma create_invoice_on_numbered today payer_id invoice_number invoice_date
    due_date amount service_description session_id payment_method s :
  Invoices (working s) = Invoices (committed s) ->
  numbered_in (Text.strip invoice_number) (committed s) ->
  exists r,
    fst (create_invoice today payer_id invoice_number invoice_date due_date
           amount service_description session_id payment_method s)
    = Raise (ValueError r) /\
    Invoices
      (committed
         (snd (create_invoice today payer_id invoice_number invoice_date
                 due_date amount service_description session_id
                 payment_method s)))
    = Invoices (committed s).
Proof.
  intros Hs (i & Hin & Hn).
  set (op := CreateInvoice payer_id invoice_number invoice_date due_date
               amount service_description session_id payment_method).
  pose proof (perform_value_errors today op s) as Hv.
  pose proof (perform_atomic today op eq_refl s) as Ha.
  simpl in Hv, Ha. unfold outcome in Hv, Ha.
  destruct (create_invoice today payer_id invoice_number invoice_date
              due_date amount service_description session_id payment_method
              s) as [[v | e] s1] eqn:E.
  - exfalso.
    destruct (create_invoice_passed _ _ _ _ _ _ _ _ _ _ _ _ E)
      as (Hrow & _ & _ & _ & _ & _ & _ & Hu & _).
    unfold unique_ok in Hu. apply andb_prop in Hu. destruct Hu as [_ Hu].
    cbn [with_Invoices Invoices] in Hu. unfold insert in Hu.
    rewrite map_app in Hu. cbn [map] in Hu. apply distinct_fresh in Hu.
    apply Hu. rewrite Hrow. cbn [Invoice.InvoiceNumber].
    rewrite <- Hn, Hs. apply in_map, Hin.
  - cbn [fst snd] in *. destruct (Hv e eq_refl) as [r ->].
    exists r. split; [reflexivity |].
    destruct (Ha eq_refl) as [-> | ->]; reflexivity.
Qed.

(** X28. An invoice number is used once: when an invoice with a number is
    on record, then after any operations, [create_invoice] with a number
    that is the same once trimmed raises [ValueError] and adds no invoice,
    whatever its other arguments. *)
Theorem invoice_number_used_once
    (calls : list (date * Op)) (s : OrmSession)
    (today : date) (payer_id : Z) (invoice_number : string)
    (invoice_date due_date : date) (amount : float)
    (service_description : string) (session_id : option Z)
    (payment_method : option string) :
  Invoices (working s) = Invoices (committed s) ->
  numbered_in (Text.strip invoice_number) (committed s) ->
  exists r,
    fst (create_invoice today payer_id invoice_number invoice_date due_date
           amount service_description session_id payment_method
           (run calls s))
    = Raise (ValueError r) /\
    Invoices
      (committed
         (snd (create_invoice today payer_id invoice_number invoice_date
                 due_date amount service_description session_id
                 payment_method (run calls s))))
    = Invoices (committed (run calls s)).
Proof.
  intros Hs Hnum.
  destruct (run_numbered calls _ s Hs Hnum) as [Hs' Hnum'].
  apply create_invoice_on_numbered; assumption.
Qed.

Lemma invoice_number_used_once_witness :
  exists r,
    fst (create_invoice (Sample.day + 1) 2 " INV-001 " Sample.day
           (Sample.day + 30) (Finite 120) "Group Class" None None
           (run [(Sample.day, RecordPayment 1 "Cash" None)] Sample.start))
    = Raise (ValueError r) /\
    Invoices
      (committed
         (snd (create_invoice (Sample.day + 1) 2 " INV-001 " Sample.day
                 (Sample.day + 30) (Finite 120) "Group Class" None None
                 (run [(Sample.day, RecordPayment 1 "Cash" None)]
                    Sample.start))))
    = Invoices
        (committed
           (run [(Sample.day, RecordPayment 1 "Cash" None)] Sample.start)).
Proof.
  assert (H0 : numbered_in (Text.strip " INV-001 ") (committed Sample.start)).
  { exists Sample.bill. split; [left; reflexivity | vm_compute; reflexivity]. }
  exact (invoice_number_used_once
           [(Sample.day, RecordPayment 1 "Cash" None)] Sample.start
           (Sample.day + 1) 2 " INV-001 " Sample.day (Sample.day + 30)
           (Finite 120)
           "Group Class" None None eq_refl H0).
Defined.
